(** * Storefront backend: coupon engine, cart pricing, cart controller and
      payment webhook

    A shallow embedding of the pricing and fulfilment code of the backend
    ([models/Coupon.js], [models/Cart.js], the order model, the
    negotiation service, [controllers/cartController.js], the payment
    controller that follows it in the same source file, and
    [controllers/clerkController.js]).

    Conventions of the embedding.
    - A JavaScript [Number] holding money or a percentage is an exact
      rational ([Q]); results are compared with [==].  Rounding effects
      that only IEEE doubles have are outside the model; the concrete
      inputs at which a property is shown to fail are small integers and
      dyadic fractions, on which doubles compute the same results.
    - Counts (quantity, stock, usedCount, usageLimit, minor-unit amounts)
      and timestamps are integers ([Z]).
    - [null]/[undefined] is [None]; a MongoDB ObjectId is the string it
      prints as; a collection is a finite map from its unique key.
    - [async] controllers run in a state-and-exception monad over the
      database; a [try]/[catch] is the monad's [try_catch]. *)

From Stdlib Require Import QArith Qround Qminmax Qabs Lqa ZArith String Ascii.
From stdpp Require Import gmap strings list fin_maps pretty.

Local Open Scope string_scope.

(** ** JavaScript numbers and strings *)

Module JS.

(** [Math.round]: nearest integer, ties towards +infinity. *)
Definition Math_round (x : Q) : Z := Qfloor (x + (1 # 2)).

(** [Math.floor]. *)
Definition Math_floor (x : Q) : Z := Qfloor x.

(** The idiom [Math.round(x * 100) / 100] used throughout the code. *)
Definition round2 (x : Q) : Q := (inject_Z (Math_round (x * 100)) / 100)%Q.

Definition Qltb (x y : Q) : bool := negb (Qle_bool y x).

(** [s || null] on an optional string: the empty string is falsy. *)
Definition truthy (s : option string) : option string :=
  match s with
  | Some EmptyString => None
  | _ => s
  end.

Definition is_truthy (s : option string) : bool :=
  match truthy s with Some _ => true | None => false end.

Definition two_digits (n : Z) : string :=
  if (n <? 10)%Z then "0" +:+ pretty n else pretty n.

(** [x.toFixed(2)]: the hundredths nearest to [|x|] (ties to the larger),
    printed with a sign when [x < 0]. *)
Definition toFixed2 (x : Q) : string :=
  let n := Qfloor (Qabs x * 100 + (1 # 2)) in
  (if Qltb x 0 then "-" else EmptyString)
    +:+ pretty (n / 100)%Z +:+ "." +:+ two_digits (n mod 100)%Z.

(** Template-literal printing of a number with at most one decimal,
    given as its tenths [k] (the number is [k / 10]). *)
Definition tenths_toString (k : Z) : string :=
  let a := Z.abs k in
  (if (k <? 0)%Z then "-" else EmptyString)
    +:+ pretty (a / 10)%Z
    +:+ (if (a mod 10 =? 0)%Z then EmptyString else "." +:+ pretty (a mod 10)%Z).

(** The double-quote character, for messages that quote a name. *)
Definition dquote : string := String (ascii_of_nat 34) EmptyString.

End JS.

Import JS.

(** ** models/Coupon.js *)

Inductive DiscountType := percentage | fixed.

#[global] Instance DiscountType_eq_dec : EqDecision DiscountType.
Proof. solve_decision. Defined.

(** Result of [isValid]: [{ valid: true }] or [{ valid: false, reason }]. *)
Inductive Validation :=
| Valid
| Invalid (reason : string).

Module Coupon.

(** An element of [usedBy]. *)
Record usage := { u_userId : string; usedAt : Z }.

(** The coupon document.  [negotiationMeta], [createdBy] and the
    timestamps, which nothing modelled here reads, are left out. *)
Record t := {
  code : string;
  discountType : DiscountType;
  discountValue : Q;
  minPurchase : Q;
  maxDiscount : option Q;          (* null = no cap *)
  expiresAt : option Z;            (* null = never expires *)
  usageLimit : option Z;           (* null = unlimited *)
  usedCount : Z;
  usedBy : list usage;
  onePerUser : bool;
  isActive : bool;
  source : string;
  stripeCouponId : option string;
  stripePromotionCodeId : option string
}.

Definition reason_inactive : string := "Coupon is inactive".
Definition reason_expired : string := "Coupon has expired".
Definition reason_limit : string := "Coupon usage limit reached".
Definition reason_used : string := "You have already used this coupon".
Definition reason_minimum (m : Q) : string :=
  "Minimum purchase of $" +:+ toFixed2 m +:+ " required".

(** [this.usedBy.some(u => u.userId.toString() === userId.toString())] *)
Definition alreadyUsed (c : t) (userId : string) : bool :=
  existsb (fun u => String.eqb (u_userId u) userId) (usedBy c).

(** [couponSchema.methods.isValid(cartSubtotal, userId)], with the clock
    [new Date()] as the argument [now]; [userId] is [None] when the
    argument is falsy. *)
Definition isValid (c : t) (cartSubtotal : Q) (userId : option string)
    (now : Z) : Validation :=
  if negb (isActive c) then Invalid reason_inactive
  else if match expiresAt c with
          | Some e => (e <? now)%Z
          | None => false
          end
  then Invalid reason_expired
  else if match usageLimit c with
          | Some l => (l <=? usedCount c)%Z
          | None => false
          end
  then Invalid reason_limit
  else if match userId with
          | Some u => onePerUser c && alreadyUsed c u
          | None => false
          end
  then Invalid reason_used
  else if Qltb cartSubtotal (minPurchase c)
  then Invalid (reason_minimum (minPurchase c))
  else Valid.

(** [couponSchema.methods.calculateDiscount(subtotal)]. *)
Definition calculateDiscount (c : t) (subtotal : Q) : Q :=
  let discount :=
    match discountType c with
    | percentage => (subtotal * (discountValue c / 100))%Q
    | fixed => discountValue c
    end in
  let discount :=
    match maxDiscount c with
    | Some m => if Qltb m discount then m else discount
    | None => discount
    end in
  let discount := Qmin discount subtotal in
  round2 discount.

(** The in-memory part of [couponSchema.methods.recordUsage(userId)];
    the [save()] that follows is [Model.Coupon_save].  [userId] is [None]
    when the argument is falsy; [now] is the [Date.now] default of
    [usedAt]. *)
Definition recordUsage (c : t) (userId : option string) (now : Z) : t :=
  {| code := code c;
     discountType := discountType c;
     discountValue := discountValue c;
     minPurchase := minPurchase c;
     maxDiscount := maxDiscount c;
     expiresAt := expiresAt c;
     usageLimit := usageLimit c;
     usedCount := (usedCount c + 1)%Z;
     usedBy :=
       match userId with
       | Some u => usedBy c ++ [{| u_userId := u; usedAt := now |}]
       | None => usedBy c
       end;
     onePerUser := onePerUser c;
     isActive := isActive c;
     source := source c;
     stripeCouponId := stripeCouponId c;
     stripePromotionCodeId := stripePromotionCodeId c |}.

End Coupon.

(** ** models/Cart.js *)

Module Cart.

Record item := {
  productId : string;
  quantity : Z;
  size : option string;
  color : option string;
  price : Q                       (* price snapshot taken at add time *)
}.

Record applied := {
  a_code : option string;
  a_discountType : option DiscountType;
  a_discountValue : Q
}.

Record t := {
  _id : string;
  userId : string;
  items : list item;
  appliedCoupon : applied
}.

(** [{ code: null, discountType: null, discountValue: 0 }] *)
Definition no_coupon : applied :=
  {| a_code := None; a_discountType := None; a_discountValue := 0 |}.

(** [cartSchema.virtual("subtotal")]: a left-to-right [reduce] from 0. *)
Definition subtotal (c : t) : Q :=
  fold_left (fun sum i => (sum + price i * inject_Z (quantity i))%Q)
            (items c) 0%Q.

(** [cartSchema.virtual("discount")]. *)
Definition discount (c : t) : Q :=
  if negb (is_truthy (a_code (appliedCoupon c))) then 0%Q
  else
    let sub := subtotal c in
    match a_discountType (appliedCoupon c) with
    | Some percentage =>
        round2 (sub * (a_discountValue (appliedCoupon c) / 100))
    | Some fixed => Qmin (a_discountValue (appliedCoupon c)) sub
    | None => 0%Q
    end.

(** [cartSchema.virtual("total")]. *)
Definition total (c : t) : Q :=
  Qmax 0 (round2 (subtotal c - discount c)).

(** Schema validation run by [cart.save()]: [quantity] has [min: 1]. *)
Definition validate (c : t) : bool :=
  forallb (fun i => (1 <=? quantity i)%Z) (items c).

Definition with_items (c : t) (l : list item) : t :=
  {| _id := _id c; userId := userId c; items := l;
     appliedCoupon := appliedCoupon c |}.

(** The update [{ items: [], appliedCoupon: { code: null, ... } }]. *)
Definition cleared (c : t) : t :=
  {| _id := _id c; userId := userId c; items := [];
     appliedCoupon := no_coupon |}.

End Cart.

(** The coupon a cart's snapshot stands for: the three snapshot fields,
    every other field at its schema default. *)
Definition snapshot_coupon (code : string) (ty : DiscountType) (v : Q)
  : Coupon.t :=
  {| Coupon.code := code;
     Coupon.discountType := ty;
     Coupon.discountValue := v;
     Coupon.minPurchase := 0;
     Coupon.maxDiscount := None;
     Coupon.expiresAt := None;
     Coupon.usageLimit := None;
     Coupon.usedCount := 0;
     Coupon.usedBy := [];
     Coupon.onePerUser := true;
     Coupon.isActive := true;
     Coupon.source := "manual";
     Coupon.stripeCouponId := None;
     Coupon.stripePromotionCodeId := None |}.

(** The checks of the coupon engine's [evaluate], in the order the
    specification lists them, each with its reason. *)
Definition evaluate_checks (c : Coupon.t) (cartSubtotal : Q)
    (userId : option string) (now : Z) : list (bool * string) :=
  [ (negb (Coupon.isActive c), Coupon.reason_inactive);
    (match Coupon.expiresAt c with
     | Some e => bool_decide (e < now)%Z
     | None => false
     end, Coupon.reason_expired);
    (match Coupon.usageLimit c with
     | Some l => bool_decide (l ≤ Coupon.usedCount c)%Z
     | None => false
     end, Coupon.reason_limit);
    (Coupon.onePerUser c &&
     match userId with
     | Some u => bool_decide (u ∈ Coupon.u_userId <$> Coupon.usedBy c)
     | None => false
     end, Coupon.reason_used);
    (Qltb cartSubtotal (Coupon.minPurchase c),
     Coupon.reason_minimum (Coupon.minPurchase c)) ].

(** First failing check wins. *)
Definition first_failing (checks : list (bool * string)) : Validation :=
  match List.find fst checks with
  | Some (_, reason) => Invalid reason
  | None => Valid
  end.

(** The specification's [computeDiscount]: raw amount, cap, subtotal
    ceiling, rounding. *)
Definition computeDiscount_spec (c : Coupon.t) (subtotal : Q) : Q :=
  let raw :=
    match Coupon.discountType c with
    | percentage => (subtotal * Coupon.discountValue c / 100)%Q
    | fixed => Coupon.discountValue c
    end in
  let capped :=
    match Coupon.maxDiscount c with
    | Some cap => Qmin raw cap
    | None => raw
    end in
  round2 (Qmin capped subtotal).

(** [x] is a whole number of cents. *)
Definition whole_cents (x : Q) : Prop :=
  (inject_Z (Qfloor (x * 100)) == x * 100)%Q.

Definition with_usedCount (c : Coupon.t) (n : Z) : Coupon.t :=
  {| Coupon.code := Coupon.code c;
     Coupon.discountType := Coupon.discountType c;
     Coupon.discountValue := Coupon.discountValue c;
     Coupon.minPurchase := Coupon.minPurchase c;
     Coupon.maxDiscount := Coupon.maxDiscount c;
     Coupon.expiresAt := Coupon.expiresAt c;
     Coupon.usageLimit := Coupon.usageLimit c;
     Coupon.usedCount := n;
     Coupon.usedBy := Coupon.usedBy c;
     Coupon.onePerUser := Coupon.onePerUser c;
     Coupon.isActive := Coupon.isActive c;
     Coupon.source := Coupon.source c;
     Coupon.stripeCouponId := Coupon.stripeCouponId c;
     Coupon.stripePromotionCodeId := Coupon.stripePromotionCodeId c |}.

(** ** Concrete data used by the examples below *)

Module Examples.

Definition coupon (code : string) (ty : DiscountType) (v : Q)
    (cap : option Q) (limit : option Z) (used : Z)
    (by_users : list Coupon.usage) : Coupon.t :=
  {| Coupon.code := code;
     Coupon.discountType := ty;
     Coupon.discountValue := v;
     Coupon.minPurchase := 0;
     Coupon.maxDiscount := cap;
     Coupon.expiresAt := None;
     Coupon.usageLimit := limit;
     Coupon.usedCount := used;
     Coupon.usedBy := by_users;
     Coupon.onePerUser := true;
     Coupon.isActive := true;
     Coupon.source := "manual";
     Coupon.stripeCouponId := None;
     Coupon.stripePromotionCodeId := None |}.



(** A negotiation-style coupon: one use in total, one per user. *)
Definition single_use : Coupon.t :=
  coupon "DEAL-1" percentage 10 None (Some 1%Z) 0 [].

Definition line (pid : string) (p : Q) (q : Z) : Cart.item :=
  {| Cart.productId := pid; Cart.quantity := q; Cart.size := None;
     Cart.color := None; Cart.price := p |}.

Definition cart (l : list Cart.item) (a : Cart.applied) : Cart.t :=
  {| Cart._id := "cart1"; Cart.userId := "u1"; Cart.items := l;
     Cart.appliedCoupon := a |}.

Definition snapshot (code : string) (ty : DiscountType) (v : Q)
  : Cart.applied :=
  {| Cart.a_code := Some code; Cart.a_discountType := Some ty;
     Cart.a_discountValue := v |}.



(** Price 60, quantity 1, percentage coupon of 150. *)
Definition cart_60_pct_150 : Cart.t :=
  cart [line "p1" 60 1] (snapshot "BIG" percentage 150).

(** Price 1, quantity 1, fixed coupon of 0.125. *)
Definition cart_1_fixed_eighth : Cart.t :=
  cart [line "p1" 1 1] (snapshot "TINY" fixed (1 # 8)).

End Examples.

(** ** Strings: the few [String.prototype] methods the controllers use *)

Module Str.

Definition upper_ascii (a : ascii) : ascii :=
  let n := nat_of_ascii a in
  if (97 <=? n)%nat && (n <=? 122)%nat then ascii_of_nat (n - 32) else a.

Definition lower_ascii (a : ascii) : ascii :=
  let n := nat_of_ascii a in
  if (65 <=? n)%nat && (n <=? 90)%nat then ascii_of_nat (n + 32) else a.

Fixpoint map (f : ascii -> ascii) (s : string) : string :=
  match s with
  | EmptyString => EmptyString
  | String a r => String (f a) (map f r)
  end.

Definition toUpperCase : string -> string := map upper_ascii.
Definition toLowerCase : string -> string := map lower_ascii.

(** [s.includes(pat)] *)
Definition includes (s pat : string) : bool :=
  match String.index 0 pat s with Some _ => true | None => false end.

(** [s.slice(0, n)] *)
Definition slice0 (n : nat) (s : string) : string := String.substring 0 n s.

(** [l.join(", ")] *)
Definition join (l : list string) : string := String.concat ", " l.

(** [l.includes(x)] on an array of strings. *)
Definition mem (x : string) (l : list string) : bool :=
  existsb (String.eqb x) l.

End Str.

(** ** The product catalogue *)

Module Product.

(** Modelled from the spec: the Product document.  [models/Product.js] is
    not among the sources; the fields are the ones the specification lists
    for the catalogue collaborator and the controllers read ([name],
    [price], [discountedPrice], [stock], [isActive], [attributes.sizes],
    [attributes.colors], [negotiationEnabled], [hiddenBottomPrice]), with
    [stock] a count and [name] a required, non-empty string. *)
Record t := {
  name : string;
  description : option string;
  imageUrl : option string;
  currency : option string;
  price : Q;
  discountedPrice : option Q;
  stock : Z;
  isActive : bool;
  sizes : list string;
  colors : list string;
  negotiationEnabled : bool;
  hiddenBottomPrice : option Q
}.

(** [product.discountedPrice ?? product.price] *)
Definition effectivePrice (p : t) : Q :=
  match discountedPrice p with
  | Some d => d
  | None => price p
  end.

Definition with_stock (p : t) (n : Z) : t :=
  {| name := name p; description := description p; imageUrl := imageUrl p;
     currency := currency p; price := price p;
     discountedPrice := discountedPrice p; stock := n;
     isActive := isActive p; sizes := sizes p; colors := colors p;
     negotiationEnabled := negotiationEnabled p;
     hiddenBottomPrice := hiddenBottomPrice p |}.

End Product.

(** ** models/Order.js *)

Module Order.

Record item := {
  productId : string;
  name : string;
  price : Q;
  quantity : Z;
  size : option string;
  color : option string;
  imageUrl : string
}.

Record t := {
  userId : option string;
  items : list item;
  subtotal : Q;
  discount : Q;
  couponCode : option string;
  total : Q;
  currency : string;
  stripeSessionId : string;
  stripePaymentIntentId : option string;
  status : string
}.

Definition nonempty (s : string) : bool :=
  match s with EmptyString => false | _ => true end.

(** The validators of [orderItemSchema]: [productId] and [name] required,
    [quantity] with [min: 1]. *)
Definition validate_item (i : item) : bool :=
  nonempty (productId i) && nonempty (name i) && (1 <=? quantity i)%Z.

(** The validators of [orderSchema] that [order.save()] runs: [userId]
    required, at least one item, every item valid, [stripeSessionId]
    required. *)
Definition validate (o : t) : bool :=
  match userId o with Some _ => true | None => false end
  && match items o with [] => false | _ => true end
  && forallb validate_item (items o)
  && nonempty (stripeSessionId o).

End Order.

(** ** services/negotiationService.js *)

Module Negotiation.

(** A number that may fail to be finite: the one division of the service
    whose divisor can be zero yields [-Infinity] there. *)
Inductive number :=
| Finite (q : Q)
| MinusInfinity.

Definition number_toString (n : number) : string :=
  match n with
  | Finite q => tenths_toString (Qfloor (q * 10))
  | MinusInfinity => "-Infinity"
  end.

(** The object [validateDiscount] returns. *)
Inductive result :=
| Allowed (discountAmount effectivePrice maxDiscount : Q)
| Rejected (reason : string) (maxDiscount : Q) (maxPercentage : option number).

Definition reason_not_eligible : string :=
  "This product is not eligible for negotiation.".
Definition reason_not_configured : string :=
  "No negotiation price configured for this product.".
Definition reason_exceeds (maxAllowedDiscount : Q) (maxAllowedPercentage : number)
  : string :=
  "Discount exceeds our minimum price. Maximum discount available is $"
    +:+ toFixed2 maxAllowedDiscount +:+ " ("
    +:+ number_toString maxAllowedPercentage +:+ "%).".

(** [Math.floor((maxAllowedDiscount / currentPrice) * 100 * 10) / 10];
    reached only with [bottomPrice > 0], so that a zero [currentPrice]
    divides a negative number. *)
Definition maxAllowedPercentage (maxAllowedDiscount currentPrice : Q) : number :=
  if Qeq_bool currentPrice 0 then MinusInfinity
  else Finite (inject_Z
                 (Math_floor (maxAllowedDiscount / currentPrice * 100 * 10)) / 10)%Q.

(** [validateDiscount(product, discountType, discountValue)] *)
Definition validateDiscount (product : Product.t) (discountType : DiscountType)
    (discountValue : Q) : result :=
  let currentPrice := Product.effectivePrice product in
  if negb (Product.negotiationEnabled product)
  then Rejected reason_not_eligible 0 None
  else
    match Product.hiddenBottomPrice product with
    | None => Rejected reason_not_configured 0 None
    | Some bottomPrice =>
      if Qle_bool bottomPrice 0
      then Rejected reason_not_configured 0 None
      else
        let discountAmount :=
          match discountType with
          | percentage => (currentPrice * (discountValue / 100))%Q
          | fixed => discountValue
          end in
        let effectivePrice := (currentPrice - discountAmount)%Q in
        let maxAllowedDiscount := (currentPrice - bottomPrice)%Q in
        let maxPct := maxAllowedPercentage maxAllowedDiscount currentPrice in
        if Qltb effectivePrice bottomPrice
        then Rejected (reason_exceeds maxAllowedDiscount maxPct)
                      maxAllowedDiscount (Some maxPct)
        else Allowed (round2 discountAmount) (round2 effectivePrice)
                     (round2 maxAllowedDiscount)
    end.







End Negotiation.

(** ** The external payment provider: requests and events *)

Module Stripe.

(** An entry of the [itemsJson] metadata: what [createCheckoutFromCart]
    serialises and [handleWebhook] reads back. *)
Record meta_item := {
  productId : string;
  quantity : Z;
  size : option string;
  color : option string;
  price : Q;
  name : string;
  imageUrl : string
}.

(** A JSON text, by what [JSON.parse] makes of it. *)
Inductive json_items :=
| Malformed                          (* [JSON.parse] throws *)
| Items (l : list meta_item).

Record metadata := {
  md_userId : option string;
  md_couponCode : option string;
  md_cartId : option string;
  md_itemsJson : option json_items
}.

(** [event.data.object] of a checkout event. *)
Record session := {
  id : string;
  metadata_of : metadata;
  amount_total : option Z;            (* minor units *)
  currency : option string;
  payment_intent : option string
}.

Record event := {
  type : string;
  data_object : session
}.

Record line_item := {
  li_currency : string;
  li_name : string;
  li_description : string;
  li_images : list string;
  unit_amount : Z;
  li_quantity : Z
}.

(** The argument of [createCheckoutSession]. *)
Record checkout_request := {
  lineItems : list line_item;
  cr_userId : string;
  cr_couponCode : option string;
  stripePromotionCodeId : option string;
  cr_metadata : metadata
}.

End Stripe.

(** ** The database and the monad the controllers run in *)

Module DB.

Record store := {
  products : gmap string Product.t;   (* by _id *)
  coupons : gmap string Coupon.t;     (* by code, a unique index *)
  carts : gmap string Cart.t;         (* by userId, a unique index *)
  orders : list Order.t
}.

(** The world a controller acts on: the database, the checkout sessions
    the provider has been asked to create, and the transient failures
    still to come: every call to the database or the provider consumes
    one entry of [faults] and is rejected, before having any effect, when
    the entry is [true]. *)
Record world := {
  db : store;
  provider : list Stripe.checkout_request;
  faults : list bool
}.

Inductive outcome (A : Type) :=
| Ok (a : A)
| Throw (msg : string).
Arguments Ok {A} a.
Arguments Throw {A} msg.

Definition M (A : Type) : Type := world -> outcome A * world.

Definition ret {A} (a : A) : M A := fun w => (Ok a, w).

Definition throw {A} (msg : string) : M A := fun w => (Throw msg, w).

Definition bind {A B} (m : M A) (k : A -> M B) : M B :=
  fun w =>
    match m w with
    | (Ok a, w') => k a w'
    | (Throw e, w') => (Throw e, w')
    end.

(** [try { m } catch (e) { h e }]: the effects [m] had before throwing
    stay. *)
Definition try_catch {A} (m : M A) (h : string -> M A) : M A :=
  fun w =>
    match m w with
    | (Ok a, w') => (Ok a, w')
    | (Throw e, w') => h e w'
    end.

Definition with_db (w : world) (s : store) : world :=
  {| db := s; provider := provider w; faults := faults w |}.

(** One round trip to the database or the provider. *)
Definition io : M unit :=
  fun w =>
    match faults w with
    | [] => (Ok tt, w)
    | b :: rest =>
        let w' := {| db := db w; provider := provider w; faults := rest |} in
        if b then (Throw "connection lost", w') else (Ok tt, w')
    end.

Definition get : M store := fun w => (Ok (db w), w).

Definition put (s : store) : M unit := fun w => (Ok tt, with_db w s).

End DB.

Declare Scope db_scope.
Delimit Scope db_scope with db.
Notation "x <- m ;; k" := (DB.bind m (fun x => k))
  (at level 100, m at next level, right associativity) : db_scope.
Notation "m ;;; k" := (DB.bind m (fun _ => k))
  (at level 100, right associativity) : db_scope.
Local Open Scope db_scope.

(** [for (const x of l) { await f x }] *)
Fixpoint for_each {A} (f : A -> DB.M unit) (l : list A) : DB.M unit :=
  match l with
  | [] => DB.ret tt
  | x :: r => f x ;;; for_each f r
  end.

(** A loop that threads a value: [for (const x of l) { acc = await f acc x }] *)
Fixpoint fold_each {A S} (f : S -> A -> DB.M S) (l : list A) (acc : S)
  : DB.M S :=
  match l with
  | [] => DB.ret acc
  | x :: r => acc' <- f acc x ;; fold_each f r acc'
  end.

(** ** Model methods that reach the database *)

Module Model.

Import DB.

Definition set_products (s : store) (m : gmap string Product.t) : store :=
  {| products := m; coupons := coupons s; carts := carts s; orders := orders s |}.
Definition set_coupons (s : store) (m : gmap string Coupon.t) : store :=
  {| products := products s; coupons := m; carts := carts s; orders := orders s |}.
Definition set_carts (s : store) (m : gmap string Cart.t) : store :=
  {| products := products s; coupons := coupons s; carts := m; orders := orders s |}.
Definition set_orders (s : store) (l : list Order.t) : store :=
  {| products := products s; coupons := coupons s; carts := carts s; orders := l |}.

(** [Product.findById(id)] *)
Definition Product_findById (id : string) : M (option Product.t) :=
  io ;;; s <- get ;; ret (products s !! id).

(** [Product.findByIdAndUpdate(id, { $inc: { stock: delta } })]: no
    document, no change. *)
Definition Product_incStock (id : string) (delta : Z) : M unit :=
  io ;;; s <- get ;;
  put (set_products s
         (alter (fun p => Product.with_stock p (Product.stock p + delta)) id
                (products s))).

(** [Cart.findOne({ userId })] *)
Definition Cart_findOne (userId : string) : M (option Cart.t) :=
  io ;;; s <- get ;; ret (carts s !! userId).

(** [cart.save()]: schema validation first, then the write. *)
Definition Cart_save (c : Cart.t) : M unit :=
  if negb (Cart.validate c) then throw "Cart validation failed"
  else io ;;; s <- get ;; put (set_carts s (<[Cart.userId c := c]> (carts s))).

(** [Cart.findByIdAndUpdate(id, { items: [], appliedCoupon: {...} })] *)
Definition Cart_clearById (id : string) : M unit :=
  io ;;; s <- get ;;
  put (set_carts s
         ((fun c => if String.eqb (Cart._id c) id then Cart.cleared c else c)
            <$> carts s)).

(** [Coupon.findOne({ code })] *)
Definition Coupon_findOne (code : string) : M (option Coupon.t) :=
  io ;;; s <- get ;; ret (coupons s !! code).

(** [Coupon.findOne({ code, isActive: true })] *)
Definition Coupon_findOneActive (code : string) : M (option Coupon.t) :=
  io ;;; s <- get ;;
  ret (match coupons s !! code with
       | Some c => if Coupon.isActive c then Some c else None
       | None => None
       end).

(** [coupon.save()] of a document that is already in the collection, under
    [key]: the stored document is replaced. *)
Definition Coupon_save (key : string) (c : Coupon.t) : M unit :=
  io ;;; s <- get ;; put (set_coupons s (<[key := c]> (coupons s))).

(** [coupon.save()] of a new document: the unique index on [code] rejects
    a second coupon with the same code. *)
Definition Coupon_insert (c : Coupon.t) : M unit :=
  io ;;; s <- get ;;
  match coupons s !! Coupon.code c with
  | Some _ => throw "E11000 duplicate key error: code"
  | None => put (set_coupons s (<[Coupon.code c := c]> (coupons s)))
  end.

Definition has_session (sid : string) (o : Order.t) : bool :=
  String.eqb (Order.stripeSessionId o) sid.

(** [order.save()] of a new document: schema validation, then the insert,
    which the unique index on [stripeSessionId] rejects when an order with
    that session id is already stored. *)
Definition Order_save (o : Order.t) : M unit :=
  if negb (Order.validate o) then throw "Order validation failed"
  else
    io ;;; s <- get ;;
    if existsb (has_session (Order.stripeSessionId o)) (orders s)
    then throw "E11000 duplicate key error: stripeSessionId"
    else put (set_orders s (orders s ++ [o])).

(** Modelled from the spec: [createCheckoutSession] of
    [services/stripeService.js], which is not among the sources.  The
    provider records the request and answers with an opaque session
    reference (id and redirect URL). *)
Definition createCheckoutSession (r : Stripe.checkout_request)
  : M (string * string) :=
  io ;;;
  fun w =>
    let sid := "cs_" +:+ pretty (Z.of_nat (length (provider w))) in
    (Ok (sid, "https://checkout.stripe.com/pay/" +:+ sid),
     {| db := db w; provider := provider w ++ [r]; faults := faults w |}).

End Model.

(** ** HTTP responses *)

(** What [formatCart] returns. *)
Record cart_view := {
  v_id : string;
  v_items : list Cart.item;
  v_appliedCoupon : Cart.applied;
  v_subtotal : Q;
  v_discount : Q;
  v_total : Q
}.

Inductive body :=
| Message (message : string)                       (* [{ message }] *)
| CartJson (v : cart_view)
| SessionRef (id url : string)                     (* [{ id, url }] *)
| Received                                         (* [{ received: true }] *)
| Text (s : string)                                (* [res.send(s)] *)
| DiscountRefused (message : string) (maxDiscount : Q)
                  (maxPercentage : option Negotiation.number)
| CouponCreated (couponCode : string) (discountAmount originalPrice
                 effectivePrice : Q) (expiresAt : option Z).

Record response := { status : nat; payload : body }.

Definition respond (st : nat) (b : body) : DB.M response :=
  DB.ret {| status := st; payload := b |}.

(** ** controllers/cartController.js *)

Module CartController.

Import DB Model.

Definition formatCart (cart : Cart.t) : cart_view :=
  {| v_id := Cart._id cart;
     v_items := Cart.items cart;
     v_appliedCoupon := Cart.appliedCoupon cart;
     v_subtotal := Cart.subtotal cart;
     v_discount := Cart.discount cart;
     v_total := Cart.total cart |}.

(** [new Cart({ userId, items: [] })]; [fresh] is the ObjectId the new
    document receives. *)
Definition new_cart (fresh userId : string) : Cart.t :=
  {| Cart._id := fresh; Cart.userId := userId; Cart.items := [];
     Cart.appliedCoupon := Cart.no_coupon |}.

(** The predicate of both [findIndex] calls: same product, same size, same
    colour, with [size || null] and [color || null] on the request side. *)
Definition same_line (productId : string) (size color : option string)
    (i : Cart.item) : bool :=
  String.eqb (Cart.productId i) productId
  && bool_decide (Cart.size i = truthy size)
  && bool_decide (Cart.color i = truthy color).

(** [cart.items.findIndex(p)]: the first match and its index. *)
Fixpoint findIndex (p : Cart.item -> bool) (l : list Cart.item)
  : option (nat * Cart.item) :=
  match l with
  | [] => None
  | x :: r =>
      if p x then Some (O, x)
      else match findIndex p r with
           | Some (n, y) => Some (S n, y)
           | None => None
           end
  end.

Definition set_quantity (i : Cart.item) (q : Z) : Cart.item :=
  {| Cart.productId := Cart.productId i; Cart.quantity := q;
     Cart.size := Cart.size i; Cart.color := Cart.color i;
     Cart.price := Cart.price i |}.

Definition set_quantity_price (i : Cart.item) (q : Z) (p : Q) : Cart.item :=
  {| Cart.productId := Cart.productId i; Cart.quantity := q;
     Cart.size := Cart.size i; Cart.color := Cart.color i;
     Cart.price := p |}.

Definition only_in_stock (stock : Z) : string :=
  "Only " +:+ pretty stock +:+ " items in stock".

Definition not_available (what value : string) (options : list string) : string :=
  what +:+ " " +:+ dquote +:+ value +:+ dquote
    +:+ " not available. Options: " +:+ Str.join options.

(** The body of [POST /api/cart/add]. *)
Record add_request := {
  a_productId : option string;
  a_quantity : option Z;              (* [undefined] takes the default 1 *)
  a_size : option string;
  a_color : option string
}.

(** [size && sizes.length > 0 && !sizes.includes(size)] *)
Definition bad_option (choice : option string) (options : list string)
  : option string :=
  match truthy choice with
  | Some v =>
      if negb (Nat.eqb (length options) 0) && negb (Str.mem v options)
      then Some v else None
  | None => None
  end.

(** [addToCart]; [user] is [req.user._id]. *)
Definition addToCart (user fresh : string) (req : add_request) : M response :=
  try_catch
    (let quantity := default 1%Z (a_quantity req) in
     match truthy (a_productId req) with
     | None => respond 400 (Message "productId is required")
     | Some productId =>
       found <- Product_findById productId ;;
       match found with
       | None => respond 404 (Message "Product not found")
       | Some product =>
         if negb (Product.isActive product)
         then respond 404 (Message "Product not found")
         else if (Product.stock product <? quantity)%Z
         then respond 400 (Message (only_in_stock (Product.stock product)))
         else
           match bad_option (a_size req) (Product.sizes product) with
           | Some v =>
               respond 400 (Message (not_available "Size" v (Product.sizes product)))
           | None =>
             match bad_option (a_color req) (Product.colors product) with
             | Some v =>
                 respond 400
                   (Message (not_available "Color" v (Product.colors product)))
             | None =>
               stored <- Cart_findOne user ;;
               let cart := default (new_cart fresh user) stored in
               match findIndex (same_line productId (a_size req) (a_color req))
                               (Cart.items cart) with
               | Some (existingIndex, existing) =>
                   let newQty := (Cart.quantity existing + quantity)%Z in
                   if (Product.stock product <? newQty)%Z
                   then respond 400
                          (Message (only_in_stock (Product.stock product)))
                   else
                     let cart' :=
                       Cart.with_items cart
                         (<[existingIndex := set_quantity existing newQty]>
                            (Cart.items cart)) in
                     Cart_save cart' ;;;
                     respond 200 (CartJson (formatCart cart'))
               | None =>
                   let cart' :=
                     Cart.with_items cart
                       (Cart.items cart ++
                        [{| Cart.productId := productId;
                            Cart.quantity := quantity;
                            Cart.size := truthy (a_size req);
                            Cart.color := truthy (a_color req);
                            Cart.price := Product.effectivePrice product |}]) in
                   Cart_save cart' ;;;
                   respond 200 (CartJson (formatCart cart'))
               end
             end
           end
       end
     end)
    (fun _ => respond 500 (Message "Failed to add to cart")).

(** An element of the array [POST /api/cart/sync] receives. *)
Record incoming := {
  i_productId : string;
  i_quantity : option Z;              (* [None]: [Number(..)] is [NaN] *)
  i_size : option string;
  i_color : option string
}.

(** [Number(incoming.quantity) || 1] *)
Definition requested_or_1 (q : option Z) : Z :=
  match q with
  | Some 0%Z | None => 1%Z
  | Some n => n
  end.

(** One turn of the loop of [syncCart] once the product is at hand. *)
Definition merge_incoming (product : Product.t) (inc : incoming)
    (l : list Cart.item) : list Cart.item :=
  let effectivePrice := Product.effectivePrice product in
  let qty := Z.min (requested_or_1 (i_quantity inc)) (Product.stock product) in
  match findIndex (same_line (i_productId inc) (i_size inc) (i_color inc)) l with
  | Some (existingIndex, existing) =>
      let newQty := Z.min (Cart.quantity existing + qty) (Product.stock product) in
      <[existingIndex := set_quantity_price existing newQty effectivePrice]> l
  | None =>
      l ++ [{| Cart.productId := i_productId inc;
               Cart.quantity := qty;
               Cart.size := truthy (i_size inc);
               Cart.color := truthy (i_color inc);
               Cart.price := effectivePrice |}]
  end.

(** The body of the [for (const incoming of items)] loop. *)
Definition sync_step (l : list Cart.item) (inc : incoming)
  : M (list Cart.item) :=
  found <- Product_findById (i_productId inc) ;;
  match found with
  | None => ret l                                   (* [continue] *)
  | Some product =>
      if negb (Product.isActive product) then ret l (* [continue] *)
      else ret (merge_incoming product inc l)
  end.

(** [syncCart]; [items] is [None] when the body's [items] is not an
    array. *)
Definition syncCart (user fresh : string) (items : option (list incoming))
  : M response :=
  try_catch
    (match items with
     | None | Some [] => respond 400 (Message "Items array required")
     | Some l =>
       stored <- Cart_findOne user ;;
       let cart := default (new_cart fresh user) stored in
       merged <- fold_each sync_step l (Cart.items cart) ;;
       let cart' := Cart.with_items cart merged in
       Cart_save cart' ;;;
       respond 200 (CartJson (formatCart cart'))
     end)
    (fun _ => respond 500 (Message "Failed to sync cart")).

(** [clearCart]: the cart is emptied and its coupon snapshot reset. *)
Definition clearCart (user : string) : M response :=
  try_catch
    (stored <- Cart_findOne user ;;
     match stored with
     | None => respond 404 (Message "Cart not found")
     | Some cart =>
         let cart' := Cart.cleared cart in
         Cart_save cart' ;;;
         respond 200 (CartJson (formatCart cart'))
     end)
    (fun _ => respond 500 (Message "Failed to clear cart")).

End CartController.

(** ** controllers/paymentController.js *)

Module PaymentController.

Import DB Model.

(** [Cart.findOne({ userId }).populate("items.productId", ...)]: every
    line comes with the product it refers to, or [null]. *)
Definition Cart_findOne_populated (userId : string)
  : M (option (Cart.t * list (Cart.item * option Product.t))) :=
  io ;;; s <- get ;;
  ret (match carts s !! userId with
       | Some c =>
           Some (c, (fun i => (i, products s !! Cart.productId i))
                      <$> Cart.items c)
       | None => None
       end).

Definition no_longer_available (name : string) : string :=
  "Product " +:+ dquote +:+ name +:+ dquote +:+ " is no longer available".

Definition only_has (name : string) (stock : Z) : string :=
  dquote +:+ name +:+ dquote +:+ " only has " +:+ pretty stock +:+ " in stock".

(** The loop "Validate stock for all items": the message of the first
    line that fails, or every line with its product. *)
Fixpoint check_items (l : list (Cart.item * option Product.t))
  : string + list (Cart.item * Product.t) :=
  match l with
  | [] => inr []
  | (item, None) :: _ => inl (no_longer_available "null")
  | (item, Some prod) :: r =>
      if negb (Product.isActive prod)
      then inl (no_longer_available (Product.name prod))
      else if (Product.stock prod <? Cart.quantity item)%Z
      then inl (only_has (Product.name prod) (Product.stock prod))
      else match check_items r with
           | inl msg => inl msg
           | inr ok => inr ((item, prod) :: ok)
           end
  end.

Definition line_item_of (ip : Cart.item * Product.t) : Stripe.line_item :=
  let (item, prod) := ip in
  {| Stripe.li_currency := default "usd" (truthy (Product.currency prod));
     Stripe.li_name := Product.name prod;
     Stripe.li_description :=
       match Product.description prod with
       | Some d => Str.slice0 100 d
       | None => EmptyString
       end;
     Stripe.li_images :=
       match truthy (Product.imageUrl prod) with
       | Some u => [u]
       | None => []
       end;
     Stripe.unit_amount := Math_round (Cart.price item * 100);
     Stripe.li_quantity := Cart.quantity item |}.

Definition meta_item_of (ip : Cart.item * Product.t) : Stripe.meta_item :=
  let (i, prod) := ip in
  {| Stripe.productId := Cart.productId i;
     Stripe.quantity := Cart.quantity i;
     Stripe.size := Cart.size i;
     Stripe.color := Cart.color i;
     Stripe.price := Cart.price i;
     Stripe.name := Product.name prod;
     Stripe.imageUrl := default EmptyString (Product.imageUrl prod) |}.

(** [createCheckoutFromCart]; [user] is [req.user._id]. *)
Definition createCheckoutFromCart (user : string) : M response :=
  try_catch
    (found <- Cart_findOne_populated user ;;
     match found with
     | None => respond 400 (Message "Cart is empty")
     | Some (cart, populated) =>
       match populated with
       | [] => respond 400 (Message "Cart is empty")
       | _ =>
         match check_items populated with
         | inl msg => respond 400 (Message msg)
         | inr resolved =>
           coupon <-
             match truthy (Cart.a_code (Cart.appliedCoupon cart)) with
             | Some code => Coupon_findOneActive code
             | None => ret None
             end ;;
           let stripePromotionCodeId :=
             match coupon with
             | Some c => Coupon.stripePromotionCodeId c
             | None => None
             end in
           let couponCode := Coupon.code <$> coupon in
           session <-
             createCheckoutSession
               {| Stripe.lineItems := line_item_of <$> resolved;
                  Stripe.cr_userId := user;
                  Stripe.cr_couponCode := couponCode;
                  Stripe.stripePromotionCodeId := stripePromotionCodeId;
                  Stripe.cr_metadata :=
                    {| Stripe.md_userId := None;
                       Stripe.md_cartId := Some (Cart._id cart);
                       Stripe.md_couponCode :=
                         Some (default EmptyString (truthy couponCode));
                       Stripe.md_itemsJson :=
                         Some (Stripe.Items (meta_item_of <$> resolved)) |} |} ;;
           respond 200 (SessionRef (fst session) (snd session))
         end
       end
     end)
    (fun _ => respond 500 (Message "Failed to create checkout session")).




Definition order_item_of (i : Stripe.meta_item) : Order.item :=
  {| Order.productId := Stripe.productId i;
     Order.name := Stripe.name i;
     Order.price := Stripe.price i;
     Order.quantity := Stripe.quantity i;
     Order.size := Stripe.size i;
     Order.color := Stripe.color i;
     Order.imageUrl := Stripe.imageUrl i |}.

(** [JSON.parse(session.metadata.itemsJson || "[]")] inside its own
    [try]/[catch], which leaves [items = []] when the text is malformed. *)
Definition parsed_items (md : Stripe.metadata) : list Stripe.meta_item :=
  match Stripe.md_itemsJson md with
  | Some (Stripe.Items l) => l
  | Some Stripe.Malformed => []
  | None => []
  end.

(** The order [handleWebhook] builds from a session. *)
Definition order_of_session (session : Stripe.session) : Order.t :=
  let md := Stripe.metadata_of session in
  let items := parsed_items md in
  let subtotal :=
    fold_left (fun sum i =>
                 (sum + Stripe.price i * inject_Z (Stripe.quantity i))%Q)
              items 0%Q in
  let totalPaid := (inject_Z (default 0%Z (Stripe.amount_total session)) / 100)%Q in
  let discount := round2 (subtotal - totalPaid) in
  {| Order.userId := Stripe.md_userId md;
     Order.items := order_item_of <$> items;
     Order.subtotal := subtotal;
     Order.discount := Qmax 0 discount;
     Order.couponCode := truthy (Stripe.md_couponCode md);
     Order.total := totalPaid;
     Order.currency :=
       Str.toLowerCase (default "usd" (truthy (Stripe.currency session)));
     Order.stripeSessionId := Stripe.id session;
     Order.stripePaymentIntentId := Stripe.payment_intent session;
     Order.status := "paid" |}.

(** "Inventory Update": [for (const item of items)] decrement the stock. *)
Definition update_inventory (items : list Stripe.meta_item) : M unit :=
  for_each (fun item =>
              Product_incStock (Stripe.productId item) (- Stripe.quantity item))
           items.

(** "Record coupon usage": [if (couponCode)], look the coupon up and, if it
    exists, [recordUsage(userId)]. *)
Definition record_coupon_usage (couponCode userId : option string) (now : Z)
  : M unit :=
  match couponCode with
  | Some code =>
      coupon <- Coupon_findOne code ;;
      match coupon with
      | Some c => Coupon_save code (Coupon.recordUsage c (truthy userId) now)
      | None => ret tt
      end
  | None => ret tt
  end.

(** "Clear user's cart": [if (session.metadata.cartId)]. *)
Definition clear_users_cart (cartId : option string) : M unit :=
  match truthy cartId with
  | Some id => Cart_clearById id
  | None => ret tt
  end.

(** The body of the [try] of [handleWebhook]: the order, then the
    inventory, the coupon usage and the cart. *)
Definition fulfil (session : Stripe.session) (now : Z) : M unit :=
  let md := Stripe.metadata_of session in
  let userId := Stripe.md_userId md in
  let couponCode := truthy (Stripe.md_couponCode md) in
  let items := parsed_items md in
  Order_save (order_of_session session) ;;;
  update_inventory items ;;;
  record_coupon_usage couponCode userId now ;;;
  clear_users_cart (Stripe.md_cartId md).

Section Webhook.

(** [constructWebhookEvent(req.body, sig)] of [services/stripeService.js]
    (not among the sources): the event the signed body carries, or the
    message of the error it throws when the signature does not verify. *)
Variable constructWebhookEvent : string -> option string -> string + Stripe.event.

Record webhook_request := {
  raw_body : string;
  stripe_signature : option string    (* [req.headers["stripe-signature"]] *)
}.

(** [handleWebhook]; [now] is the clock at the time of the call. *)
Definition handleWebhook (req : webhook_request) (now : Z) : M response :=
  match constructWebhookEvent (raw_body req) (stripe_signature req) with
  | inl message => respond 400 (Text ("Webhook Error: " +:+ message))
  | inr event =>
      (if String.eqb (Stripe.type event) "checkout.session.completed"
       then try_catch (fulfil (Stripe.data_object event) now)
                      (fun _ => ret tt)
       else ret tt) ;;;
      respond 200 Received
  end.

End Webhook.

End PaymentController.

(** ** controllers/couponController.js: the coupon and the cart *)

Module CouponController.

Import DB Model.

(** The [cart] member of the answers of [applyCouponToCart] and
    [removeCouponFromCart]. *)
Record cart_summary := {
  c_items : list Cart.item;
  c_appliedCoupon : Cart.applied;
  c_subtotal : Q;
  c_discount : Q;
  c_total : Q
}.

Definition summary (cart : Cart.t) : cart_summary :=
  {| c_items := Cart.items cart;
     c_appliedCoupon := Cart.appliedCoupon cart;
     c_subtotal := Cart.subtotal cart;
     c_discount := Cart.discount cart;
     c_total := Cart.total cart |}.

Inductive content :=
| Msg (message : string)                           (* [{ message }] *)
| Quote (code : string) (discountType : DiscountType)
        (discountValue calculatedDiscount subtotal newTotal : Q)
| CartWith (message : string) (cart : cart_summary)
| CouponDoc (coupon : Coupon.t).                   (* [res.json(coupon)] *)

Record reply := { r_status : nat; r_content : content }.

Definition answer (st : nat) (c : content) : M reply :=
  ret {| r_status := st; r_content := c |}.

(** The snapshot [applyCouponToCart] stores on the cart. *)
Definition snapshot_of (coupon : Coupon.t) : Cart.applied :=
  {| Cart.a_code := Some (Coupon.code coupon);
     Cart.a_discountType := Some (Coupon.discountType coupon);
     Cart.a_discountValue := Coupon.discountValue coupon |}.

Definition with_coupon (c : Cart.t) (a : Cart.applied) : Cart.t :=
  {| Cart._id := Cart._id c; Cart.userId := Cart.userId c;
     Cart.items := Cart.items c; Cart.appliedCoupon := a |}.


(** [applyCouponToCart] *)
Definition applyCouponToCart (user : string) (code : option string) (now : Z)
  : M reply :=
  try_catch
    (match truthy code with
     | None => answer 400 (Msg "Coupon code is required")
     | Some code =>
       found <- Coupon_findOne (Str.toUpperCase code) ;;
       match found with
       | None => answer 404 (Msg "Invalid coupon code")
       | Some coupon =>
         stored <- Cart_findOne user ;;
         match stored with
         | None => answer 400 (Msg "Cart is empty")
         | Some cart =>
           match Cart.items cart with
           | [] => answer 400 (Msg "Cart is empty")
           | _ =>
             match Coupon.isValid coupon (Cart.subtotal cart) (Some user) now with
             | Invalid reason => answer 400 (Msg reason)
             | Valid =>
                 let cart' := with_coupon cart (snapshot_of coupon) in
                 Cart_save cart' ;;;
                 answer 200 (CartWith "Coupon applied" (summary cart'))
             end
           end
         end
       end
     end)
    (fun _ => answer 500 (Msg "Failed to apply coupon")).

(** [removeCouponFromCart] *)
Definition removeCouponFromCart (user : string) : M reply :=
  try_catch
    (stored <- Cart_findOne user ;;
     match stored with
     | None => answer 404 (Msg "Cart not found")
     | Some cart =>
         let cart' := with_coupon cart Cart.no_coupon in
         Cart_save cart' ;;;
         answer 200 (CartWith "Coupon removed" (summary cart'))
     end)
    (fun _ => answer 500 (Msg "Failed to remove coupon")).

End CouponController.

(** ** The inventory service of the clerk *)

Module Inventory.

Import DB Model.

(** What [sanitizeProduct] leaves of a product: everything but
    [hiddenBottomPrice] and [negotiationEnabled]. *)
Record public_product := {
  name : string;
  description : option string;
  imageUrl : option string;
  currency : option string;
  price : Q;
  discountedPrice : option Q;
  stock : Z;
  isActive : bool;
  sizes : list string;
  colors : list string
}.

Definition sanitizeProduct (p : Product.t) : public_product :=
  {| name := Product.name p; description := Product.description p;
     imageUrl := Product.imageUrl p; currency := Product.currency p;
     price := Product.price p; discountedPrice := Product.discountedPrice p;
     stock := Product.stock p; isActive := Product.isActive p;
     sizes := Product.sizes p; colors := Product.colors p |}.

(** The object [checkInventory] resolves to. *)
Inductive availability :=
| Unavailable (reason : string) (product : option public_product)
| Available (stock : Z) (product : public_product).

(** [colors.find((c) => c.toLowerCase() === color.toLowerCase())] *)
Definition color_match (color : string) (colors : list string) : bool :=
  existsb (fun c => String.eqb (Str.toLowerCase c) (Str.toLowerCase color))
          colors.

(** [checkInventory(productId, { size, color })]; it has no [catch] of its
    own. *)
Definition checkInventory (productId : string) (size color : option string)
  : M availability :=
  found <- Product_findById productId ;;
  match found with
  | None => ret (Unavailable "Product not found" None)
  | Some product =>
    if negb (Product.isActive product)
    then ret (Unavailable "Product not found" None)
    else if (Product.stock product <=? 0)%Z
    then ret (Unavailable "Out of stock" (Some (sanitizeProduct product)))
    else
      match CartController.bad_option size (Product.sizes product) with
      | Some v =>
          ret (Unavailable
                 (CartController.not_available "Size" v (Product.sizes product))
                 (Some (sanitizeProduct product)))
      | None =>
        match truthy color with
        | Some v =>
            if negb (Nat.eqb (length (Product.colors product)) 0)
               && negb (color_match v (Product.colors product))
            then ret (Unavailable
                        (CartController.not_available "Color" v
                           (Product.colors product))
                        (Some (sanitizeProduct product)))
            else ret (Available (Product.stock product)
                                (sanitizeProduct product))
        | None => ret (Available (Product.stock product)
                                 (sanitizeProduct product))
        end
      end
  end.

End Inventory.

(** ** controllers/clerkController.js: the negotiation coupon *)

Module ClerkController.

Import DB Model.

(** The body of [POST /api/clerk/generate-coupon]. *)
Record coupon_request := {
  g_productId : option string;
  g_discountType : option DiscountType;
  g_discountValue : option Q;
  g_reason : option string
}.

Definition prefix_of (reason : option string) : string :=
  match reason with
  | Some r =>
      if Str.includes (Str.toLowerCase r) "birthday" then "BDAY"
      else if Str.includes (Str.toLowerCase r) "bulk" then "BULK"
      else "DEAL"
  | None => "DEAL"
  end.

Definition with_stripe_ids (c : Coupon.t) (ids : option string * option string)
  : Coupon.t :=
  {| Coupon.code := Coupon.code c;
     Coupon.discountType := Coupon.discountType c;
     Coupon.discountValue := Coupon.discountValue c;
     Coupon.minPurchase := Coupon.minPurchase c;
     Coupon.maxDiscount := Coupon.maxDiscount c;
     Coupon.expiresAt := Coupon.expiresAt c;
     Coupon.usageLimit := Coupon.usageLimit c;
     Coupon.usedCount := Coupon.usedCount c;
     Coupon.usedBy := Coupon.usedBy c;
     Coupon.onePerUser := Coupon.onePerUser c;
     Coupon.isActive := Coupon.isActive c;
     Coupon.source := Coupon.source c;
     Coupon.stripeCouponId := fst ids;
     Coupon.stripePromotionCodeId := snd ids |}.

Section GenerateCoupon.

(** [uuidv4()] and [createStripeCoupon(coupon)] (of
    [services/stripeService.js], not among the sources: the two provider
    identifiers, or [None] when the call throws). *)
Variable uuidv4 : string.
Variable createStripeCoupon :
  Coupon.t -> option (option string * option string).

(** [generateCoupon]; [now] is [Date.now()] in milliseconds. *)
Definition generateCoupon (req : coupon_request) (now : Z) : M response :=
  try_catch
    (match truthy (g_productId req), g_discountType req, g_discountValue req with
     | Some productId, Some discountType, Some discountValue =>
       found <- Product_findById productId ;;
       match found with
       | None => respond 404 (Message "Product not found")
       | Some product =>
         match Negotiation.validateDiscount product discountType discountValue with
         | Negotiation.Rejected reason maxDiscount maxPercentage =>
             respond 400 (DiscountRefused reason maxDiscount maxPercentage)
         | Negotiation.Allowed _ _ _ =>
           let shortId := Str.toUpperCase (Str.slice0 6 uuidv4) in
           let code := prefix_of (g_reason req) +:+ "-" +:+ shortId in
           let coupon :=
             {| Coupon.code := Str.toUpperCase code;
                Coupon.discountType := discountType;
                Coupon.discountValue := discountValue;
                Coupon.minPurchase := 0;
                Coupon.maxDiscount := None;
                Coupon.expiresAt := Some (now + 24 * 60 * 60 * 1000)%Z;
                Coupon.usageLimit := Some 1%Z;
                Coupon.usedCount := 0;
                Coupon.usedBy := [];
                Coupon.onePerUser := true;
                Coupon.isActive := true;
                Coupon.source := "negotiation";
                Coupon.stripeCouponId := None;
                Coupon.stripePromotionCodeId := None |} in
           if Qltb discountValue 0
           then throw "Coupon validation failed"
           else
             Coupon_insert coupon ;;;
             match createStripeCoupon coupon with
             | None => throw "Stripe error"
             | Some ids =>
                 Coupon_save (Coupon.code coupon) (with_stripe_ids coupon ids) ;;;
                 let currentPrice := Product.effectivePrice product in
                 let discountAmount :=
                   match discountType with
                   | percentage => round2 (currentPrice * (discountValue / 100))
                   | fixed => Qmin discountValue currentPrice
                   end in
                 let effectivePrice := round2 (currentPrice - discountAmount) in
                 respond 201
                   (CouponCreated code discountAmount currentPrice
                                  effectivePrice (Coupon.expiresAt coupon))
             end
         end
       end
     | _, _, _ =>
         respond 400
           (Message "productId, discountType, and discountValue are required")
     end)
    (fun _ => respond 500 (Message "Failed to generate coupon")).

End GenerateCoupon.

End ClerkController.

(** ** controllers/couponController.js: the admin's [createCoupon] *)

Module CouponAdmin.

Import DB Model.



(** The [min: 0] validators [coupon.save()] runs. *)
Definition validate (c : Coupon.t) : bool :=
  negb (Qltb (Coupon.discountValue c) 0) && negb (Qltb (Coupon.minPurchase c) 0).

Section CreateCoupon.

(** [createStripeCoupon(coupon)] of [services/stripeService.js] (not among
    the sources): the two provider identifiers, or [None] when the call
    throws. *)
Variable createStripeCoupon :
  Coupon.t -> option (option string * option string).


End CreateCoupon.

End CouponAdmin.

(** ** Specification-side definitions used in the statements *)



(** The next call to the database or the provider is not going to fail. *)
Definition next_io_ok (w : DB.world) : Prop := hd false (DB.faults w) = false.

(** A read: the answer comes from the database as it is, or the call
    fails; either way nothing is written. *)
Definition read_only {A} (m : DB.M A) (answer : DB.store -> A) : Prop :=
  forall w,
    (exists w', m w = (DB.Ok (answer (DB.db w)), w') /\ DB.db w' = DB.db w
                /\ DB.provider w' = DB.provider w
                /\ DB.faults w' = tl (DB.faults w)
                /\ hd false (DB.faults w) = false)
    \/ (exists e w', m w = (DB.Throw e, w') /\ DB.db w' = DB.db w
                     /\ DB.provider w' = DB.provider w
                     /\ DB.faults w' = tl (DB.faults w)
                     /\ hd false (DB.faults w) = true).

(** A populated cart line passes the checkout stock check: its product
    exists, is active and has at least the line's quantity in stock. *)
Definition purchasable (ip : Cart.item * option Product.t) : bool :=
  match snd ip with
  | Some p => Product.isActive p && (Cart.quantity (fst ip) <=? Product.stock p)%Z
  | None => false
  end.

(** [Cart.findOne(..).populate(..)] as a function of the store. *)
Definition populated_cart (s : DB.store) (user : string)
  : option (Cart.t * list (Cart.item * option Product.t)) :=
  match DB.carts s !! user with
  | Some c =>
      Some (c, (fun i => (i, DB.products s !! Cart.productId i))
                 <$> Cart.items c)
  | None => None
  end.

(** The stores [s] and [s'] differ at most in their carts. *)
Definition only_carts_differ (s s' : DB.store) : Prop :=
  DB.products s' = DB.products s
  /\ DB.coupons s' = DB.coupons s
  /\ DB.orders s' = DB.orders s.

(** No line asks for more than its product has in stock (lines whose
    product is gone are not constrained). *)
Definition within_stock (prods : gmap string Product.t) (l : list Cart.item)
  : Prop :=
  Forall (fun i => forall p, prods !! Cart.productId i = Some p ->
                             (Cart.quantity i <= Product.stock p)%Z) l.

(** The stored, active coupon a cart's snapshot code stands for, if any:
    what [Coupon.findOne({ code, isActive: true })] finds for a truthy
    code. *)
Definition active_coupon (s : DB.store) (code : option string)
  : option Coupon.t :=
  match truthy code with
  | Some k =>
      match DB.coupons s !! k with
      | Some c => if Coupon.isActive c then Some c else None
      | None => None
      end
  | None => None
  end.

(** The metadata entry [m] carries the cart line [i]. *)
Definition mirrors (i : Cart.item) (m : Stripe.meta_item) : Prop :=
  Stripe.productId m = Cart.productId i
  /\ Stripe.quantity m = Cart.quantity i
  /\ Stripe.size m = Cart.size i
  /\ Stripe.color m = Cart.color i
  /\ Stripe.price m = Cart.price i.

(** The provider line item [li] charges the cart line [i]: its snapshot
    price in minor units, times its quantity. *)
Definition charges (i : Cart.item) (li : Stripe.line_item) : Prop :=
  Stripe.unit_amount li = Math_round (Cart.price i * 100)
  /\ Stripe.li_quantity li = Cart.quantity i.




(** The code [generateCoupon] stores a negotiated coupon under. *)
Definition generated_code (uuidv4 : string) (reason : option string) : string :=
  Str.toUpperCase
    (ClerkController.prefix_of reason +:+ "-"
       +:+ Str.toUpperCase (Str.slice0 6 uuidv4)).

(** The coupon passes [isValid] for every user and every non-negative
    subtotal until 24 hours after [now]. *)
Definition redeemable_for_a_day (c : Coupon.t) (now : Z) : Prop :=
  forall (sub : Q) (user : option string) (t : Z),
    (0 <= sub)%Q -> (t <= now + 24 * 60 * 60 * 1000)%Z ->
    Coupon.isValid c sub user t = Valid.

(** A negotiated coupon: one use in total, one per user, none made yet. *)
Definition single_use_coupon (c : Coupon.t) : Prop :=
  Coupon.usageLimit c = Some 1%Z /\ Coupon.usedCount c = 0%Z
  /\ Coupon.usedBy c = [] /\ Coupon.onePerUser c = true
  /\ Coupon.maxDiscount c = None /\ Coupon.source c = "negotiation".



(** What the loop of [syncCart] computes when no call fails: incoming
    items are merged in order, those whose product is missing or inactive
    being passed over. *)
Definition sync_all (prods : gmap string Product.t) (l : list Cart.item)
    (incs : list CartController.incoming) : list Cart.item :=
  fold_left
    (fun acc inc =>
       match prods !! CartController.i_productId inc with
       | Some p =>
           if Product.isActive p then CartController.merge_incoming p inc acc
           else acc
       | None => acc
       end)
    incs l.

(** No transient failure is pending. *)
Definition reliable (w : DB.world) : Prop := DB.faults w = [].

(** *** Fulfilment, seen from the store *)

Definition dec_one (m : gmap string Product.t) (i : Stripe.meta_item)
  : gmap string Product.t :=
  alter (fun p => Product.with_stock p (Product.stock p + - Stripe.quantity i))
        (Stripe.productId i) m.

(** The inventory after the stock of every item of [items] has been
    decremented, in order. *)
Definition dec_stock (items : list Stripe.meta_item)
    (m : gmap string Product.t) : gmap string Product.t :=
  fold_left dec_one items m.

(** The quantity of product [pid] an item list orders. *)
Definition ordered_quantity (pid : string) (items : list Stripe.meta_item) : Z :=
  fold_right
    (fun i acc => if String.eqb (Stripe.productId i) pid
                  then (Stripe.quantity i + acc)%Z else acc)
    0%Z items.

(** The orders stored for a session id. *)
Definition orders_for (sid : string) (s : DB.store) : list Order.t :=
  List.filter (Model.has_session sid) (DB.orders s).

Definition clear_cart (cartId : string) (c : Cart.t) : Cart.t :=
  if String.eqb (Cart._id c) cartId then Cart.cleared c else c.

(** The store [s'] is the store [s] after the fulfilment of [session] has
    got as far as placing the order, and possibly further: the order is
    appended; the stock of the first [k] items has been decremented; the
    coupon, if the step was reached, has one more use; the cart, if the
    step was reached, is cleared. *)
Definition fulfilled_once (session : Stripe.session) (now : Z)
    (s s' : DB.store) : Prop :=
  let md := Stripe.metadata_of session in
  let items := PaymentController.parsed_items md in
  Order.validate (PaymentController.order_of_session session) = true
  /\ orders_for (Stripe.id session) s = []
  /\ DB.orders s' = (DB.orders s ++ [PaymentController.order_of_session session])%list
  /\ (exists k, DB.products s' = dec_stock (take k items) (DB.products s))
  /\ (DB.coupons s' = DB.coupons s
      \/ exists code c,
           truthy (Stripe.md_couponCode md) = Some code
           /\ DB.coupons s !! code = Some c
           /\ DB.coupons s'
              = <[code :=
                    Coupon.recordUsage c (truthy (Stripe.md_userId md)) now]>
                  (DB.coupons s))
  /\ (DB.carts s' = DB.carts s
      \/ exists cartId,
           truthy (Stripe.md_cartId md) = Some cartId
           /\ DB.carts s' = clear_cart cartId <$> DB.carts s).

(** The store after a fulfilment in which no step failed. *)
Definition fulfilled_store (session : Stripe.session) (now : Z) (s : DB.store)
  : DB.store :=
  let md := Stripe.metadata_of session in
  let items := PaymentController.parsed_items md in
  {| DB.products := dec_stock items (DB.products s);
     DB.coupons :=
       match truthy (Stripe.md_couponCode md) with
       | Some code =>
           match DB.coupons s !! code with
           | Some c =>
               <[code :=
                   Coupon.recordUsage c (truthy (Stripe.md_userId md)) now]>
                 (DB.coupons s)
           | None => DB.coupons s
           end
       | None => DB.coupons s
       end;
     DB.carts :=
       match truthy (Stripe.md_cartId md) with
       | Some cartId => clear_cart cartId <$> DB.carts s
       | None => DB.carts s
       end;
     DB.orders := DB.orders s ++ [PaymentController.order_of_session session] |}.

(** Two deliveries of the same request, one after the other. *)
Definition deliver_twice
    (constructWebhookEvent : string -> option string -> string + Stripe.event)
    (req : PaymentController.webhook_request) (now1 now2 : Z)
  : DB.M response :=
  DB.bind (PaymentController.handleWebhook constructWebhookEvent req now1)
          (fun _ => PaymentController.handleWebhook constructWebhookEvent req now2).

Module Scenario.

(** Current price 100, floor price 85, negotiation enabled. *)
Definition lamp : Product.t :=
  {| Product.name := "Lamp"; Product.description := None;
     Product.imageUrl := None; Product.currency := None;
     Product.price := 100; Product.discountedPrice := None;
     Product.stock := 5; Product.isActive := true;
     Product.sizes := []; Product.colors := [];
     Product.negotiationEnabled := true;
     Product.hiddenBottomPrice := Some 85%Q |}.

(** A catalogue with the lamp (stock 5) under the id [p1]. *)
Definition catalogue : gmap string Product.t := {[ "p1" := lamp ]}.

Definition store_with (carts : gmap string Cart.t) : DB.store :=
  {| DB.products := catalogue; DB.coupons := ∅; DB.carts := carts;
     DB.orders := [] |}.

Definition world_of (s : DB.store) : DB.world :=
  {| DB.db := s; DB.provider := []; DB.faults := [] |}.

(** User [u1] already holds one lamp. *)
Definition cart_one_lamp : Cart.t :=
  Examples.cart [Examples.line "p1" 100 1] Cart.no_coupon.

Definition add_lamps (n : Z) : CartController.add_request :=
  {| CartController.a_productId := Some "p1";
     CartController.a_quantity := Some n;
     CartController.a_size := None;
     CartController.a_color := None |}.

Definition sync_lamps (n : Z) : CartController.incoming :=
  {| CartController.i_productId := "p1";
     CartController.i_quantity := Some n;
     CartController.i_size := None;
     CartController.i_color := None |}.

(** A checkout session of user [u1] for cart [cart1]. *)
Definition session_of (items : option Stripe.json_items)
    (coupon : option string) : Stripe.session :=
  {| Stripe.id := "cs_test_1";
     Stripe.metadata_of :=
       {| Stripe.md_userId := Some "u1";
          Stripe.md_couponCode := coupon;
          Stripe.md_cartId := Some "cart1";
          Stripe.md_itemsJson := items |};
     Stripe.amount_total := Some 18000%Z;
     Stripe.currency := Some "usd";
     Stripe.payment_intent := Some "pi_1" |}.

Definition completed (s : Stripe.session) : Stripe.event :=
  {| Stripe.type := "checkout.session.completed"; Stripe.data_object := s |}.

(** A stand-in for the signature check: one signature is good and signs
    the event [ev]. *)
Definition verify (ev : Stripe.event) (body : string) (sig : option string)
  : string + Stripe.event :=
  match sig with
  | Some s => if String.eqb s "v1=good" then inr ev
              else inl "No signatures found matching the expected signature"
  | None => inl "No stripe-signature header value was provided"
  end.

Definition signed : PaymentController.webhook_request :=
  {| PaymentController.raw_body := "payload";
     PaymentController.stripe_signature := Some "v1=good" |}.

Definition forged : PaymentController.webhook_request :=
  {| PaymentController.raw_body := "payload";
     PaymentController.stripe_signature := Some "v1=bad" |}.

(** Two lamps at 100. *)
Definition two_lamps : list Stripe.meta_item :=
  [ {| Stripe.productId := "p1"; Stripe.quantity := 2; Stripe.size := None;
       Stripe.color := None; Stripe.price := 100; Stripe.name := "Lamp";
       Stripe.imageUrl := EmptyString |} ].

(** The shop before the payment: 5 lamps, the coupon SAVE20 never used,
    and the cart of [u1]. *)
Definition shop : DB.world :=
  world_of
    {| DB.products := catalogue;
       DB.coupons :=
         {[ "SAVE20" := Examples.coupon "SAVE20" fixed 20 None None 0 [] ]};
       DB.carts := {[ "u1" := cart_one_lamp ]};
       DB.orders := [] |}.

End Scenario.

(* ------------------------------------------------------------------ *)
(** * Properties *)

(** ** Rounding *)

(** [lra] does not see through a division by the constant 100. *)
Ltac q100 := unfold Qdiv in *; change (/ 100)%Q with (1 # 100)%Q in *.

Lemma Qltb_lt (x y : Q) : Qltb x y = true <-> (x < y)%Q.
Proof.
  unfold Qltb. rewrite negb_true_iff. split.
  - intros H. apply Qnot_le_lt. intros Hle.
    apply Qle_bool_iff in Hle. congruence.
  - intros H. destruct (Qle_bool y x) eqn:E; [|reflexivity].
    apply Qle_bool_iff in E. apply Qlt_not_le in H. contradiction.
Qed.

Lemma Qltb_ge (x y : Q) : Qltb x y = false <-> (y <= x)%Q.
Proof.
  unfold Qltb. rewrite negb_false_iff. apply Qle_bool_iff.
Qed.

#[global] Instance round2_proper : Proper (Qeq ==> Qeq) round2.
Proof.
  intros x y Hxy. unfold round2, Math_round. now rewrite Hxy.
Qed.

Lemma round2_mono (x y : Q) : (x <= y)%Q -> (round2 x <= round2 y)%Q.
Proof.
  intros H. unfold round2, Math_round.
  assert (Hz : (Qfloor (x * 100 + (1 # 2)) <= Qfloor (y * 100 + (1 # 2)))%Z)
    by (apply Qfloor_resp_le; lra).
  rewrite Zle_Qle in Hz. q100. lra.
Qed.

Lemma round2_whole_cents (x : Q) : whole_cents x -> (round2 x == x)%Q.
Proof.
  unfold whole_cents, round2, Math_round. intros H.
  assert (E : Qfloor (x * 100 + (1 # 2)) = Qfloor (x * 100)).
  { apply Z.le_antisymm.
    - apply Z.lt_succ_r. rewrite Zlt_Qlt.
      eapply Qle_lt_trans; [apply Qfloor_le|].
      rewrite <- Z.add_1_r, inject_Z_plus. change (inject_Z 1) with 1%Q. lra.
    - apply Qfloor_resp_le. lra. }
  rewrite E, H. field.
Qed.




(** ** Coupon engine *)

Lemma alreadyUsed_elem (c : Coupon.t) (u : string) :
  Coupon.alreadyUsed c u = bool_decide (u ∈ Coupon.u_userId <$> Coupon.usedBy c).
Proof.
  unfold Coupon.alreadyUsed.
  induction (Coupon.usedBy c) as [|r l IH].
  - symmetry. apply bool_decide_eq_false. cbn. apply not_elem_of_nil.
  - cbn [existsb]. rewrite IH, fmap_cons.
    destruct (String.eqb_spec (Coupon.u_userId r) u) as [->|Hne]; cbn [orb].
    + symmetry. apply bool_decide_eq_true. apply list_elem_of_here.
    + apply bool_decide_ext. rewrite elem_of_cons. intuition congruence.
Qed.

Lemma reason_minimum_head (m : Q) :
  exists s, Coupon.reason_minimum m = String "M" s.
Proof. eexists. reflexivity. Qed.

Lemma reasons_distinct (c : Coupon.t) (sub : Q) (uid : option string) (now : Z) :
  NoDup (snd <$> evaluate_checks c sub uid now).
Proof.
  unfold evaluate_checks. simpl.
  destruct (reason_minimum_head (Coupon.minPurchase c)) as [s ->].
  repeat (apply NoDup_cons; split;
          [rewrite ?elem_of_cons, elem_of_nil;
           unfold Coupon.reason_inactive, Coupon.reason_expired,
             Coupon.reason_limit, Coupon.reason_used;
           intuition discriminate|]).
  apply NoDup_nil_2.
Qed.

Lemma isValid_checks (c : Coupon.t) (sub : Q) (uid : option string) (now : Z) :
  Coupon.isValid c sub uid now = first_failing (evaluate_checks c sub uid now).
Proof.
  unfold Coupon.isValid, first_failing, evaluate_checks. simpl.
  destruct (Coupon.isActive c); simpl; [|reflexivity].
  assert (E1 : match Coupon.expiresAt c with
               | Some e => (e <? now)%Z | None => false end
             = match Coupon.expiresAt c with
               | Some e => bool_decide (e < now)%Z | None => false end).
  { destruct (Coupon.expiresAt c) as [e|]; [|reflexivity].
    destruct (Z.ltb_spec e now); symmetry;
      [apply bool_decide_eq_true | apply bool_decide_eq_false]; lia. }
  rewrite E1. clear E1.
  destruct (match Coupon.expiresAt c with
            | Some e => bool_decide (e < now)%Z | None => false end);
    simpl; [reflexivity|].
  assert (E2 : match Coupon.usageLimit c with
               | Some l => (l <=? Coupon.usedCount c)%Z | None => false end
             = match Coupon.usageLimit c with
               | Some l => bool_decide (l ≤ Coupon.usedCount c)%Z
               | None => false end).
  { destruct (Coupon.usageLimit c) as [l|]; [|reflexivity].
    destruct (Z.leb_spec l (Coupon.usedCount c)); symmetry;
      [apply bool_decide_eq_true | apply bool_decide_eq_false]; lia. }
  rewrite E2. clear E2.
  destruct (match Coupon.usageLimit c with
            | Some l => bool_decide (l ≤ Coupon.usedCount c)%Z
            | None => false end); simpl; [reflexivity|].
  assert (E3 : match uid with
               | Some u => Coupon.onePerUser c && Coupon.alreadyUsed c u
               | None => false end
             = Coupon.onePerUser c &&
               match uid with
               | Some u => bool_decide (u ∈ Coupon.u_userId <$> Coupon.usedBy c)
               | None => false end).
  { destruct uid as [u|].
    - now rewrite alreadyUsed_elem.
    - now rewrite andb_false_r. }
  rewrite E3. clear E3.
  destruct (Coupon.onePerUser c && _); simpl; [reflexivity|].
  destruct (Qltb sub (Coupon.minPurchase c)); reflexivity.
Qed.

Lemma isValid_reason (c : Coupon.t) (sub : Q) (uid : option string) (now : Z)
    (r : string) :
  Coupon.isValid c sub uid now = Invalid r ->
  r = Coupon.reason_inactive /\ Coupon.isActive c = false
  \/ r = Coupon.reason_expired /\ (exists e, Coupon.expiresAt c = Some e /\ (e < now)%Z)
  \/ r = Coupon.reason_limit
     /\ (exists l, Coupon.usageLimit c = Some l /\ (l <= Coupon.usedCount c)%Z)
  \/ r = Coupon.reason_used
  \/ r = Coupon.reason_minimum (Coupon.minPurchase c).
Proof.
  unfold Coupon.isValid.
  destruct (Coupon.isActive c); simpl;
    [|intros [= <-]; left; split; reflexivity].
  destruct (Coupon.expiresAt c) as [e|].
  - destruct (Z.ltb_spec e now).
    { intros [= <-]. right. left. split; [reflexivity|]. eauto. }
    destruct (Coupon.usageLimit c) as [l|].
    + destruct (Z.leb_spec l (Coupon.usedCount c)).
      { intros [= <-]. right. right. left. split; [reflexivity|]. eauto. }
      repeat (match goal with |- context [if ?b then _ else _] => destruct b end);
        intros [= <-]; auto.
    + repeat (match goal with |- context [if ?b then _ else _] => destruct b end);
        intros [= <-]; auto.
  - destruct (Coupon.usageLimit c) as [l|].
    + destruct (Z.leb_spec l (Coupon.usedCount c)).
      { intros [= <-]. right. right. left. split; [reflexivity|]. eauto. }
      repeat (match goal with |- context [if ?b then _ else _] => destruct b end);
        intros [= <-]; auto.
    + repeat (match goal with |- context [if ?b then _ else _] => destruct b end);
        intros [= <-]; auto.
Qed.

(** C2.  [isValid] runs the five checks in the order inactive, expired,
    usage limit, one-per-user, minimum purchase, and answers with the
    reason of the first one that fails; the five reasons are pairwise
    distinct.  A null [usageLimit] makes the answer independent of
    [usedCount] and never yields the limit reason; a null [expiresAt]
    makes it independent of the clock and never yields the expiry
    reason. *)
Theorem isValid_first_failing_check
    (c : Coupon.t) (sub : Q) (uid : option string) (now : Z) :
  Coupon.isValid c sub uid now = first_failing (evaluate_checks c sub uid now)
  /\ NoDup (snd <$> evaluate_checks c sub uid now)
  /\ (Coupon.usageLimit c = None ->
      Coupon.isValid c sub uid now <> Invalid Coupon.reason_limit
      /\ forall n, Coupon.isValid (with_usedCount c n) sub uid now
                   = Coupon.isValid c sub uid now)
  /\ (Coupon.expiresAt c = None ->
      Coupon.isValid c sub uid now <> Invalid Coupon.reason_expired
      /\ forall now', Coupon.isValid c sub uid now'
                      = Coupon.isValid c sub uid now).
Proof.
  split; [apply isValid_checks|].
  split; [apply reasons_distinct|].
  destruct (reason_minimum_head (Coupon.minPurchase c)) as [s Hs].
  split.
  - intros Hnull. split.
    + intros H. apply isValid_reason in H.
      destruct H as [[H _]|[[H _]|[[_ (l & Hl & _)]|[H|H]]]];
        try discriminate H; try congruence.
    + intros n. unfold Coupon.isValid. simpl. rewrite Hnull. reflexivity.
  - intros Hnull. split.
    + intros H. apply isValid_reason in H.
      destruct H as [[H _]|[[_ (e & He & _)]|[[H _]|[H|H]]]];
        try discriminate H; try congruence.
    + intros now'. unfold Coupon.isValid. rewrite Hnull. reflexivity.
Qed.

Lemma isValid_first_failing_check_witness :
  let c := snapshot_coupon "SAVE10" percentage 10 in
  Coupon.usageLimit c = None /\ Coupon.expiresAt c = None
  /\ Coupon.isValid c 50 (Some "u1") 1000 = Valid
  /\ Coupon.isValid (with_usedCount c 999) 50 (Some "u1") 1000 = Valid
  /\ Coupon.isValid c 50 (Some "u1") 2000 = Valid.
Proof.
  intros c.
  destruct (isValid_first_failing_check c 50 (Some "u1") 1000)
    as (_ & _ & Hl & He).
  destruct (Hl eq_refl) as [_ Hl'].
  destruct (He eq_refl) as [_ He'].
  split; [reflexivity|]. split; [reflexivity|].
  split; [reflexivity|]. split.
  - rewrite Hl'. reflexivity.
  - rewrite He'. reflexivity.
Defined.

Lemma cap_is_min (m d : Q) : ((if Qltb m d then m else d) == Qmin d m)%Q.
Proof.
  destruct (Qltb m d) eqn:E.
  - apply Qltb_lt in E. symmetry. apply Q.min_r. lra.
  - apply Qltb_ge in E. symmetry. apply Q.min_l. exact E.
Qed.

Lemma calculateDiscount_formula (c : Coupon.t) (subtotal : Q) :
  (Coupon.calculateDiscount c subtotal == computeDiscount_spec c subtotal)%Q.
Proof.
  unfold Coupon.calculateDiscount, computeDiscount_spec.
  apply round2_proper. apply Q.min_compat; [|reflexivity].
  assert (Hraw : (match Coupon.discountType c with
                  | percentage => subtotal * (Coupon.discountValue c / 100)
                  | fixed => Coupon.discountValue c
                  end ==
                  match Coupon.discountType c with
                  | percentage => subtotal * Coupon.discountValue c / 100
                  | fixed => Coupon.discountValue c
                  end)%Q).
  { destruct (Coupon.discountType c); [field | reflexivity]. }
  destruct (Coupon.maxDiscount c) as [m|]; [|exact Hraw].
  rewrite cap_is_min. apply Q.min_compat; [exact Hraw | reflexivity].
Qed.





(** C6 (amended).  After one [recordUsage] for user [u] on an active,
    unexpired coupon with [usageLimit = 1], [onePerUser = true] and no
    earlier use, [usedCount] is 1, [u] is in the usage records, and
    [isValid] answers with the usage-limit reason for every user, [u]
    included: the limit check precedes the one-per-user check. *)
Theorem single_use_coupon_after_redemption
    (c : Coupon.t) (u : string) (usedAt : Z) (sub : Q) (v : option string)
    (now : Z) :
  Coupon.usageLimit c = Some 1%Z ->
  Coupon.onePerUser c = true ->
  Coupon.usedCount c = 0%Z ->
  Coupon.isActive c = true ->
  (forall e, Coupon.expiresAt c = Some e -> (now <= e)%Z) ->
  let c' := Coupon.recordUsage c (Some u) usedAt in
  Coupon.usedCount c' = 1%Z
  /\ u ∈ Coupon.u_userId <$> Coupon.usedBy c'
  /\ Coupon.isValid c' sub v now = Invalid Coupon.reason_limit.
Proof.
  intros Hl Hp Hn Ha He c'. split; [|split].
  - subst c'. simpl. rewrite Hn. reflexivity.
  - subst c'. simpl. rewrite fmap_app. apply elem_of_app. right.
    apply list_elem_of_here.
  - unfold Coupon.isValid. subst c'. simpl. rewrite Ha, Hl, Hn. simpl.
    destruct (Coupon.expiresAt c) as [e|]; [|reflexivity].
    specialize (He e eq_refl).
    destruct (Z.ltb_spec e now); [lia | reflexivity].
Qed.

Lemma single_use_coupon_after_redemption_witness :
  let c' := Coupon.recordUsage Examples.single_use (Some "alice") 10 in
  Coupon.isValid c' 100 (Some "alice") 20 = Invalid Coupon.reason_limit
  /\ Coupon.isValid c' 100 (Some "bob") 20 = Invalid Coupon.reason_limit.
Proof.
  split.
  - refine (proj2 (proj2 (single_use_coupon_after_redemption
      Examples.single_use "alice" 10 100 (Some "alice") 20 _ _ _ _ _)));
      try reflexivity. intros e [=].
  - refine (proj2 (proj2 (single_use_coupon_after_redemption
      Examples.single_use "alice" 10 100 (Some "bob") 20 _ _ _ _ _)));
      try reflexivity. intros e [=].
Defined.

(** C6 as stated fails: the same user's second [isValid] is answered with
    the usage-limit reason, not the already-used one. *)
Lemma single_use_same_user_gets_limit_reason :
  let c := Examples.single_use in
  let c' := Coupon.recordUsage c (Some "alice") 10 in
  Coupon.usageLimit c = Some 1%Z /\ Coupon.onePerUser c = true
  /\ Coupon.usedCount c' = 1%Z
  /\ "alice" ∈ Coupon.u_userId <$> Coupon.usedBy c'
  /\ Coupon.isValid c' 100 (Some "alice") 20 = Invalid Coupon.reason_limit
  /\ Coupon.isValid c' 100 (Some "alice") 20 <> Invalid Coupon.reason_used.
Proof.
  repeat split; try discriminate.
  apply list_elem_of_here.
Qed.

(** ** Cart pricing *)





Lemma cart_discount_no_coupon (c : Cart.t) :
  is_truthy (Cart.a_code (Cart.appliedCoupon c)) = false ->
  Cart.discount c = 0%Q.
Proof. intros H. unfold Cart.discount. rewrite H. reflexivity. Qed.

(** Where the two discount computations agree: a percentage of at most
    100 on a non-negative subtotal. *)
Lemma cart_discount_percentage_agrees (c : Cart.t) (code : string) (v : Q) :
  Cart.appliedCoupon c = Examples.snapshot code percentage v ->
  code <> EmptyString ->
  (0 <= Cart.subtotal c)%Q -> (v <= 100)%Q ->
  (Cart.discount c
   == Coupon.calculateDiscount (snapshot_coupon code percentage v)
        (Cart.subtotal c))%Q.
Proof.
  intros Ha Hc Hs Hv. unfold Cart.discount, Coupon.calculateDiscount.
  rewrite Ha. simpl.
  destruct code as [|a code']; [congruence|]. simpl.
  apply round2_proper. symmetry. apply Q.min_l. q100. nra.
Qed.

(** Where they agree for a fixed amount: when the smaller of the value and
    the subtotal is a whole number of cents. *)
Lemma cart_discount_fixed_agrees (c : Cart.t) (code : string) (v : Q) :
  Cart.appliedCoupon c = Examples.snapshot code fixed v ->
  code <> EmptyString ->
  whole_cents (Qmin v (Cart.subtotal c)) ->
  (Cart.discount c
   == Coupon.calculateDiscount (snapshot_coupon code fixed v)
        (Cart.subtotal c))%Q.
Proof.
  intros Ha Hc Hw. unfold Cart.discount, Coupon.calculateDiscount.
  rewrite Ha. simpl.
  destruct code as [|a code']; [congruence|]. simpl.
  symmetry. apply round2_whole_cents. exact Hw.
Qed.

(** C5 at its failing inputs.  With a percentage snapshot of 150 on a
    subtotal of 60 the cart's [discount] is 90 where [calculateDiscount]
    gives 60; with a fixed snapshot of 0.125 on a subtotal of 1 the cart's
    [discount] is 0.125 where [calculateDiscount] gives 0.13. *)
Theorem cart_discount_differs_from_calculateDiscount :
  (Cart.subtotal Examples.cart_60_pct_150 == 60)%Q
  /\ (Cart.discount Examples.cart_60_pct_150 == 90)%Q
  /\ (Coupon.calculateDiscount (snapshot_coupon "BIG" percentage 150)
        (Cart.subtotal Examples.cart_60_pct_150) == 60)%Q
  /\ (Cart.discount Examples.cart_1_fixed_eighth == 1 # 8)%Q
  /\ (Coupon.calculateDiscount (snapshot_coupon "TINY" fixed (1 # 8))
        (Cart.subtotal Examples.cart_1_fixed_eighth) == 13 # 100)%Q.
Proof. repeat split. Qed.

(** ** The monad *)

Lemma io_cases (w : DB.world) :
  (exists w', DB.io w = (DB.Ok tt, w') /\ DB.db w' = DB.db w
              /\ DB.provider w' = DB.provider w
              /\ DB.faults w' = tl (DB.faults w))
  \/ (exists e w', DB.io w = (DB.Throw e, w') /\ DB.db w' = DB.db w
                   /\ DB.provider w' = DB.provider w
                   /\ DB.faults w' = tl (DB.faults w)
                   /\ hd false (DB.faults w) = true).
Proof.
  unfold DB.io. destruct w as [d p [|[] f]]; simpl.
  - left. eexists. repeat split.
  - right. do 2 eexists. repeat split.
  - left. eexists. repeat split.
Qed.

Lemma bind_ok {A B} (m : DB.M A) (k : A -> DB.M B) (w w' : DB.world) (a : A) :
  m w = (DB.Ok a, w') -> DB.bind m k w = k a w'.
Proof. intros H. unfold DB.bind. rewrite H. reflexivity. Qed.

Lemma bind_throw {A B} (m : DB.M A) (k : A -> DB.M B) (w w' : DB.world)
    (e : string) :
  m w = (DB.Throw e, w') -> DB.bind m k w = (DB.Throw e, w').
Proof. intros H. unfold DB.bind. rewrite H. reflexivity. Qed.

Lemma try_catch_ok {A} (m : DB.M A) (h : string -> DB.M A) (w w' : DB.world)
    (a : A) :
  m w = (DB.Ok a, w') -> DB.try_catch m h w = (DB.Ok a, w').
Proof. intros H. unfold DB.try_catch. rewrite H. reflexivity. Qed.

Lemma try_catch_throw {A} (m : DB.M A) (h : string -> DB.M A)
    (w w' : DB.world) (e : string) :
  m w = (DB.Throw e, w') -> DB.try_catch m h w = h e w'.
Proof. intros H. unfold DB.try_catch. rewrite H. reflexivity. Qed.

Lemma read_after_io {A} (answer : DB.store -> A) :
  read_only (DB.bind DB.io (fun _ => DB.bind DB.get (fun s => DB.ret (answer s))))
            answer.
Proof.
  intros w. unfold DB.io, DB.bind, DB.get, DB.ret.
  destruct w as [d p [|[] f]]; simpl.
  - left. eexists. repeat split.
  - right. do 2 eexists. repeat split.
  - left. eexists. repeat split.
Qed.

Lemma Product_findById_read (id : string) :
  read_only (Model.Product_findById id) (fun s => DB.products s !! id).
Proof. apply (read_after_io (fun s => DB.products s !! id)). Qed.

Lemma Cart_findOne_read (user : string) :
  read_only (Model.Cart_findOne user) (fun s => DB.carts s !! user).
Proof. apply (read_after_io (fun s => DB.carts s !! user)). Qed.

Lemma Coupon_findOne_read (code : string) :
  read_only (Model.Coupon_findOne code) (fun s => DB.coupons s !! code).
Proof. apply (read_after_io (fun s => DB.coupons s !! code)). Qed.

(** ** Negotiated discounts *)






(** ** Cart synchronisation *)

Lemma read_reliable {A} (m : DB.M A) (answer : DB.store -> A) (w : DB.world) :
  read_only m answer -> reliable w -> m w = (DB.Ok (answer (DB.db w)), w).
Proof.
  intros Hm Hw. unfold reliable in Hw.
  destruct (Hm w) as [(w' & Hrd & Hdb & Hpr & Hf & _)
                     |(e & w' & _ & _ & _ & _ & Hbad)].
  - rewrite Hrd. f_equal. destruct w, w'; simpl in *. subst. reflexivity.
  - rewrite Hw in Hbad. discriminate.
Qed.

Lemma findIndex_Some (f : Cart.item -> bool) (l : list Cart.item) (i : nat)
    (x : Cart.item) :
  CartController.findIndex f l = Some (i, x) ->
  l !! i = Some x /\ f x = true
  /\ forall j y, (j < i)%nat -> l !! j = Some y -> f y = false.
Proof.
  revert i. induction l as [|a l IH]; intros i; simpl; [discriminate|].
  destruct (f a) eqn:Ea.
  - intros [= <- <-]. repeat split; [exact Ea|]. intros j y Hj. lia.
  - destruct (CartController.findIndex f l) as [[n y]|]; [|discriminate].
    intros [= <- <-]. destruct (IH n eq_refl) as (H1 & H2 & H3).
    repeat split; [exact H1 | exact H2 |].
    intros [|j] z Hj; simpl.
    + intros [= <-]. exact Ea.
    + apply H3. lia.
Qed.

Lemma sync_step_reliable (l : list Cart.item) (inc : CartController.incoming)
    (w : DB.world) :
  reliable w ->
  CartController.sync_step l inc w
  = (DB.Ok (sync_all (DB.products (DB.db w)) l [inc]), w).
Proof.
  intros Hw. unfold CartController.sync_step.
  erewrite bind_ok
    by (apply (read_reliable _ _ _ (Product_findById_read _) Hw)).
  simpl. destruct (DB.products (DB.db w) !! CartController.i_productId inc)
    as [p|]; [|reflexivity].
  destruct (Product.isActive p); reflexivity.
Qed.

Lemma sync_loop_reliable (incs : list CartController.incoming)
    (l : list Cart.item) (w : DB.world) :
  reliable w ->
  fold_each CartController.sync_step incs l w
  = (DB.Ok (sync_all (DB.products (DB.db w)) l incs), w).
Proof.
  intros Hw. revert l. induction incs as [|inc incs IH]; intros l; simpl.
  - reflexivity.
  - erewrite bind_ok by (apply sync_step_reliable; exact Hw).
    rewrite IH. reflexivity.
Qed.

Lemma io_reliable (w : DB.world) : reliable w -> DB.io w = (DB.Ok tt, w).
Proof.
  unfold reliable, DB.io. destruct w as [d p f]; simpl. now intros ->.
Qed.

Lemma Cart_save_reliable (c : Cart.t) (w : DB.world) :
  reliable w ->
  Model.Cart_save c w =
  if Cart.validate c
  then (DB.Ok tt,
        DB.with_db w (Model.set_carts (DB.db w)
                        (<[Cart.userId c := c]> (DB.carts (DB.db w)))))
  else (DB.Throw "Cart validation failed", w).
Proof.
  intros Hw. unfold Model.Cart_save.
  destruct (Cart.validate c); simpl; [|reflexivity].
  erewrite bind_ok by (apply io_reliable; exact Hw). reflexivity.
Qed.





(** ** Stock checks *)

(** C8 as stated fails: with one lamp already in the cart and 5 in stock,
    asking for 5 more, the available stock exactly, is refused. *)
Lemma addToCart_stock_quantity_refused :
  let w := Scenario.world_of
             (Scenario.store_with {[ "u1" := Scenario.cart_one_lamp ]}) in
  Product.stock Scenario.lamp = 5%Z
  /\ CartController.addToCart "u1" "c2" (Scenario.add_lamps 5) w
     = (DB.Ok {| status := 400; payload := Message "Only 5 items in stock" |}, w).
Proof. split; [reflexivity|]. vm_compute. reflexivity. Qed.

Lemma addToCart_over_stock (user fresh pid : string) (q : Z)
    (size color : option string) (p : Product.t) (w : DB.world) :
  pid <> EmptyString ->
  next_io_ok w ->
  DB.products (DB.db w) !! pid = Some p ->
  Product.isActive p = true ->
  (Product.stock p < q)%Z ->
  exists w',
    CartController.addToCart user fresh
      {| CartController.a_productId := Some pid;
         CartController.a_quantity := Some q;
         CartController.a_size := size;
         CartController.a_color := color |} w
    = (DB.Ok {| status := 400;
                payload := Message (CartController.only_in_stock
                                      (Product.stock p)) |}, w')
    /\ DB.db w' = DB.db w.
Proof.
  intros Hpid Hok Hfind Hact Hq. unfold CartController.addToCart.
  destruct pid as [|a pid']; [congruence|].
  cbn [truthy CartController.a_productId CartController.a_quantity from_option id].
  destruct (Product_findById_read (String a pid') w)
    as [(w' & Hrd & Hdb & _)|(e & w' & _ & _ & _ & _ & Hbad)];
    [|unfold next_io_ok in Hok; congruence].
  exists w'. split; [|exact Hdb].
  apply try_catch_ok. erewrite bind_ok by exact Hrd.
  rewrite Hfind, Hact. cbn [negb].
  destruct (Z.ltb_spec (Product.stock p) q); [reflexivity | lia].
Qed.

Lemma addToCart_new_line (user fresh pid : string) (q : Z)
    (size color : option string) (p : Product.t) (w : DB.world) :
  pid <> EmptyString ->
  reliable w ->
  DB.products (DB.db w) !! pid = Some p ->
  Product.isActive p = true ->
  (1 <= q <= Product.stock p)%Z ->
  CartController.bad_option size (Product.sizes p) = None ->
  CartController.bad_option color (Product.colors p) = None ->
  let cart := default (CartController.new_cart fresh user)
                      (DB.carts (DB.db w) !! user) in
  Cart.validate cart = true ->
  CartController.findIndex (CartController.same_line pid size color)
                           (Cart.items cart) = None ->
  let cart' :=
    Cart.with_items cart
      (Cart.items cart ++
       [{| Cart.productId := pid; Cart.quantity := q;
           Cart.size := truthy size; Cart.color := truthy color;
           Cart.price := Product.effectivePrice p |}]) in
  CartController.addToCart user fresh
    {| CartController.a_productId := Some pid;
       CartController.a_quantity := Some q;
       CartController.a_size := size;
       CartController.a_color := color |} w
  = (DB.Ok {| status := 200;
              payload := CartJson (CartController.formatCart cart') |},
     DB.with_db w (Model.set_carts (DB.db w)
                     (<[Cart.userId cart' := cart']> (DB.carts (DB.db w))))).
Proof.
  intros Hpid Hw Hfind Hact Hq Hsize Hcolor cart Hvalid Hnone cart'.
  unfold CartController.addToCart.
  destruct pid as [|a pid']; [congruence|].
  cbn [truthy CartController.a_productId CartController.a_quantity
       CartController.a_size CartController.a_color from_option id].
  apply try_catch_ok.
  erewrite bind_ok
    by (apply (read_reliable _ _ _ (Product_findById_read _) Hw)).
  cbv beta. rewrite Hfind, Hact. cbn [negb].
  destruct (Z.ltb_spec (Product.stock p) q); [lia|].
  rewrite Hsize, Hcolor.
  erewrite bind_ok
    by (apply (read_reliable _ _ _ (Cart_findOne_read _) Hw)).
  cbv beta. fold cart. cbv zeta. rewrite Hnone.
  unfold DB.bind. rewrite (Cart_save_reliable _ w Hw).
  assert (Hv : Cart.validate cart' = true).
  { unfold Cart.validate in *. subst cart'. cbn [Cart.with_items Cart.items].
    rewrite forallb_app, Hvalid. cbn. rewrite andb_true_r.
    apply Z.leb_le. lia. }
  fold cart'. rewrite Hv. reflexivity.
Qed.

Lemma addToCart_existing_line (user fresh pid : string) (q : Z)
    (size color : option string) (p : Product.t) (w : DB.world)
    (cart : Cart.t) (i : nat) (ex : Cart.item) :
  pid <> EmptyString ->
  reliable w ->
  DB.products (DB.db w) !! pid = Some p ->
  Product.isActive p = true ->
  (q <= Product.stock p)%Z ->
  CartController.bad_option size (Product.sizes p) = None ->
  CartController.bad_option color (Product.colors p) = None ->
  DB.carts (DB.db w) !! user = Some cart ->
  CartController.findIndex (CartController.same_line pid size color)
                           (Cart.items cart) = Some (i, ex) ->
  (Product.stock p < Cart.quantity ex + q)%Z ->
  CartController.addToCart user fresh
    {| CartController.a_productId := Some pid;
       CartController.a_quantity := Some q;
       CartController.a_size := size;
       CartController.a_color := color |} w
  = (DB.Ok {| status := 400;
              payload := Message (CartController.only_in_stock
                                    (Product.stock p)) |}, w).
Proof.
  intros Hpid Hw Hfind Hact Hq Hsize Hcolor Hcart Hsome Hover.
  unfold CartController.addToCart.
  destruct pid as [|a pid']; [congruence|].
  cbn [truthy CartController.a_productId CartController.a_quantity
       CartController.a_size CartController.a_color from_option id].
  apply try_catch_ok.
  erewrite bind_ok
    by (apply (read_reliable _ _ _ (Product_findById_read _) Hw)).
  cbv beta. rewrite Hfind, Hact. cbn [negb].
  destruct (Z.ltb_spec (Product.stock p) q); [lia|].
  rewrite Hsize, Hcolor.
  erewrite bind_ok
    by (apply (read_reliable _ _ _ (Cart_findOne_read _) Hw)).
  cbv beta. rewrite Hcart. cbn [from_option id]. rewrite Hsome.
  destruct (Z.ltb_spec (Product.stock p) (Cart.quantity ex + q)); [|lia].
  reflexivity.
Qed.

Lemma Cart_findOne_populated_read (user : string) :
  read_only (PaymentController.Cart_findOne_populated user)
            (fun s => populated_cart s user).
Proof. apply (read_after_io (fun s => populated_cart s user)). Qed.

Lemma Coupon_findOneActive_read (code : string) :
  read_only (Model.Coupon_findOneActive code)
            (fun s => match DB.coupons s !! code with
                      | Some c => if Coupon.isActive c then Some c else None
                      | None => None
                      end).
Proof.
  apply (read_after_io
           (fun s => match DB.coupons s !! code with
                     | Some c => if Coupon.isActive c then Some c else None
                     | None => None
                     end)).
Qed.

Lemma check_items_purchasable (l : list (Cart.item * option Product.t)) :
  if forallb purchasable l
  then exists r, PaymentController.check_items l = inr r
                 /\ fst <$> r = fst <$> l
  else exists msg, PaymentController.check_items l = inl msg.
Proof.
  induction l as [|[i [p|]] l IH]; simpl.
  - exists []. split; reflexivity.
  - unfold purchasable at 1. simpl.
    destruct (Product.isActive p); simpl; [|eauto].
    destruct (Z.leb_spec (Cart.quantity i) (Product.stock p)) as [Hle|Hgt];
      destruct (Z.ltb_spec (Product.stock p) (Cart.quantity i)); try lia;
      simpl; [|eauto].
    destruct (forallb purchasable l).
    + destruct IH as (r & -> & Hr). eexists. split; [reflexivity|].
      rewrite !fmap_cons. cbn [fst]. f_equal. exact Hr.
    + destruct IH as (msg & ->). eauto.
  - eauto.
Qed.

Lemma check_items_first_short (pre post : list (Cart.item * option Product.t))
    (i : Cart.item) (p : Product.t) :
  forallb purchasable pre = true ->
  Product.isActive p = true ->
  (Product.stock p < Cart.quantity i)%Z ->
  PaymentController.check_items (pre ++ (i, Some p) :: post)
  = inl (PaymentController.only_has (Product.name p) (Product.stock p)).
Proof.
  intros Hpre Hact Hq. induction pre as [|[j [pj|]] pre IH]; simpl in *.
  - rewrite Hact. simpl.
    destruct (Z.ltb_spec (Product.stock p) (Cart.quantity i)); [reflexivity|lia].
  - apply andb_prop in Hpre as [Hj Hpre]. unfold purchasable in Hj.
    simpl in Hj. apply andb_prop in Hj as [Hja Hjq]. rewrite Hja. simpl.
    apply Z.leb_le in Hjq.
    destruct (Z.ltb_spec (Product.stock pj) (Cart.quantity j)); [lia|].
    rewrite (IH Hpre). reflexivity.
  - discriminate.
Qed.

Lemma checkout_refused (user : string) (w : DB.world) (cart : Cart.t)
    (pop : list (Cart.item * option Product.t)) :
  populated_cart (DB.db w) user = Some (cart, pop) ->
  forallb purchasable pop = false ->
  let res := PaymentController.createCheckoutFromCart user w in
  DB.provider (snd res) = DB.provider w
  /\ DB.db (snd res) = DB.db w
  /\ (exists st msg, fst res = DB.Ok {| status := st; payload := Message msg |}
                     /\ (st = 400 \/ st = 500)%nat)
  /\ (next_io_ok w ->
      exists msg, PaymentController.check_items pop = inl msg
                  /\ fst res = DB.Ok {| status := 400; payload := Message msg |}).
Proof.
  intros Hpop Hbad res. subst res.
  unfold PaymentController.createCheckoutFromCart.
  pose proof (check_items_purchasable pop) as Hchk. rewrite Hbad in Hchk.
  destruct Hchk as (msg & Hmsg).
  destruct (Cart_findOne_populated_read user w)
    as [(w' & Hrd & Hdb & Hpr & _ & Hgood)
       |(e & w' & Hrd & Hdb & Hpr & _ & Hfail)].
  - erewrite try_catch_ok.
    2:{ erewrite bind_ok by exact Hrd. rewrite Hpop.
        destruct pop as [|x pop]; [discriminate|].
        rewrite Hmsg. reflexivity. }
    simpl. repeat split; try assumption; eauto.
  - erewrite try_catch_throw by (erewrite bind_throw by exact Hrd; reflexivity).
    simpl. repeat split; try assumption; eauto.
    intros Hok. unfold next_io_ok in Hok. congruence.
Qed.

Lemma checkout_created (user : string) (w : DB.world) (cart : Cart.t)
    (pop : list (Cart.item * option Product.t)) :
  reliable w ->
  populated_cart (DB.db w) user = Some (cart, pop) ->
  pop <> [] ->
  forallb purchasable pop = true ->
  exists sid url req w',
    PaymentController.createCheckoutFromCart user w
    = (DB.Ok {| status := 200; payload := SessionRef sid url |}, w')
    /\ DB.provider w' = (DB.provider w ++ [req])%list
    /\ DB.db w' = DB.db w
    /\ Stripe.li_quantity <$> Stripe.lineItems req
       = Cart.quantity <$> (fst <$> pop).
Proof.
  intros Hw Hpop Hne Hgood.
  unfold PaymentController.createCheckoutFromCart.
  pose proof (check_items_purchasable pop) as Hchk. rewrite Hgood in Hchk.
  destruct Hchk as (r & Hr & Hfst).
  assert (Hc : exists c,
             match truthy (Cart.a_code (Cart.appliedCoupon cart)) with
             | Some code => Model.Coupon_findOneActive code
             | None => DB.ret None
             end w = (DB.Ok c, w)).
  { destruct (truthy (Cart.a_code (Cart.appliedCoupon cart))) as [code|].
    - eexists. apply (read_reliable _ _ _ (Coupon_findOneActive_read code) Hw).
    - eexists. reflexivity. }
  destruct Hc as (c & Hc).
  do 4 eexists. split.
  - apply try_catch_ok.
    erewrite bind_ok
      by (apply (read_reliable _ _ _ (Cart_findOne_populated_read _) Hw)).
    cbv beta. rewrite Hpop.
    destruct pop as [|x pop]; [congruence|]. rewrite Hr.
    erewrite bind_ok by exact Hc.
    cbv beta. unfold Model.createCheckoutSession.
    erewrite bind_ok.
    2:{ erewrite bind_ok by (apply io_reliable; exact Hw). reflexivity. }
    reflexivity.
  - cbn [DB.provider DB.db Stripe.lineItems].
    split; [exact eq_refl|]. split; [reflexivity|]. cbn [Stripe.lineItems].
    rewrite <- Hfst. rewrite <- !list_fmap_compose.
    apply list_fmap_ext. intros ? [i p] ?. reflexivity.
Qed.

(** C8 (amended).  For an active product: asking [addToCart] for
    [stock + 1] is refused with a message that names the stock, and the
    database is left as it was; asking for exactly the stock succeeds when
    the request opens a new line of the cart (valid variant, stock of at
    least 1), the line being saved with that quantity; when the cart
    already holds a line for the same product and variant, the sum of the
    two quantities is what is compared with the stock, and asking for
    exactly the stock is refused with the same message.  At checkout a
    line whose quantity equals the stock passes and one with [stock + 1]
    does not; when any line of the cart is missing its product, inactive
    or short of stock, the operation ends with an error, no session is
    created and the database is unchanged, the message naming the stock
    for the first line that is short by one; when every line passes, one
    session is created for the cart's quantities. *)
Theorem stock_check_boundary
    (pid : string) (p : Product.t) (user fresh : string)
    (size color : option string) (w : DB.world) :
  pid <> EmptyString ->
  DB.products (DB.db w) !! pid = Some p ->
  Product.isActive p = true ->
  let stock := Product.stock p in
  let request q :=
    {| CartController.a_productId := Some pid;
       CartController.a_quantity := Some q;
       CartController.a_size := size;
       CartController.a_color := color |} in
  (next_io_ok w ->
   exists w',
     CartController.addToCart user fresh (request (stock + 1)%Z) w
     = (DB.Ok {| status := 400;
                 payload := Message ("Only " +:+ pretty stock
                                       +:+ " items in stock") |}, w')
     /\ DB.db w' = DB.db w)
  /\ (reliable w ->
      (1 <= stock)%Z ->
      CartController.bad_option size (Product.sizes p) = None ->
      CartController.bad_option color (Product.colors p) = None ->
      let cart := default (CartController.new_cart fresh user)
                          (DB.carts (DB.db w) !! user) in
      Cart.validate cart = true ->
      CartController.findIndex (CartController.same_line pid size color)
                               (Cart.items cart) = None ->
      exists w' v line,
        CartController.addToCart user fresh (request stock) w
        = (DB.Ok {| status := 200; payload := CartJson v |}, w')
        /\ v_items v = (Cart.items cart ++ [line])%list
        /\ Cart.quantity line = stock
        /\ Cart.items <$> (DB.carts (DB.db w') !! Cart.userId cart)
           = Some (Cart.items cart ++ [line])%list)
  /\ (reliable w ->
      CartController.bad_option size (Product.sizes p) = None ->
      CartController.bad_option color (Product.colors p) = None ->
      forall cart i ex,
        DB.carts (DB.db w) !! user = Some cart ->
        CartController.findIndex (CartController.same_line pid size color)
                                 (Cart.items cart) = Some (i, ex) ->
        (1 <= Cart.quantity ex)%Z ->
        CartController.addToCart user fresh (request stock) w
        = (DB.Ok {| status := 400;
                    payload := Message (CartController.only_in_stock stock) |},
           w))
  /\ (forall i, Cart.quantity i = stock -> purchasable (i, Some p) = true)
  /\ (forall i, Cart.quantity i = (stock + 1)%Z ->
                purchasable (i, Some p) = false)
  /\ (forall buyer cart pop,
        populated_cart (DB.db w) buyer = Some (cart, pop) ->
        (forallb purchasable pop = false ->
         let res := PaymentController.createCheckoutFromCart buyer w in
         DB.provider (snd res) = DB.provider w
         /\ DB.db (snd res) = DB.db w
         /\ exists st msg,
              fst res = DB.Ok {| status := st; payload := Message msg |}
              /\ (st = 400 \/ st = 500)%nat)
        /\ (forall pre i post,
              pop = (pre ++ (i, Some p) :: post)%list ->
              forallb purchasable pre = true ->
              Cart.quantity i = (stock + 1)%Z ->
              next_io_ok w ->
              fst (PaymentController.createCheckoutFromCart buyer w)
              = DB.Ok {| status := 400;
                         payload :=
                           Message (dquote +:+ Product.name p +:+ dquote
                                      +:+ " only has " +:+ pretty stock
                                      +:+ " in stock") |})
        /\ (reliable w -> pop <> [] -> forallb purchasable pop = true ->
            exists sid url req w',
              PaymentController.createCheckoutFromCart buyer w
              = (DB.Ok {| status := 200; payload := SessionRef sid url |}, w')
              /\ DB.provider w' = (DB.provider w ++ [req])%list
              /\ DB.db w' = DB.db w
              /\ Stripe.li_quantity <$> Stripe.lineItems req
                 = Cart.quantity <$> (fst <$> pop))).
Proof.
  intros Hpid Hfind Hact stock request.
  split; [|split; [|split; [|split; [|split]]]].
  - intros Hok.
    apply (addToCart_over_stock user fresh pid (stock + 1) size color p w);
      try assumption. lia.
  - intros Hw Hstock Hsize Hcolor cart Hvalid Hnone.
    pose proof (addToCart_new_line user fresh pid stock size color p w
                  Hpid Hw Hfind Hact) as H.
    cbv zeta in H. fold cart in H.
    specialize (H (conj Hstock (Z.le_refl _)) Hsize Hcolor Hvalid Hnone).
    do 3 eexists. split; [exact H|].
    split; [reflexivity|]. split; [reflexivity|].
    cbn [DB.db DB.with_db DB.carts Model.set_carts Cart.with_items Cart.userId].
    rewrite lookup_insert_eq. reflexivity.
  - intros Hw Hsize Hcolor cart i ex Hcart Hsome Hex.
    apply (addToCart_existing_line user fresh pid stock size color p w cart i ex);
      try assumption; lia.
  - intros i Hq. unfold purchasable. simpl. rewrite Hact. simpl.
    apply Z.leb_le. fold stock. lia.
  - intros i Hq. unfold purchasable. simpl. rewrite Hact. simpl.
    apply Z.leb_gt. fold stock. lia.
  - intros buyer cart pop Hpop. split; [|split].
    + intros Hbad res.
      destruct (checkout_refused buyer w cart pop Hpop Hbad)
        as (H1 & H2 & H3 & _).
      repeat split; assumption.
    + intros pre i post -> Hpre Hq Hok.
      assert (Hshort : (Product.stock p < Cart.quantity i)%Z)
        by (fold stock; lia).
      pose proof (check_items_first_short pre post i p Hpre Hact Hshort) as Hc.
      assert (Hbad : forallb purchasable (pre ++ (i, Some p) :: post) = false).
      { pose proof (check_items_purchasable (pre ++ (i, Some p) :: post)) as Hx.
        destruct (forallb purchasable (pre ++ (i, Some p) :: post));
          [|reflexivity].
        destruct Hx as (r & Hr & _). congruence. }
      destruct (checkout_refused buyer w cart _ Hpop Hbad)
        as (_ & _ & _ & H4).
      destruct (H4 Hok) as (msg & Hmsg & Hres).
      rewrite Hres. rewrite Hc in Hmsg. injection Hmsg as <-. reflexivity.
    + intros Hw Hne Hgood.
      apply (checkout_created buyer w cart pop Hw Hpop Hne Hgood).
Qed.

Lemma stock_check_boundary_witness :
  (exists w' v,
     CartController.addToCart "u1" "c1" (Scenario.add_lamps 5)
       (Scenario.world_of (Scenario.store_with ∅))
     = (DB.Ok {| status := 200; payload := CartJson v |}, w'))
  /\ (exists w',
        CartController.addToCart "u1" "c1" (Scenario.add_lamps 6)
          (Scenario.world_of (Scenario.store_with ∅))
        = (DB.Ok {| status := 400;
                    payload := Message "Only 5 items in stock" |}, w'))
  /\ exists sid url req w',
       PaymentController.createCheckoutFromCart "u1" Scenario.shop
       = (DB.Ok {| status := 200; payload := SessionRef sid url |}, w')
       /\ DB.provider w' = [req].
Proof.
  pose (w := Scenario.world_of (Scenario.store_with ∅)).
  assert (Hpid : "p1" <> EmptyString) by discriminate.
  assert (Hfind : DB.products (DB.db w) !! "p1" = Some Scenario.lamp)
    by reflexivity.
  destruct (stock_check_boundary "p1" Scenario.lamp "u1" "c1" None None w
              Hpid Hfind eq_refl) as (Hover & Hnew & _).
  assert (Hstock : (1 <= Product.stock Scenario.lamp)%Z) by (simpl; lia).
  split; [|split].
  - destruct (Hnew eq_refl Hstock eq_refl eq_refl eq_refl eq_refl)
      as (w' & v & line & E & _).
    exists w', v. exact E.
  - destruct (Hover eq_refl) as (w' & E & _). exists w'. exact E.
  - destruct (stock_check_boundary "p1" Scenario.lamp "u1" "c1" None None
                Scenario.shop Hpid eq_refl eq_refl)
      as (_ & _ & _ & _ & _ & Hcheckout).
    destruct (Hcheckout "u1" Scenario.cart_one_lamp
                [(Examples.line "p1" 100 1, Some Scenario.lamp)] eq_refl)
      as (_ & _ & Hok).
    assert (Hne : [(Examples.line "p1" 100 1, Some Scenario.lamp)] <> [])
      by discriminate.
    destruct (Hok eq_refl Hne eq_refl) as (sid & url & req & w' & E & Hp & _).
    exists sid, url, req, w'. split; [exact E | exact Hp].
Defined.

(** ** The payment webhook *)

Lemma swallow_ok (m : DB.M unit) (w : DB.world) :
  exists w', DB.try_catch m (fun _ => DB.ret tt) w = (DB.Ok tt, w')
             /\ w' = snd (m w).
Proof.
  unfold DB.try_catch, DB.ret. destruct (m w) as [[[]|e] w']; eauto.
Qed.

(** C9.  When the signature does not verify, [handleWebhook] answers 400
    with the error and leaves the database, the provider and the pending
    failures exactly as they were.  When it verifies, the answer is 200
    [{ received: true }] whatever the event and whichever calls to the
    database fail. *)
Theorem handleWebhook_acknowledges
    (constructWebhookEvent : string -> option string -> string + Stripe.event)
    (req : PaymentController.webhook_request) (now : Z) (w : DB.world) :
  (forall message,
     constructWebhookEvent (PaymentController.raw_body req)
                           (PaymentController.stripe_signature req)
     = inl message ->
     PaymentController.handleWebhook constructWebhookEvent req now w
     = (DB.Ok {| status := 400;
                 payload := Text ("Webhook Error: " +:+ message) |}, w))
  /\ (forall event,
        constructWebhookEvent (PaymentController.raw_body req)
                              (PaymentController.stripe_signature req)
        = inr event ->
        exists w',
          PaymentController.handleWebhook constructWebhookEvent req now w
          = (DB.Ok {| status := 200; payload := Received |}, w')).
Proof.
  split.
  - intros message H. unfold PaymentController.handleWebhook. rewrite H.
    reflexivity.
  - intros event H. unfold PaymentController.handleWebhook. rewrite H.
    destruct (String.eqb (Stripe.type event) "checkout.session.completed").
    + destruct (swallow_ok
                  (PaymentController.fulfil (Stripe.data_object event) now) w)
        as (w' & E & _).
      exists w'. erewrite bind_ok by exact E. reflexivity.
    + exists w. reflexivity.
Qed.

Lemma handleWebhook_acknowledges_witness :
  let event := Scenario.completed
                 (Scenario.session_of (Some (Stripe.Items Scenario.two_lamps))
                                      (Some "SAVE20")) in
  PaymentController.handleWebhook (Scenario.verify event) Scenario.forged 10
                                  Scenario.shop
  = (DB.Ok {| status := 400;
              payload := Text "Webhook Error: No signatures found matching the expected signature" |},
     Scenario.shop)
  /\ exists w',
       PaymentController.handleWebhook (Scenario.verify event) Scenario.signed
                                       10 Scenario.shop
       = (DB.Ok {| status := 200; payload := Received |}, w').
Proof.
  intros event.
  destruct (handleWebhook_acknowledges (Scenario.verify event) Scenario.forged
              10 Scenario.shop) as (Hbad & _).
  destruct (handleWebhook_acknowledges (Scenario.verify event) Scenario.signed
              10 Scenario.shop) as (_ & Hgood).
  split.
  - exact (Hbad _ eq_refl).
  - exact (Hgood event eq_refl).
Defined.

(** *** One step at a time *)

(** A write: the store becomes [update] of the store, or the call fails
    and nothing is written. *)
Lemma write_after_io (update : DB.store -> DB.store) (w : DB.world) :
  let m := DB.bind DB.io (fun _ => DB.bind DB.get (fun s => DB.put (update s))) in
  (exists w', m w = (DB.Ok tt, w') /\ DB.db w' = update (DB.db w)
              /\ DB.provider w' = DB.provider w
              /\ DB.faults w' = tl (DB.faults w))
  \/ (exists e w', m w = (DB.Throw e, w') /\ DB.db w' = DB.db w
                   /\ DB.provider w' = DB.provider w
                   /\ DB.faults w' = tl (DB.faults w)).
Proof.
  unfold DB.io, DB.bind, DB.get, DB.put, DB.with_db.
  destruct w as [d p [|[] f]]; simpl.
  - left. eexists. repeat split.
  - right. do 2 eexists. repeat split.
  - left. eexists. repeat split.
Qed.

Lemma write_reliable (update : DB.store -> DB.store) (w : DB.world) :
  reliable w ->
  DB.bind DB.io (fun _ => DB.bind DB.get (fun s => DB.put (update s))) w
  = (DB.Ok tt, DB.with_db w (update (DB.db w))).
Proof.
  intros Hw. erewrite bind_ok by (apply io_reliable; exact Hw). reflexivity.
Qed.

Lemma reliable_with_db (w : DB.world) (s : DB.store) :
  reliable w -> reliable (DB.with_db w s).
Proof. unfold reliable. simpl. auto. Qed.

Lemma Order_save_cases (o : Order.t) (w : DB.world) :
  (exists w', Model.Order_save o w = (DB.Ok tt, w')
              /\ Order.validate o = true
              /\ orders_for (Order.stripeSessionId o) (DB.db w) = []
              /\ DB.db w' = Model.set_orders (DB.db w) (DB.orders (DB.db w) ++ [o])
              /\ DB.provider w' = DB.provider w)
  \/ (exists e w', Model.Order_save o w = (DB.Throw e, w')
                   /\ DB.db w' = DB.db w
                   /\ DB.provider w' = DB.provider w).
Proof.
  unfold Model.Order_save.
  destruct (Order.validate o) eqn:Hv; simpl;
    [|right; do 2 eexists; repeat split].
  destruct (io_cases w) as [(w1 & Hio & Hdb & Hpr & _)
                           |(e & w1 & Hio & Hdb & Hpr & _)].
  - destruct (existsb (Model.has_session (Order.stripeSessionId o))
                      (DB.orders (DB.db w1))) eqn:Hdup.
    + right. do 2 eexists. split.
      { erewrite bind_ok by exact Hio. unfold DB.bind, DB.get.
        rewrite Hdup. reflexivity. }
      split; assumption.
    + left. eexists. split.
      { erewrite bind_ok by exact Hio. unfold DB.bind, DB.get.
        rewrite Hdup. reflexivity. }
      split; [reflexivity|]. cbn [DB.db DB.with_db DB.provider].
      rewrite Hdb in *. split; [|split; [reflexivity | exact Hpr]].
      unfold orders_for.
      induction (DB.orders (DB.db w)) as [|x l IH]; [reflexivity|].
      simpl in *. apply orb_false_elim in Hdup as [-> Hl]. auto.
  - right. do 2 eexists. split; [apply (bind_throw _ _ _ _ _ Hio)|].
    split; assumption.
Qed.

Lemma Order_save_reliable (o : Order.t) (w : DB.world) :
  reliable w ->
  Order.validate o = true ->
  orders_for (Order.stripeSessionId o) (DB.db w) = [] ->
  Model.Order_save o w
  = (DB.Ok tt,
     DB.with_db w (Model.set_orders (DB.db w) (DB.orders (DB.db w) ++ [o]))).
Proof.
  intros Hw Hv Hnone. unfold Model.Order_save. rewrite Hv. simpl.
  erewrite bind_ok by (apply io_reliable; exact Hw).
  unfold DB.bind, DB.get.
  assert (E : existsb (Model.has_session (Order.stripeSessionId o))
                      (DB.orders (DB.db w)) = false).
  { unfold orders_for in Hnone.
    induction (DB.orders (DB.db w)) as [|x l IH]; [reflexivity|].
    simpl in *. destruct (Model.has_session (Order.stripeSessionId o) x);
      [discriminate | auto]. }
  rewrite E. reflexivity.
Qed.

Lemma update_inventory_cases (items : list Stripe.meta_item) (w : DB.world) :
  exists out w' k,
    PaymentController.update_inventory items w = (out, w')
    /\ DB.products (DB.db w')
       = dec_stock (take k items) (DB.products (DB.db w))
    /\ DB.coupons (DB.db w') = DB.coupons (DB.db w)
    /\ DB.carts (DB.db w') = DB.carts (DB.db w)
    /\ DB.orders (DB.db w') = DB.orders (DB.db w)
    /\ DB.provider w' = DB.provider w.
Proof.
  unfold PaymentController.update_inventory.
  revert w. induction items as [|i items IH]; intros w.
  - exists (DB.Ok tt), w, O. repeat split.
  - cbn [for_each]. unfold Model.Product_incStock at 1.
    destruct (write_after_io
                (fun s => Model.set_products s
                   (alter (fun p => Product.with_stock p
                             (Product.stock p + - Stripe.quantity i))
                          (Stripe.productId i) (DB.products s))) w)
      as [(w1 & Hrun & Hdb & Hpr & _)|(e & w1 & Hrun & Hdb & Hpr & _)].
    + erewrite bind_ok by exact Hrun.
      destruct (IH w1) as (out & w' & k & E & Hp & Hc & Hca & Ho & Hpv).
      exists out, w', (S k). split; [exact E|].
      rewrite Hdb in *. simpl in *.
      repeat split; try assumption; congruence.
    + erewrite bind_throw by exact Hrun.
      exists (DB.Throw e), w1, O. rewrite Hdb. repeat split. exact Hpr.
Qed.

Lemma update_inventory_reliable (items : list Stripe.meta_item) (w : DB.world) :
  reliable w ->
  PaymentController.update_inventory items w
  = (DB.Ok tt,
     DB.with_db w (Model.set_products (DB.db w)
                     (dec_stock items (DB.products (DB.db w))))).
Proof.
  unfold PaymentController.update_inventory.
  revert w. induction items as [|i items IH]; intros w Hw.
  - simpl. unfold DB.ret. f_equal. destruct w as [[] ? ?]; reflexivity.
  - cbn [for_each]. unfold Model.Product_incStock at 1.
    erewrite bind_ok by (apply write_reliable; exact Hw).
    rewrite IH by (apply reliable_with_db; exact Hw). reflexivity.
Qed.

Lemma record_coupon_usage_cases (couponCode userId : option string) (now : Z)
    (w : DB.world) :
  exists out w',
    PaymentController.record_coupon_usage couponCode userId now w = (out, w')
    /\ DB.products (DB.db w') = DB.products (DB.db w)
    /\ DB.carts (DB.db w') = DB.carts (DB.db w)
    /\ DB.orders (DB.db w') = DB.orders (DB.db w)
    /\ DB.provider w' = DB.provider w
    /\ (DB.coupons (DB.db w') = DB.coupons (DB.db w)
        \/ exists code c,
             couponCode = Some code
             /\ DB.coupons (DB.db w) !! code = Some c
             /\ DB.coupons (DB.db w')
                = <[code := Coupon.recordUsage c (truthy userId) now]>
                    (DB.coupons (DB.db w))).
Proof.
  unfold PaymentController.record_coupon_usage.
  destruct couponCode as [code|];
    [|exists (DB.Ok tt), w; repeat split; left; reflexivity].
  destruct (Coupon_findOne_read code w)
    as [(w1 & Hrd & Hdb & Hpr & _)|(e & w1 & Hrd & Hdb & Hpr & _)].
  - erewrite bind_ok by exact Hrd.
    destruct (DB.coupons (DB.db w) !! code) as [c|] eqn:Hc.
    + unfold Model.Coupon_save.
      destruct (write_after_io
                  (fun s => Model.set_coupons s
                     (<[code := Coupon.recordUsage c (truthy userId) now]>
                        (DB.coupons s))) w1)
        as [(w2 & Hrun & Hdb2 & Hpr2 & _)|(e & w2 & Hrun & Hdb2 & Hpr2 & _)].
      * exists (DB.Ok tt), w2. split; [exact Hrun|].
        rewrite Hdb2, Hdb. simpl. repeat split; try congruence.
        right. exists code, c. repeat split. exact Hc.
      * exists (DB.Throw e), w2. split; [exact Hrun|].
        rewrite Hdb2, Hdb. repeat split; try congruence. left. reflexivity.
    + exists (DB.Ok tt), w1. split; [reflexivity|].
      rewrite Hdb. repeat split; try congruence. left. reflexivity.
  - erewrite bind_throw by exact Hrd.
    exists (DB.Throw e), w1. split; [reflexivity|].
    rewrite Hdb. repeat split; try congruence. left. reflexivity.
Qed.

Lemma record_coupon_usage_reliable (couponCode userId : option string)
    (now : Z) (w : DB.world) :
  reliable w ->
  PaymentController.record_coupon_usage couponCode userId now w
  = (DB.Ok tt,
     DB.with_db w
       (Model.set_coupons (DB.db w)
          match couponCode with
          | Some code =>
              match DB.coupons (DB.db w) !! code with
              | Some c =>
                  <[code := Coupon.recordUsage c (truthy userId) now]>
                    (DB.coupons (DB.db w))
              | None => DB.coupons (DB.db w)
              end
          | None => DB.coupons (DB.db w)
          end)).
Proof.
  intros Hw. unfold PaymentController.record_coupon_usage.
  assert (Hid : (DB.Ok tt, w)
                = (DB.Ok tt, DB.with_db w (Model.set_coupons (DB.db w)
                                             (DB.coupons (DB.db w)))))
    by (destruct w as [[] ? ?]; reflexivity).
  destruct couponCode as [code|]; [|exact Hid].
  erewrite bind_ok by (apply (read_reliable _ _ _ (Coupon_findOne_read _) Hw)).
  cbv beta. destruct (DB.coupons (DB.db w) !! code) as [c|]; [|exact Hid].
  unfold Model.Coupon_save. apply write_reliable. exact Hw.
Qed.

Lemma clear_users_cart_cases (cartId : option string) (w : DB.world) :
  exists out w',
    PaymentController.clear_users_cart cartId w = (out, w')
    /\ DB.products (DB.db w') = DB.products (DB.db w)
    /\ DB.coupons (DB.db w') = DB.coupons (DB.db w)
    /\ DB.orders (DB.db w') = DB.orders (DB.db w)
    /\ DB.provider w' = DB.provider w
    /\ (DB.carts (DB.db w') = DB.carts (DB.db w)
        \/ exists id, truthy cartId = Some id
                      /\ DB.carts (DB.db w')
                         = clear_cart id <$> DB.carts (DB.db w)).
Proof.
  unfold PaymentController.clear_users_cart.
  destruct (truthy cartId) as [id|];
    [|exists (DB.Ok tt), w; repeat split; left; reflexivity].
  unfold Model.Cart_clearById.
  destruct (write_after_io
              (fun s => Model.set_carts s (clear_cart id <$> DB.carts s)) w)
    as [(w1 & Hrun & Hdb & Hpr & _)|(e & w1 & Hrun & Hdb & Hpr & _)].
  - exists (DB.Ok tt), w1. split; [exact Hrun|].
    rewrite Hdb. simpl. repeat split; try assumption. right. eauto.
  - exists (DB.Throw e), w1. split; [exact Hrun|].
    rewrite Hdb. repeat split; try assumption. left. reflexivity.
Qed.

Lemma clear_users_cart_reliable (cartId : option string) (w : DB.world) :
  reliable w ->
  PaymentController.clear_users_cart cartId w
  = (DB.Ok tt,
     DB.with_db w
       (Model.set_carts (DB.db w)
          match truthy cartId with
          | Some id => clear_cart id <$> DB.carts (DB.db w)
          | None => DB.carts (DB.db w)
          end)).
Proof.
  intros Hw. unfold PaymentController.clear_users_cart.
  destruct (truthy cartId) as [id|].
  - unfold Model.Cart_clearById.
    apply (write_reliable
             (fun s => Model.set_carts s (clear_cart id <$> DB.carts s)) w Hw).
  - destruct w as [[] ? ?]; reflexivity.
Qed.

(** *** The whole fulfilment *)

Lemma fulfil_effect (session : Stripe.session) (now : Z) (w : DB.world) :
  let w' := snd (PaymentController.fulfil session now w) in
  DB.provider w' = DB.provider w
  /\ (DB.db w' = DB.db w \/ fulfilled_once session now (DB.db w) (DB.db w')).
Proof.
  unfold PaymentController.fulfil. cbv zeta.
  set (o := PaymentController.order_of_session session).
  set (md := Stripe.metadata_of session).
  set (items := PaymentController.parsed_items md).
  destruct (Order_save_cases o w)
    as [(w1 & E1 & Hv & Hnone & Hdb1 & Hpr1)|(e & w1 & E1 & Hdb1 & Hpr1)].
  2:{ erewrite bind_throw by exact E1. simpl.
      split; [exact Hpr1 | left; exact Hdb1]. }
  erewrite bind_ok by exact E1.
  assert (P1 : DB.products (DB.db w1) = DB.products (DB.db w))
    by (rewrite Hdb1; reflexivity).
  assert (C1 : DB.coupons (DB.db w1) = DB.coupons (DB.db w))
    by (rewrite Hdb1; reflexivity).
  assert (A1 : DB.carts (DB.db w1) = DB.carts (DB.db w))
    by (rewrite Hdb1; reflexivity).
  assert (O1 : DB.orders (DB.db w1) = (DB.orders (DB.db w) ++ [o])%list)
    by (rewrite Hdb1; reflexivity).
  clear Hdb1.
  destruct (update_inventory_cases items w1)
    as (out2 & w2 & k & E2 & P2 & C2 & A2 & O2 & Hpr2).
  rewrite P1 in P2. rewrite C1 in C2. rewrite A1 in A2. rewrite O1 in O2.
  assert (Hpr2' : DB.provider w2 = DB.provider w) by congruence.
  destruct out2 as [[]|e2].
  2:{ erewrite bind_throw by exact E2. simpl. split; [exact Hpr2'|].
      right. unfold fulfilled_once. fold md items o.
      split; [exact Hv|]. split; [exact Hnone|]. split; [exact O2|].
      split; [eauto|]. split; left; assumption. }
  erewrite bind_ok by exact E2.
  destruct (record_coupon_usage_cases (truthy (Stripe.md_couponCode md))
              (Stripe.md_userId md) now w2)
    as (out3 & w3 & E3 & P3 & A3 & O3 & Hpr3 & C3).
  rewrite P2 in P3. rewrite A2 in A3. rewrite O2 in O3. rewrite C2 in C3.
  assert (Hpr3' : DB.provider w3 = DB.provider w) by congruence.
  destruct out3 as [[]|e3].
  2:{ erewrite bind_throw by exact E3. simpl. split; [exact Hpr3'|].
      right. unfold fulfilled_once. fold md items o.
      split; [exact Hv|]. split; [exact Hnone|]. split; [exact O3|].
      split; [eauto|]. split; [exact C3 | left; exact A3]. }
  erewrite bind_ok by exact E3.
  destruct (clear_users_cart_cases (Stripe.md_cartId md) w3)
    as (out4 & w4 & E4 & P4 & C4 & O4 & Hpr4 & A4).
  rewrite E4. simpl.
  split; [congruence|]. right. unfold fulfilled_once. fold md items o.
  split; [exact Hv|]. split; [exact Hnone|].
  split; [congruence|]. split; [exists k; congruence|].
  split.
  - rewrite C4. exact C3.
  - rewrite A3 in A4. exact A4.
Qed.

Lemma fulfil_reliable (session : Stripe.session) (now : Z) (w : DB.world) :
  reliable w ->
  Order.validate (PaymentController.order_of_session session) = true ->
  orders_for (Stripe.id session) (DB.db w) = [] ->
  PaymentController.fulfil session now w
  = (DB.Ok tt, DB.with_db w (fulfilled_store session now (DB.db w))).
Proof.
  intros Hw Hv Hnone. unfold PaymentController.fulfil. cbv zeta.
  erewrite bind_ok by (apply Order_save_reliable; assumption).
  erewrite bind_ok
    by (apply update_inventory_reliable; apply reliable_with_db; exact Hw).
  erewrite bind_ok
    by (apply record_coupon_usage_reliable; repeat apply reliable_with_db;
        exact Hw).
  rewrite clear_users_cart_reliable by (repeat apply reliable_with_db; exact Hw).
  reflexivity.
Qed.

Lemma fulfil_duplicate (session : Stripe.session) (now : Z) (w : DB.world) :
  reliable w ->
  orders_for (Stripe.id session) (DB.db w) <> [] ->
  exists e, PaymentController.fulfil session now w = (DB.Throw e, w).
Proof.
  intros Hw Hsome. unfold PaymentController.fulfil. cbv zeta.
  unfold Model.Order_save.
  destruct (Order.validate (PaymentController.order_of_session session)).
  - cbn [negb]. eexists. erewrite bind_throw; [reflexivity|].
    erewrite bind_ok by (apply io_reliable; exact Hw).
    unfold DB.bind, DB.get.
    assert (E : existsb (Model.has_session (Stripe.id session))
                        (DB.orders (DB.db w)) = true).
    { unfold orders_for in Hsome.
      induction (DB.orders (DB.db w)) as [|x l IH];
        [simpl in Hsome; congruence|].
      simpl in *. destruct (Model.has_session (Stripe.id session) x);
        [reflexivity|auto]. }
    cbn [PaymentController.order_of_session Order.stripeSessionId].
    rewrite E. reflexivity.
  - cbn [negb]. eexists. erewrite bind_throw; reflexivity.
Qed.

Lemma orders_for_fulfilled (session : Stripe.session) (now : Z)
    (s s' : DB.store) :
  fulfilled_once session now s s' ->
  orders_for (Stripe.id session) s'
  = [PaymentController.order_of_session session].
Proof.
  intros (_ & Hnone & Ho & _). unfold orders_for in *.
  rewrite Ho, List.filter_app, Hnone. simpl.
  unfold Model.has_session. simpl. rewrite String.eqb_refl. reflexivity.
Qed.

(** *** Stock arithmetic *)

Lemma with_stock_same (p : Product.t) : Product.with_stock p (Product.stock p) = p.
Proof. destruct p; reflexivity. Qed.

Lemma dec_stock_lookup (items : list Stripe.meta_item)
    (m : gmap string Product.t) (pid : string) :
  dec_stock items m !! pid
  = (fun p => Product.with_stock p
                (Product.stock p - ordered_quantity pid items))
      <$> (m !! pid).
Proof.
  unfold dec_stock. revert m. induction items as [|i items IH]; intros m.
  - simpl. destruct (m !! pid) as [p|]; simpl; [|reflexivity].
    rewrite Z.sub_0_r, with_stock_same. reflexivity.
  - cbn [fold_left ordered_quantity fold_right]. rewrite IH.
    fold (ordered_quantity pid items).
    unfold dec_one. rewrite lookup_alter.
    destruct (String.eqb_spec (Stripe.productId i) pid) as [->|Hne].
    + rewrite decide_True by reflexivity.
      destruct (m !! pid) as [p|]; simpl; [|reflexivity].
      f_equal. unfold Product.with_stock. simpl. f_equal. lia.
    + rewrite decide_False by exact Hne. reflexivity.
Qed.

Lemma ordered_quantity_take (pid : string) (items : list Stripe.meta_item)
    (k : nat) :
  Forall (fun i => (0 <= Stripe.quantity i)%Z) items ->
  (0 <= ordered_quantity pid (take k items) <= ordered_quantity pid items)%Z.
Proof.
  intros H. revert k. induction H as [|i items Hi _ IH]; intros k.
  - rewrite take_nil. simpl. lia.
  - destruct k as [|k]; simpl.
    + specialize (IH O). rewrite take_0 in IH. simpl in IH.
      destruct (String.eqb (Stripe.productId i) pid); lia.
    + specialize (IH k).
      destruct (String.eqb (Stripe.productId i) pid); lia.
Qed.

Lemma validated_quantities (session : Stripe.session) :
  Order.validate (PaymentController.order_of_session session) = true ->
  Forall (fun i => (1 <= Stripe.quantity i)%Z)
         (PaymentController.parsed_items (Stripe.metadata_of session)).
Proof.
  unfold Order.validate. simpl. intros H.
  apply andb_prop in H as [H _]. apply andb_prop in H as [_ H].
  induction (PaymentController.parsed_items (Stripe.metadata_of session))
    as [|i l IH]; [constructor|].
  rewrite fmap_cons in H. simpl in H. apply andb_prop in H as [Hi Hl].
  constructor; [|auto].
  unfold Order.validate_item in Hi. simpl in Hi.
  apply andb_prop in Hi as [_ Hi]. now apply Z.leb_le in Hi.
Qed.

(** *** Two deliveries of one event *)

Lemma deliver_twice_effect
    (constructWebhookEvent : string -> option string -> string + Stripe.event)
    (req : PaymentController.webhook_request) (now1 now2 : Z) (w : DB.world)
    (event : Stripe.event) :
  constructWebhookEvent (PaymentController.raw_body req)
                        (PaymentController.stripe_signature req) = inr event ->
  Stripe.type event = "checkout.session.completed" ->
  let session := Stripe.data_object event in
  let run := deliver_twice constructWebhookEvent req now1 now2 w in
  fst run = DB.Ok {| status := 200; payload := Received |}
  /\ DB.provider (snd run) = DB.provider w
  /\ (DB.db (snd run) = DB.db w
      \/ fulfilled_once session now1 (DB.db w) (DB.db (snd run))
      \/ fulfilled_once session now2 (DB.db w) (DB.db (snd run))).
Proof.
  intros Hev Hty session run. subst run.
  unfold deliver_twice, PaymentController.handleWebhook.
  rewrite Hev, Hty. cbn [String.eqb Ascii.eqb Bool.eqb].
  fold session.
  destruct (swallow_ok (PaymentController.fulfil session now1) w)
    as (w1 & E1 & Hw1).
  destruct (swallow_ok (PaymentController.fulfil session now2) w1)
    as (w2 & E2 & Hw2).
  erewrite bind_ok.
  2:{ erewrite bind_ok by exact E1. reflexivity. }
  erewrite bind_ok by exact E2.
  unfold respond, DB.ret. cbn [fst snd].
  split; [reflexivity|].
  pose proof (fulfil_effect session now1 w) as (Hp1 & H1).
  pose proof (fulfil_effect session now2 w1) as (Hp2 & H2).
  rewrite <- Hw1 in Hp1, H1. rewrite <- Hw2 in Hp2, H2.
  split; [congruence|].
  destruct H1 as [H1|H1], H2 as [H2|H2].
  - left. congruence.
  - right. right. rewrite H1 in H2. exact H2.
  - right. left. rewrite H2. exact H1.
  - exfalso. pose proof (orders_for_fulfilled _ _ _ _ H1) as Ho.
    destruct H2 as (_ & Hnone & _). congruence.
Qed.

(** C1 (amended).  Two deliveries, one after the other, of the same
    verified [checkout.session.completed] event for a session [S] of which
    no order is stored yet.  Whichever calls to the database fail, the
    store ends with at most one order for [S], and every coupon is
    unchanged, except that the one named in the metadata may have gained
    one usage record and one [usedCount] increment.  When the order built
    from the event passes the order schema's validation, the stock of
    every product has gone down by at most the quantity the event orders
    of it; when moreover no call fails, there is exactly one order for
    [S], every stock has gone down by exactly the ordered quantity and the
    coupon named in the metadata has exactly one more use: the second
    delivery changes nothing.  When the order does not pass validation,
    nothing is stored at all. *)
Theorem duplicate_delivery_fulfils_at_most_once
    (constructWebhookEvent : string -> option string -> string + Stripe.event)
    (req : PaymentController.webhook_request) (now1 now2 : Z) (w : DB.world)
    (event : Stripe.event) :
  constructWebhookEvent (PaymentController.raw_body req)
                        (PaymentController.stripe_signature req) = inr event ->
  Stripe.type event = "checkout.session.completed" ->
  let session := Stripe.data_object event in
  let md := Stripe.metadata_of session in
  let items := PaymentController.parsed_items md in
  let order := PaymentController.order_of_session session in
  orders_for (Stripe.id session) (DB.db w) = [] ->
  let run := deliver_twice constructWebhookEvent req now1 now2 w in
  let s2 := DB.db (snd run) in
  (orders_for (Stripe.id session) s2 = []
   \/ orders_for (Stripe.id session) s2 = [order])
  /\ (forall code c,
        DB.coupons (DB.db w) !! code = Some c ->
        exists c',
          DB.coupons s2 !! code = Some c'
          /\ (c' = c
              \/ (truthy (Stripe.md_couponCode md) = Some code
                  /\ exists now,
                       c' = Coupon.recordUsage c (truthy (Stripe.md_userId md)) now))
          /\ (Coupon.usedCount c <= Coupon.usedCount c'
              <= Coupon.usedCount c + 1)%Z
          /\ (length (Coupon.usedBy c') <= length (Coupon.usedBy c) + 1)%nat)
  /\ (Order.validate order = true ->
      forall pid p,
        DB.products (DB.db w) !! pid = Some p ->
        exists n, DB.products s2 !! pid = Some (Product.with_stock p n)
                  /\ (Product.stock p - ordered_quantity pid items <= n
                      <= Product.stock p)%Z)
  /\ (reliable w ->
      Order.validate order = true ->
      run = (DB.Ok {| status := 200; payload := Received |},
             DB.with_db w (fulfilled_store session now1 (DB.db w)))
      /\ orders_for (Stripe.id session) s2 = [order]
      /\ (forall pid p,
            DB.products (DB.db w) !! pid = Some p ->
            DB.products s2 !! pid
            = Some (Product.with_stock p
                      (Product.stock p - ordered_quantity pid items)))
      /\ (forall code c,
            truthy (Stripe.md_couponCode md) = Some code ->
            DB.coupons (DB.db w) !! code = Some c ->
            DB.coupons s2 !! code
            = Some (Coupon.recordUsage c (truthy (Stripe.md_userId md)) now1)))
  /\ (Order.validate order = false -> s2 = DB.db w).
Proof.
  intros Hev Hty session md items order Hnone run s2.
  destruct (deliver_twice_effect constructWebhookEvent req now1 now2 w event
              Hev Hty) as (Hres & Hprov & Hcase).
  fold session in Hcase. fold run in Hres, Hprov, Hcase. fold s2 in Hcase.
  assert (Hsum : s2 = DB.db w
                 \/ exists now, fulfilled_once session now (DB.db w) s2).
  { destruct Hcase as [H|[H|H]]; eauto. }
  clear Hcase.
  split; [|split; [|split; [|split]]].
  - destruct Hsum as [->|(now & H)]; [left; exact Hnone|].
    right. apply (orders_for_fulfilled _ _ _ _ H).
  - intros code c Hc.
    assert (Hsame : exists c', DB.coupons (DB.db w) !! code = Some c'
              /\ (c' = c \/ (truthy (Stripe.md_couponCode md) = Some code
                   /\ exists now, c' = Coupon.recordUsage c
                                         (truthy (Stripe.md_userId md)) now))
              /\ (Coupon.usedCount c <= Coupon.usedCount c'
                  <= Coupon.usedCount c + 1)%Z
              /\ (length (Coupon.usedBy c') <= length (Coupon.usedBy c) + 1)%nat).
    { exists c. split; [exact Hc|]. split; [left; reflexivity|]. lia. }
    destruct Hsum as [->|(now & H)]; [exact Hsame|].
    destruct H as (_ & _ & _ & _ & Hcoup & _). fold md in Hcoup.
    destruct Hcoup as [->|(code' & c0 & Hcode & Hc0 & ->)]; [exact Hsame|].
    destruct (decide (code' = code)) as [->|Hne].
    + rewrite lookup_insert_eq. rewrite Hc in Hc0. injection Hc0 as <-.
      eexists. split; [reflexivity|].
      split; [right; split; [exact Hcode | eauto]|].
      unfold Coupon.recordUsage. simpl.
      split; [lia|].
      destruct (truthy (Stripe.md_userId md)); [rewrite length_app; simpl|]; lia.
    + rewrite lookup_insert_ne by exact Hne. exact Hsame.
  - intros Hv pid p Hp.
    pose proof (validated_quantities session Hv) as Hq. fold md items in Hq.
    assert (Hq0 : Forall (fun i => (0 <= Stripe.quantity i)%Z) items).
    { eapply Forall_impl; [exact Hq|]. simpl. intros; lia. }
    destruct Hsum as [->|(now & H)].
    + exists (Product.stock p). rewrite with_stock_same. split; [exact Hp|].
      pose proof (ordered_quantity_take pid items O Hq0) as Hb.
      rewrite take_0 in Hb. simpl in Hb. lia.
    + destruct H as (_ & _ & _ & (k & Hk) & _). fold md items in Hk.
      rewrite Hk, dec_stock_lookup, Hp. simpl.
      eexists. split; [reflexivity|].
      pose proof (ordered_quantity_take pid items k Hq0). lia.
  - intros Hw Hv.
    assert (Hrun : run = (DB.Ok {| status := 200; payload := Received |},
                          DB.with_db w (fulfilled_store session now1 (DB.db w)))).
    { subst run. unfold deliver_twice, PaymentController.handleWebhook.
      rewrite Hev, Hty. cbn [String.eqb Ascii.eqb Bool.eqb]. fold session.
      erewrite bind_ok.
      2:{ erewrite bind_ok; [reflexivity|].
          apply try_catch_ok. apply fulfil_reliable; assumption. }
      destruct (fulfil_duplicate session now2
                  (DB.with_db w (fulfilled_store session now1 (DB.db w))))
        as (e & He).
      { apply reliable_with_db. exact Hw. }
      { unfold orders_for, fulfilled_store. simpl.
        rewrite List.filter_app. simpl.
        unfold Model.has_session at 2. simpl. rewrite String.eqb_refl.
        intros Habs. apply app_eq_nil in Habs as [_ Habs]. discriminate. }
      erewrite bind_ok; [reflexivity|].
      erewrite try_catch_throw by exact He. reflexivity. }
    split; [exact Hrun|].
    subst s2. rewrite Hrun. cbn [snd DB.db DB.with_db].
    split; [|split].
    + unfold orders_for, fulfilled_store. simpl.
      rewrite List.filter_app. unfold orders_for in Hnone. rewrite Hnone.
      simpl. unfold Model.has_session. simpl. rewrite String.eqb_refl.
      reflexivity.
    + intros pid p Hp. unfold fulfilled_store. simpl.
      rewrite dec_stock_lookup, Hp. reflexivity.
    + intros code c Hcode Hc. unfold fulfilled_store. simpl.
      fold md. rewrite Hcode, Hc. apply lookup_insert_eq.
  - intros Hv. destruct Hsum as [H|(now & H)]; [exact H|].
    destruct H as (Hv' & _). fold order in Hv'. congruence.
Qed.

Lemma duplicate_delivery_fulfils_at_most_once_witness :
  let event := Scenario.completed
                 (Scenario.session_of (Some (Stripe.Items Scenario.two_lamps))
                                      (Some "SAVE20")) in
  let run := deliver_twice (Scenario.verify event) Scenario.signed 10 20
                           Scenario.shop in
  orders_for "cs_test_1" (DB.db (snd run))
  = [PaymentController.order_of_session (Stripe.data_object event)]
  /\ DB.products (DB.db (snd run)) !! "p1"
     = Some (Product.with_stock Scenario.lamp 3).
Proof.
  intros event run.
  destruct (duplicate_delivery_fulfils_at_most_once
              (Scenario.verify event) Scenario.signed 10 20 Scenario.shop event
              eq_refl eq_refl eq_refl) as (_ & _ & _ & H & _).
  destruct (H eq_refl eq_refl) as (_ & Ho & Hp & _).
  split; [exact Ho|].
  exact (Hp "p1" Scenario.lamp eq_refl).
Defined.

(** C1 as stated fails: an event whose metadata lists no items passes the
    signature check, but the order schema refuses an order without items;
    after both deliveries, each acknowledged, no order is stored for the
    session. *)
Lemma duplicate_delivery_without_order :
  let event := Scenario.completed
                 (Scenario.session_of (Some (Stripe.Items [])) None) in
  let run := deliver_twice (Scenario.verify event) Scenario.signed 10 20
                           Scenario.shop in
  Scenario.verify event "payload" (Some "v1=good") = inr event
  /\ fst run = DB.Ok {| status := 200; payload := Received |}
  /\ orders_for "cs_test_1" (DB.db (snd run)) = []
  /\ length (orders_for "cs_test_1" (DB.db (snd run))) <> 1%nat.
Proof.
  vm_compute. repeat split. discriminate.
Qed.

(* ------------------------------------------------------------------ *)
(** * Further properties of the code *)

(** ** Coupon engine: usage and validity *)

Lemma first_failing_Valid (l : list (bool * string)) :
  first_failing l = Valid <-> Forall (fun x => fst x = false) l.
Proof.
  unfold first_failing. induction l as [|[b r] l IH]; simpl.
  - split; [constructor | reflexivity].
  - destruct b; simpl.
    + split; [discriminate|]. intros H. inversion H. discriminate.
    + rewrite IH. split.
      * intros H. constructor; [reflexivity | exact H].
      * intros H. inversion H. assumption.
Qed.

Lemma isValid_Valid_iff (c : Coupon.t) (sub : Q) (uid : option string)
    (now : Z) :
  Coupon.isValid c sub uid now = Valid <->
  Coupon.isActive c = true
  /\ (forall e, Coupon.expiresAt c = Some e -> (now <= e)%Z)
  /\ (forall l, Coupon.usageLimit c = Some l -> (Coupon.usedCount c < l)%Z)
  /\ (forall u, uid = Some u -> Coupon.onePerUser c = true ->
                u ∉ Coupon.u_userId <$> Coupon.usedBy c)
  /\ (Coupon.minPurchase c <= sub)%Q.
Proof.
  rewrite isValid_checks, first_failing_Valid. unfold evaluate_checks.
  rewrite !Forall_cons, Forall_nil. cbn [fst].
  rewrite negb_false_iff, Qltb_ge.
  assert (He : match Coupon.expiresAt c with
               | Some e => bool_decide (e < now)%Z
               | None => false
               end = false
               <-> forall e, Coupon.expiresAt c = Some e -> (now <= e)%Z).
  { destruct (Coupon.expiresAt c) as [e|].
    - rewrite bool_decide_eq_false. split.
      + intros H e' [= <-]. lia.
      + intros H. specialize (H e eq_refl). lia.
    - split; [intros _ e [=] | reflexivity]. }
  assert (Hl : match Coupon.usageLimit c with
               | Some l => bool_decide (l ≤ Coupon.usedCount c)%Z
               | None => false
               end = false
               <-> forall l, Coupon.usageLimit c = Some l ->
                             (Coupon.usedCount c < l)%Z).
  { destruct (Coupon.usageLimit c) as [l|].
    - rewrite bool_decide_eq_false. split.
      + intros H l' [= <-]. lia.
      + intros H. specialize (H l eq_refl). lia.
    - split; [intros _ l [=] | reflexivity]. }
  assert (Hu : Coupon.onePerUser c &&
               match uid with
               | Some u => bool_decide (u ∈ Coupon.u_userId <$> Coupon.usedBy c)
               | None => false
               end = false
               <-> forall u, uid = Some u -> Coupon.onePerUser c = true ->
                             u ∉ Coupon.u_userId <$> Coupon.usedBy c).
  { destruct uid as [u|].
    - destruct (Coupon.onePerUser c); cbn [andb].
      + rewrite bool_decide_eq_false. split.
        * intros H u' [= <-] _. exact H.
        * intros H. apply (H u); reflexivity.
      + split; [intros _ u' _ [=] | reflexivity].
    - rewrite andb_false_r. split; [intros _ u [=] | reflexivity]. }
  rewrite He, Hl, Hu. tauto.
Qed.

Lemma recordUsage_usedBy (c : Coupon.t) (u : option string) (t : Z) (x : string) :
  x ∈ Coupon.u_userId <$> Coupon.usedBy c ->
  x ∈ Coupon.u_userId <$> Coupon.usedBy (Coupon.recordUsage c u t).
Proof.
  intros H. unfold Coupon.recordUsage. simpl.
  destruct u as [u|]; [|exact H].
  rewrite fmap_app. apply elem_of_app. left. exact H.
Qed.

(** X1.  Recording a usage never turns a refusal into an acceptance: a
    coupon that [isValid] refuses, for a given subtotal, user and time,
    is still refused after any [recordUsage]. *)
Theorem recordUsage_keeps_invalid
    (c : Coupon.t) (sub : Q) (uid : option string) (now : Z)
    (u : option string) (usedAt : Z) :
  Coupon.isValid c sub uid now <> Valid ->
  Coupon.isValid (Coupon.recordUsage c u usedAt) sub uid now <> Valid.
Proof.
  intros Hbad Hgood. apply Hbad.
  apply isValid_Valid_iff in Hgood as (Ha & He & Hl & Hu & Hm).
  apply isValid_Valid_iff. simpl in *.
  split; [exact Ha|]. split; [exact He|].
  split; [intros l E; specialize (Hl l E); lia|].
  split; [|exact Hm].
  intros x Hx Hp Hin. apply (Hu x Hx Hp).
  apply (recordUsage_usedBy c u usedAt x Hin).
Qed.

Lemma recordUsage_keeps_invalid_witness :
  Coupon.isValid
    (Coupon.recordUsage
       (Coupon.recordUsage Examples.single_use (Some "alice") 10)
       (Some "bob") 11)
    100 (Some "carol") 20 <> Valid.
Proof.
  apply recordUsage_keeps_invalid. discriminate.
Defined.

(** X2.  A one-per-user coupon is never valid again for a user whose usage
    has been recorded, whatever its limit, the subtotal and the time. *)
Theorem one_per_user_redeemed_never_valid
    (c : Coupon.t) (u : string) (usedAt : Z) (sub : Q) (now : Z) :
  Coupon.onePerUser c = true ->
  Coupon.isValid (Coupon.recordUsage c (Some u) usedAt) sub (Some u) now
  <> Valid.
Proof.
  intros Hp Hgood.
  apply isValid_Valid_iff in Hgood as (_ & _ & _ & Hu & _).
  apply (Hu u eq_refl Hp). simpl.
  rewrite fmap_app. apply elem_of_app. right. apply list_elem_of_here.
Qed.

Lemma one_per_user_redeemed_never_valid_witness :
  Coupon.isValid
    (Coupon.recordUsage (Examples.coupon "SAVE20" fixed 20 None None 0 [])
                        (Some "alice") 10)
    100 (Some "alice") 20 <> Valid.
Proof.
  apply one_per_user_redeemed_never_valid. reflexivity.
Defined.

(** ** Coupon engine: the amount as a function of the subtotal *)


Lemma round2_lower (x : Q) : (x - (1 # 200) < round2 x)%Q.
Proof.
  unfold round2, Math_round.
  pose proof (Qlt_floor (x * 100 + (1 # 2))) as H.
  rewrite inject_Z_plus in H. change (inject_Z 1) with 1%Q in H.
  q100. lra.
Qed.

(** X3.  For a coupon whose value is not negative, a larger subtotal never
    earns a smaller discount; and the discount never exceeds the cap
    rounded to cents, when there is a cap. *)
Theorem calculateDiscount_monotone (c : Coupon.t) (sub1 sub2 : Q) :
  (0 <= Coupon.discountValue c)%Q ->
  (sub1 <= sub2)%Q ->
  (Coupon.calculateDiscount c sub1 <= Coupon.calculateDiscount c sub2)%Q
  /\ (forall cap, Coupon.maxDiscount c = Some cap ->
                  (Coupon.calculateDiscount c sub2 <= round2 cap)%Q).
Proof.
  intros Hv Hs. split.
  - rewrite !calculateDiscount_formula. unfold computeDiscount_spec.
    apply round2_mono.
    assert (Hraw : (match Coupon.discountType c with
                    | percentage => sub1 * Coupon.discountValue c / 100
                    | fixed => Coupon.discountValue c
                    end <=
                    match Coupon.discountType c with
                    | percentage => sub2 * Coupon.discountValue c / 100
                    | fixed => Coupon.discountValue c
                    end)%Q).
    { destruct (Coupon.discountType c); [q100; nra | lra]. }
    apply Q.min_le_compat; [|exact Hs].
    destruct (Coupon.maxDiscount c) as [m|]; [|exact Hraw].
    apply Q.min_le_compat; [exact Hraw | lra].
  - intros cap Hcap. rewrite calculateDiscount_formula.
    unfold computeDiscount_spec. rewrite Hcap. apply round2_mono.
    eapply Qle_trans; [apply Q.le_min_l | apply Q.le_min_r].
Qed.

Lemma calculateDiscount_monotone_witness :
  (Coupon.calculateDiscount
     (Examples.coupon "CAP5" percentage 20 (Some 5%Q) None 0 []) 10
   <= Coupon.calculateDiscount
        (Examples.coupon "CAP5" percentage 20 (Some 5%Q) None 0 []) 50)%Q.
Proof.
  refine (proj1 (calculateDiscount_monotone
                   (Examples.coupon "CAP5" percentage 20 (Some 5%Q) None 0 [])
                   10 50 _ _)); discriminate.
Defined.

(** ** Cart pricing on amounts in cents *)












(** ** Cart controller: what a request can and cannot change *)

Lemma only_carts_differ_refl (s : DB.store) : only_carts_differ s s.
Proof. repeat split. Qed.

Lemma only_carts_differ_eq (s s' : DB.store) : s' = s -> only_carts_differ s s'.
Proof. intros ->. apply only_carts_differ_refl. Qed.

Lemma Cart_save_cases (c : Cart.t) (w : DB.world) :
  (exists w', Model.Cart_save c w = (DB.Ok tt, w')
              /\ Cart.validate c = true
              /\ DB.db w' = Model.set_carts (DB.db w)
                              (<[Cart.userId c := c]> (DB.carts (DB.db w)))
              /\ DB.provider w' = DB.provider w)
  \/ (exists e w', Model.Cart_save c w = (DB.Throw e, w')
                   /\ DB.db w' = DB.db w
                   /\ DB.provider w' = DB.provider w).
Proof.
  unfold Model.Cart_save. destruct (Cart.validate c); cbn [negb].
  - destruct (write_after_io
                (fun s => Model.set_carts s (<[Cart.userId c := c]> (DB.carts s)))
                w) as [(w' & E & Hdb & Hpr & _)|(e & w' & E & Hdb & Hpr & _)].
    + left. exists w'. repeat split; assumption.
    + right. exists e, w'. repeat split; assumption.
  - right. do 2 eexists. repeat split.
Qed.

Lemma findIndex_same_line (pid : string) (size color : option string)
    (l : list Cart.item) (i : nat) (x : Cart.item) :
  CartController.findIndex (CartController.same_line pid size color) l
  = Some (i, x) ->
  l !! i = Some x /\ Cart.productId x = pid.
Proof.
  intros H. destruct (findIndex_Some _ _ _ _ H) as (Hl & Hk & _).
  split; [exact Hl|]. unfold CartController.same_line in Hk.
  apply andb_prop in Hk as [Hk _]. apply andb_prop in Hk as [Hk _].
  now apply String.eqb_eq in Hk.
Qed.

Lemma validate_elem (c : Cart.t) (x : Cart.item) :
  Cart.validate c = true -> x ∈ Cart.items c -> (1 <= Cart.quantity x)%Z.
Proof.
  unfold Cart.validate. intros H Hx.
  rewrite forallb_forall in H. apply Z.leb_le. apply H.
  apply list_elem_of_In. exact Hx.
Qed.

(** X5.  [addToCart] always answers, never touches the products, the
    coupons, the orders or the provider, and changes the database only
    when it answers 200.  When it does, the product asked for exists and
    is active, the cart shown is the cart saved, and the cart holds a line
    for that product whose quantity is at least 1 and at most the
    product's stock. *)
Theorem addToCart_outcome
    (user fresh : string) (req : CartController.add_request) (w : DB.world) :
  exists r w',
    CartController.addToCart user fresh req w = (DB.Ok r, w')
    /\ DB.provider w' = DB.provider w
    /\ only_carts_differ (DB.db w) (DB.db w')
    /\ (status r <> 200%nat -> DB.db w' = DB.db w)
    /\ (status r = 200%nat ->
        exists pid p cart' line,
          truthy (CartController.a_productId req) = Some pid
          /\ DB.products (DB.db w) !! pid = Some p
          /\ Product.isActive p = true
          /\ payload r = CartJson (CartController.formatCart cart')
          /\ DB.carts (DB.db w')
             = <[Cart.userId cart' := cart']> (DB.carts (DB.db w))
          /\ line ∈ Cart.items cart'
          /\ Cart.productId line = pid
          /\ (1 <= Cart.quantity line <= Product.stock p)%Z).
Proof.
  unfold CartController.addToCart.
  set (quantity := default 1%Z (CartController.a_quantity req)).
  set (post := fun (r : response) (w' : DB.world) =>
    DB.provider w' = DB.provider w
    /\ only_carts_differ (DB.db w) (DB.db w')
    /\ (status r <> 200%nat -> DB.db w' = DB.db w)
    /\ (status r = 200%nat ->
        exists pid p cart' line,
          truthy (CartController.a_productId req) = Some pid
          /\ DB.products (DB.db w) !! pid = Some p
          /\ Product.isActive p = true
          /\ payload r = CartJson (CartController.formatCart cart')
          /\ DB.carts (DB.db w')
             = <[Cart.userId cart' := cart']> (DB.carts (DB.db w))
          /\ line ∈ Cart.items cart'
          /\ Cart.productId line = pid
          /\ (1 <= Cart.quantity line <= Product.stock p)%Z)).
  (* an answer other than 200 given in a world whose database is that of [w] *)
  assert (Hstop : forall st msg w1,
             st <> 200%nat -> DB.db w1 = DB.db w ->
             DB.provider w1 = DB.provider w ->
             post {| status := st; payload := Message msg |} w1).
  { intros st msg w1 Hst Hdb Hpr. unfold post. cbn [status].
    split; [exact Hpr|]. split; [apply only_carts_differ_eq; exact Hdb|].
    split; [intros _; exact Hdb | intros H; contradiction]. }
  match goal with
  | |- exists r w', ?run = _ /\ _ =>
      change (exists r w', run = (DB.Ok r, w') /\ post r w')
  end.
  destruct (truthy (CartController.a_productId req)) as [pid|] eqn:Hpid.
  2:{ do 2 eexists. split; [reflexivity|]. apply Hstop; [discriminate|reflexivity..]. }
  destruct (Product_findById_read pid w)
    as [(w1 & Hrd & Hdb1 & Hpr1 & _)|(e & w1 & Hrd & Hdb1 & Hpr1 & _)].
  2:{ do 2 eexists. split.
      - erewrite try_catch_throw by (erewrite bind_throw by exact Hrd; reflexivity).
        reflexivity.
      - apply Hstop; [discriminate | assumption..]. }
  destruct (DB.products (DB.db w) !! pid) as [p|] eqn:Hp.
  2:{ do 2 eexists. split.
      - apply try_catch_ok. erewrite bind_ok by exact Hrd. reflexivity.
      - apply Hstop; [discriminate | assumption..]. }
  destruct (Product.isActive p) eqn:Hact.
  2:{ do 2 eexists. split.
      - apply try_catch_ok. erewrite bind_ok by exact Hrd. cbv beta iota.
        rewrite Hact. reflexivity.
      - apply Hstop; [discriminate | assumption..]. }
  destruct (Z.ltb_spec (Product.stock p) quantity) as [Hq|Hq].
  { do 2 eexists. split.
    - apply try_catch_ok. erewrite bind_ok by exact Hrd. cbv beta iota.
      rewrite Hact. cbn [negb]. fold quantity.
      destruct (Z.ltb_spec (Product.stock p) quantity); [reflexivity|lia].
    - apply Hstop; [discriminate | assumption..]. }
  destruct (CartController.bad_option (CartController.a_size req)
              (Product.sizes p)) as [v|] eqn:Hsize.
  { do 2 eexists. split.
    - apply try_catch_ok. erewrite bind_ok by exact Hrd. cbv beta iota.
      rewrite Hact. cbn [negb]. fold quantity.
      destruct (Z.ltb_spec (Product.stock p) quantity); [lia|].
      rewrite Hsize. reflexivity.
    - apply Hstop; [discriminate | assumption..]. }
  destruct (CartController.bad_option (CartController.a_color req)
              (Product.colors p)) as [v|] eqn:Hcolor.
  { do 2 eexists. split.
    - apply try_catch_ok. erewrite bind_ok by exact Hrd. cbv beta iota.
      rewrite Hact. cbn [negb]. fold quantity.
      destruct (Z.ltb_spec (Product.stock p) quantity); [lia|].
      rewrite Hsize, Hcolor. reflexivity.
    - apply Hstop; [discriminate | assumption..]. }
  (* the product passed every check: the cart is read *)
  assert (Hprefix : forall k,
    DB.bind (Model.Product_findById pid)
      (fun found => match found with
                    | None => respond 404 (Message "Product not found")
                    | Some product =>
                        if negb (Product.isActive product)
                        then respond 404 (Message "Product not found")
                        else if (Product.stock product <? quantity)%Z
                        then respond 400
                               (Message (CartController.only_in_stock
                                           (Product.stock product)))
                        else match CartController.bad_option
                                     (CartController.a_size req)
                                     (Product.sizes product) with
                             | Some v => respond 400
                                 (Message (CartController.not_available "Size" v
                                             (Product.sizes product)))
                             | None =>
                               match CartController.bad_option
                                       (CartController.a_color req)
                                       (Product.colors product) with
                               | Some v => respond 400
                                   (Message (CartController.not_available
                                               "Color" v (Product.colors product)))
                               | None => k product
                               end
                             end
                    end) w = k p w1).
  { intros k. erewrite bind_ok by exact Hrd. cbv beta iota.
    rewrite Hact. cbn [negb].
    destruct (Z.ltb_spec (Product.stock p) quantity); [lia|].
    rewrite Hsize, Hcolor. reflexivity. }
  unfold DB.try_catch at 1. rewrite Hprefix. clear Hprefix.
  destruct (Cart_findOne_read user w1)
    as [(w2 & Hrc & Hdb2 & Hpr2 & _)|(e & w2 & Hrc & Hdb2 & Hpr2 & _)].
  2:{ erewrite bind_throw by exact Hrc. do 2 eexists. split; [reflexivity|].
      apply Hstop; [discriminate | congruence..]. }
  erewrite bind_ok by exact Hrc. cbv beta. rewrite Hdb1.
  set (cart := default (CartController.new_cart fresh user)
                       (DB.carts (DB.db w) !! user)).
  assert (Hdb2' : DB.db w2 = DB.db w) by congruence.
  assert (Hpr2' : DB.provider w2 = DB.provider w) by congruence.
  (* what happens once the cart to save is known *)
  assert (Hsave : forall cart' line,
             line ∈ Cart.items cart' ->
             Cart.productId line = pid ->
             (Cart.quantity line <= Product.stock p)%Z ->
             exists r w',
               match DB.bind (Model.Cart_save cart')
                       (fun _ => respond 200
                                   (CartJson (CartController.formatCart cart'))) w2
               with
               | (DB.Ok a, w') => (DB.Ok a, w')
               | (DB.Throw e, w') =>
                   respond 500 (Message "Failed to add to cart") w'
               end = (DB.Ok r, w') /\ post r w').
  { intros cart' line Hin Hline Hle.
    destruct (Cart_save_cases cart' w2)
      as [(w3 & Hs & Hv & Hdb3 & Hpr3)|(e & w3 & Hs & Hdb3 & Hpr3)].
    - erewrite bind_ok by exact Hs. do 2 eexists. split; [reflexivity|].
      unfold post. cbn [status payload].
      split; [congruence|]. rewrite Hdb3, Hdb2'.
      split; [repeat split|]. split; [intros H; contradiction|].
      intros _. exists pid, p, cart', line.
      repeat split; try assumption; try reflexivity.
      apply (validate_elem cart' line Hv Hin).
    - erewrite bind_throw by exact Hs. do 2 eexists. split; [reflexivity|].
      apply Hstop; [discriminate | congruence..]. }
  destruct (CartController.findIndex
              (CartController.same_line pid (CartController.a_size req)
                 (CartController.a_color req)) (Cart.items cart))
    as [[i ex]|] eqn:Hidx.
  - destruct (findIndex_same_line _ _ _ _ _ _ Hidx) as (Hl & Hex).
    fold quantity.
    destruct (Z.ltb_spec (Product.stock p) (Cart.quantity ex + quantity)).
    + do 2 eexists. split; [reflexivity|].
      apply Hstop; [discriminate | assumption..].
    + apply (Hsave _ (CartController.set_quantity ex
                        (Cart.quantity ex + quantity))).
      * cbn [Cart.with_items Cart.items].
        apply list_elem_of_lookup. exists i.
        apply list_lookup_insert_eq. eapply lookup_lt_Some. exact Hl.
      * exact Hex.
      * simpl. lia.
  - fold quantity.
    apply (Hsave _ {| Cart.productId := pid; Cart.quantity := quantity;
                      Cart.size := truthy (CartController.a_size req);
                      Cart.color := truthy (CartController.a_color req);
                      Cart.price := Product.effectivePrice p |}).
    + cbn [Cart.with_items Cart.items]. apply elem_of_app. right.
      apply list_elem_of_here.
    + reflexivity.
    + simpl. lia.
Qed.

Lemma addToCart_outcome_witness :
  exists r w',
    CartController.addToCart "u1" "c2" (Scenario.add_lamps 4) Scenario.shop
    = (DB.Ok r, w')
    /\ (status r <> 200%nat -> DB.db w' = DB.db Scenario.shop).
Proof.
  destruct (addToCart_outcome "u1" "c2" (Scenario.add_lamps 4) Scenario.shop)
    as (r & w' & E & _ & _ & H & _).
  exists r, w'. split; [exact E | exact H].
Defined.

Lemma forallb_insert {A} (f : A -> bool) (l : list A) (i : nat) (x : A) :
  forallb f l = true -> f x = true -> forallb f (<[i := x]> l) = true.
Proof.
  revert i. induction l as [|a l IH]; intros i Hl Hx; [reflexivity|].
  simpl in Hl. apply andb_prop in Hl as [Ha Hl].
  destruct i as [|i]; simpl.
  - now rewrite Hx, Hl.
  - now rewrite Ha, IH.
Qed.

(** X6.  Adding to a line the cart already holds adds the quantities and
    keeps the line's price snapshot, whatever the product's price is by
    then; every other line is left as it was.  (When no call fails, for an
    active product, a valid variant and a sum between 1 and the stock.) *)
Theorem addToCart_merge_keeps_price
    (user fresh pid : string) (q : Z) (size color : option string)
    (p : Product.t) (w : DB.world) (cart : Cart.t) (i : nat) (ex : Cart.item) :
  pid <> EmptyString ->
  reliable w ->
  DB.products (DB.db w) !! pid = Some p ->
  Product.isActive p = true ->
  CartController.bad_option size (Product.sizes p) = None ->
  CartController.bad_option color (Product.colors p) = None ->
  DB.carts (DB.db w) !! user = Some cart ->
  Cart.validate cart = true ->
  CartController.findIndex (CartController.same_line pid size color)
                           (Cart.items cart) = Some (i, ex) ->
  (q <= Product.stock p)%Z ->
  (1 <= Cart.quantity ex + q <= Product.stock p)%Z ->
  exists line,
    let cart' := Cart.with_items cart (<[i := line]> (Cart.items cart)) in
    CartController.addToCart user fresh
      {| CartController.a_productId := Some pid;
         CartController.a_quantity := Some q;
         CartController.a_size := size;
         CartController.a_color := color |} w
    = (DB.Ok {| status := 200;
                payload := CartJson (CartController.formatCart cart') |},
       DB.with_db w (Model.set_carts (DB.db w)
                       (<[Cart.userId cart := cart']> (DB.carts (DB.db w)))))
    /\ Cart.quantity line = (Cart.quantity ex + q)%Z
    /\ Cart.price line = Cart.price ex
    /\ Cart.items cart' !! i = Some line
    /\ (forall j, j <> i -> Cart.items cart' !! j = Cart.items cart !! j).
Proof.
  intros Hpid Hw Hfind Hact Hsize Hcolor Hcart Hvalid Hsome Hq Hsum.
  exists (CartController.set_quantity ex (Cart.quantity ex + q)).
  cbv zeta. destruct (findIndex_same_line _ _ _ _ _ _ Hsome) as (Hl & _).
  split; [|split; [reflexivity|split; [reflexivity|split]]].
  - unfold CartController.addToCart.
    destruct pid as [|a pid']; [congruence|].
    cbn [truthy CartController.a_productId CartController.a_quantity
         CartController.a_size CartController.a_color from_option id].
    apply try_catch_ok.
    erewrite bind_ok
      by (apply (read_reliable _ _ _ (Product_findById_read _) Hw)).
    cbv beta. rewrite Hfind, Hact. cbn [negb].
    destruct (Z.ltb_spec (Product.stock p) q); [lia|].
    rewrite Hsize, Hcolor.
    erewrite bind_ok
      by (apply (read_reliable _ _ _ (Cart_findOne_read _) Hw)).
    cbv beta. rewrite Hcart. cbn [from_option id]. rewrite Hsome.
    destruct (Z.ltb_spec (Product.stock p) (Cart.quantity ex + q)); [lia|].
    unfold DB.bind. rewrite (Cart_save_reliable _ w Hw).
    assert (Hv : Cart.validate
                   (Cart.with_items cart
                      (<[i := CartController.set_quantity ex
                                (Cart.quantity ex + q)]> (Cart.items cart)))
                 = true).
    { unfold Cart.validate in *. cbn [Cart.with_items Cart.items].
      apply forallb_insert; [exact Hvalid|]. simpl. apply Z.leb_le. lia. }
    rewrite Hv. reflexivity.
  - cbn [Cart.with_items Cart.items].
    apply list_lookup_insert_eq. eapply lookup_lt_Some. exact Hl.
  - intros j Hj. cbn [Cart.with_items Cart.items].
    apply list_lookup_insert_ne. congruence.
Qed.

Lemma addToCart_merge_keeps_price_witness :
  exists line w',
    fst (CartController.addToCart "u1" "c2" (Scenario.add_lamps 2) Scenario.shop)
    = DB.Ok {| status := 200;
               payload := CartJson (CartController.formatCart
                 (Cart.with_items Scenario.cart_one_lamp [line])) |}
    /\ w' = snd (CartController.addToCart "u1" "c2" (Scenario.add_lamps 2)
                   Scenario.shop)
    /\ Cart.quantity line = 3%Z /\ Cart.price line = 100%Q.
Proof.
  assert (Hpid : "p1" <> EmptyString) by discriminate.
  assert (Hsum : (1 <= Cart.quantity (Examples.line "p1" 100 1) + 2
                  <= Product.stock Scenario.lamp)%Z) by (simpl; lia).
  assert (Hq : (2 <= Product.stock Scenario.lamp)%Z) by (simpl; lia).
  destruct (addToCart_merge_keeps_price "u1" "c2" "p1" 2 None None
              Scenario.lamp Scenario.shop Scenario.cart_one_lamp O
              (Examples.line "p1" 100 1)
              Hpid eq_refl eq_refl eq_refl eq_refl eq_refl eq_refl eq_refl
              eq_refl Hq Hsum) as (line & E & Hqty & Hprice & _).
  exists line. eexists. split; [|split; [reflexivity|split; assumption]].
  unfold Scenario.add_lamps. rewrite E. reflexivity.
Defined.

(** X7.  [clearCart] answers 404 and changes nothing when the user has no
    cart; otherwise it saves the cart without items and without coupon,
    and the cart it shows has subtotal, discount and total 0.  (When no
    call fails.) *)
Theorem clearCart_empties (user : string) (w : DB.world) :
  reliable w ->
  (DB.carts (DB.db w) !! user = None ->
   CartController.clearCart user w
   = (DB.Ok {| status := 404; payload := Message "Cart not found" |}, w))
  /\ (forall cart,
        DB.carts (DB.db w) !! user = Some cart ->
        exists v,
          CartController.clearCart user w
          = (DB.Ok {| status := 200; payload := CartJson v |},
             DB.with_db w (Model.set_carts (DB.db w)
                             (<[Cart.userId cart := Cart.cleared cart]>
                                (DB.carts (DB.db w)))))
          /\ v_items v = [] /\ v_appliedCoupon v = Cart.no_coupon
          /\ (v_subtotal v == 0)%Q /\ (v_discount v == 0)%Q
          /\ (v_total v == 0)%Q).
Proof.
  intros Hw. unfold CartController.clearCart. split.
  - intros Hnone. apply try_catch_ok.
    erewrite bind_ok by (apply (read_reliable _ _ _ (Cart_findOne_read _) Hw)).
    cbv beta. rewrite Hnone. reflexivity.
  - intros cart Hcart. eexists. split.
    + apply try_catch_ok.
      erewrite bind_ok by (apply (read_reliable _ _ _ (Cart_findOne_read _) Hw)).
      cbv beta. rewrite Hcart. unfold DB.bind.
      rewrite (Cart_save_reliable _ w Hw). reflexivity.
    + repeat split.
Qed.

Lemma clearCart_empties_witness :
  exists v w',
    CartController.clearCart "u1" Scenario.shop
    = (DB.Ok {| status := 200; payload := CartJson v |}, w')
    /\ v_items v = [].
Proof.
  destruct (proj2 (clearCart_empties "u1" Scenario.shop eq_refl)
              Scenario.cart_one_lamp eq_refl) as (v & E & Hi & _).
  exists v. eexists. split; [exact E | exact Hi].
Defined.

(** ** Cart synchronisation as a whole *)

Lemma sync_loop_reads_only (incs : list CartController.incoming)
    (l : list Cart.item) (w : DB.world) :
  exists out w',
    fold_each CartController.sync_step incs l w = (out, w')
    /\ DB.db w' = DB.db w /\ DB.provider w' = DB.provider w.
Proof.
  revert l w. induction incs as [|inc incs IH]; intros l w.
  - do 2 eexists. repeat split.
  - cbn [fold_each]. unfold CartController.sync_step at 1.
    destruct (Product_findById_read (CartController.i_productId inc) w)
      as [(w1 & Hrd & Hdb & Hpr & _)|(e & w1 & Hrd & Hdb & Hpr & _)].
    + assert (Hstep : exists l1,
                 DB.bind (Model.Product_findById (CartController.i_productId inc))
                   (fun found =>
                      match found with
                      | Some product =>
                          if negb (Product.isActive product) then DB.ret l
                          else DB.ret (CartController.merge_incoming product inc l)
                      | None => DB.ret l
                      end) w = (DB.Ok l1, w1)).
      { erewrite bind_ok by exact Hrd.
        destruct (DB.products (DB.db w) !! CartController.i_productId inc)
          as [p|]; [destruct (Product.isActive p)|]; eexists; reflexivity. }
      destruct Hstep as (l1 & Hstep).
      erewrite bind_ok by exact Hstep.
      destruct (IH l1 w1) as (out & w' & E & Hdb' & Hpr').
      exists out, w'. split; [exact E|]. split; congruence.
    + do 2 eexists. split.
      * erewrite bind_throw; [reflexivity|].
        erewrite bind_throw by exact Hrd. reflexivity.
      * split; assumption.
Qed.

(** X8.  [syncCart] always answers, never touches the products, the
    coupons, the orders or the provider, and changes the database only
    when it answers 200; a missing or empty item list is answered 400
    before the database is consulted at all. *)
Theorem syncCart_outcome
    (user fresh : string) (items : option (list CartController.incoming))
    (w : DB.world) :
  exists r w',
    CartController.syncCart user fresh items w = (DB.Ok r, w')
    /\ DB.provider w' = DB.provider w
    /\ only_carts_differ (DB.db w) (DB.db w')
    /\ (status r <> 200%nat -> DB.db w' = DB.db w)
    /\ (items = None \/ items = Some [] ->
        r = {| status := 400; payload := Message "Items array required" |}
        /\ w' = w).
Proof.
  unfold CartController.syncCart.
  destruct items as [[|inc incs]|].
  1,3: do 2 eexists; split; [reflexivity|];
       repeat split; intros [H|H]; discriminate.
  set (l := inc :: incs).
  assert (Hno : ~ (Some l = None \/ Some l = Some [])).
  { intros [H|H]; discriminate. }
  destruct (Cart_findOne_read user w)
    as [(w1 & Hrc & Hdb1 & Hpr1 & _)|(e & w1 & Hrc & Hdb1 & Hpr1 & _)].
  2:{ do 2 eexists. split.
      - erewrite try_catch_throw by (erewrite bind_throw by exact Hrc; reflexivity).
        reflexivity.
      - cbn [status]. split; [exact Hpr1|].
        split; [apply only_carts_differ_eq; exact Hdb1|].
        split; [intros _; exact Hdb1 | intros H; contradiction]. }
  set (cart := default (CartController.new_cart fresh user)
                       (DB.carts (DB.db w) !! user)).
  destruct (sync_loop_reads_only l (Cart.items cart) w1)
    as (out & w2 & Hloop & Hdb2 & Hpr2).
  destruct out as [merged|e].
  2:{ do 2 eexists. split.
      - erewrite try_catch_throw; [reflexivity|].
        erewrite bind_ok by exact Hrc. fold cart.
        erewrite bind_throw by exact Hloop. reflexivity.
      - cbn [status]. split; [congruence|].
        split; [apply only_carts_differ_eq; congruence|].
        split; [intros _; congruence | intros H; contradiction]. }
  destruct (Cart_save_cases (Cart.with_items cart merged) w2)
    as [(w3 & Hs & Hv & Hdb3 & Hpr3)|(e & w3 & Hs & Hdb3 & Hpr3)].
  - do 2 eexists. split.
    + apply try_catch_ok. erewrite bind_ok by exact Hrc. fold cart.
      erewrite bind_ok by exact Hloop. erewrite bind_ok by exact Hs.
      reflexivity.
    + cbn [status]. split; [congruence|].
      rewrite Hdb3, Hdb2, Hdb1.
      split; [repeat split|].
      split; [intros H; contradiction | intros H; contradiction].
  - do 2 eexists. split.
    + erewrite try_catch_throw; [reflexivity|].
      erewrite bind_ok by exact Hrc. fold cart.
      erewrite bind_ok by exact Hloop. erewrite bind_throw by exact Hs.
      reflexivity.
    + cbn [status]. split; [congruence|].
      split; [apply only_carts_differ_eq; congruence|].
      split; [intros _; congruence | intros H; contradiction].
Qed.

Lemma syncCart_outcome_witness :
  CartController.syncCart "u1" "c9" (Some []) Scenario.shop
  = (DB.Ok {| status := 400; payload := Message "Items array required" |},
     Scenario.shop).
Proof.
  destruct (syncCart_outcome "u1" "c9" (Some []) Scenario.shop)
    as (r & w' & E & _ & _ & _ & H).
  destruct (H (or_intror eq_refl)) as (-> & ->). exact E.
Defined.

Lemma merge_incoming_within_stock (prods : gmap string Product.t)
    (p : Product.t) (inc : CartController.incoming) (l : list Cart.item) :
  prods !! CartController.i_productId inc = Some p ->
  within_stock prods l ->
  within_stock prods (CartController.merge_incoming p inc l).
Proof.
  intros Hp Hl. unfold within_stock, CartController.merge_incoming in *.
  destruct (CartController.findIndex _ l) as [[i ex]|] eqn:Hidx.
  - destruct (findIndex_same_line _ _ _ _ _ _ Hidx) as (_ & Hex).
    apply Forall_insert; [exact Hl|].
    cbn [Cart.productId Cart.quantity CartController.set_quantity_price].
    intros p' Hp'. rewrite Hex, Hp in Hp'. injection Hp' as <-.
    apply Z.le_min_r.
  - apply Forall_app. split; [exact Hl|].
    constructor; [|constructor].
    cbn [Cart.productId Cart.quantity].
    intros p' Hp'. rewrite Hp in Hp'. injection Hp' as <-.
    apply Z.le_min_r.
Qed.

Lemma sync_all_within_stock (prods : gmap string Product.t)
    (incs : list CartController.incoming) (l : list Cart.item) :
  within_stock prods l -> within_stock prods (sync_all prods l incs).
Proof.
  unfold sync_all. revert l. induction incs as [|inc incs IH]; intros l Hl.
  - exact Hl.
  - cbn [fold_left]. apply IH.
    destruct (prods !! CartController.i_productId inc) as [p|] eqn:Hp;
      [|exact Hl].
    destruct (Product.isActive p); [|exact Hl].
    apply merge_incoming_within_stock; assumption.
Qed.

Lemma syncCart_reliable (user fresh : string)
    (incs : list CartController.incoming) (w : DB.world) :
  reliable w -> incs <> [] ->
  let cart := default (CartController.new_cart fresh user)
                      (DB.carts (DB.db w) !! user) in
  let cart' :=
    Cart.with_items cart
      (sync_all (DB.products (DB.db w)) (Cart.items cart) incs) in
  CartController.syncCart user fresh (Some incs) w =
  if Cart.validate cart'
  then (DB.Ok {| status := 200;
                 payload := CartJson (CartController.formatCart cart') |},
        DB.with_db w (Model.set_carts (DB.db w)
                        (<[Cart.userId cart' := cart']> (DB.carts (DB.db w)))))
  else (DB.Ok {| status := 500; payload := Message "Failed to sync cart" |}, w).
Proof.
  intros Hw Hne cart cart'. unfold CartController.syncCart.
  destruct incs as [|i0 incs]; [congruence|].
  assert (Hbody :
    DB.bind (Model.Cart_findOne user)
      (fun stored =>
         let cart := default (CartController.new_cart fresh user) stored in
         DB.bind (fold_each CartController.sync_step (i0 :: incs) (Cart.items cart))
           (fun merged =>
              let cart' := Cart.with_items cart merged in
              DB.bind (Model.Cart_save cart')
                (fun _ => respond 200
                            (CartJson (CartController.formatCart cart'))))) w =
    if Cart.validate cart'
    then (DB.Ok {| status := 200;
                   payload := CartJson (CartController.formatCart cart') |},
          DB.with_db w (Model.set_carts (DB.db w)
                          (<[Cart.userId cart' := cart']> (DB.carts (DB.db w)))))
    else (DB.Throw "Cart validation failed", w)).
  { erewrite bind_ok
      by (apply (read_reliable _ _ _ (Cart_findOne_read user) Hw)).
    cbv beta zeta. fold cart.
    erewrite bind_ok by (apply sync_loop_reliable; exact Hw).
    fold cart'. unfold DB.bind. rewrite (Cart_save_reliable cart' w Hw).
    destruct (Cart.validate cart'); reflexivity. }
  destruct (Cart.validate cart').
  - erewrite try_catch_ok by exact Hbody. reflexivity.
  - erewrite try_catch_throw by exact Hbody. reflexivity.
Qed.

(** X9.  Synchronising never leaves a cart over stock: if no line of the
    user's cart asks for more than its product's stock, no line of the
    cart [syncCart] returns does, however many items come in and however
    large their quantities; the cart grows by at most one line per
    incoming item.  (When no call fails.) *)
Theorem syncCart_keeps_within_stock
    (user fresh : string) (incs : list CartController.incoming) (w : DB.world)
    (r : response) (w' : DB.world) :
  reliable w ->
  incs <> [] ->
  let cart := default (CartController.new_cart fresh user)
                      (DB.carts (DB.db w) !! user) in
  within_stock (DB.products (DB.db w)) (Cart.items cart) ->
  CartController.syncCart user fresh (Some incs) w = (DB.Ok r, w') ->
  status r = 200%nat ->
  exists v,
    payload r = CartJson v
    /\ within_stock (DB.products (DB.db w)) (v_items v)
    /\ (length (Cart.items cart) <= length (v_items v)
        <= length (Cart.items cart) + length incs)%nat.
Proof.
  intros Hw Hne cart Hin Hrun Hst.
  rewrite (syncCart_reliable user fresh incs w Hw Hne) in Hrun.
  fold cart in Hrun.
  destruct (Cart.validate _); injection Hrun as <- <-; [|discriminate].
  eexists. split; [reflexivity|]. cbn [v_items CartController.formatCart
                                       Cart.with_items Cart.items].
  split; [apply sync_all_within_stock; exact Hin|].
  clear. unfold sync_all. generalize (Cart.items cart) as l.
  induction incs as [|inc incs IH]; intros l; cbn [fold_left length].
  - lia.
  - match goal with
    | |- context [fold_left _ incs ?l1] =>
        specialize (IH l1);
        assert (Hstep : (length l <= length l1 <= length l + 1)%nat)
    end.
    { destruct (DB.products (DB.db w) !! CartController.i_productId inc)
        as [p|]; [|lia].
      destruct (Product.isActive p); [|lia].
      unfold CartController.merge_incoming.
      destruct (CartController.findIndex _ l) as [[i ex]|].
      - rewrite length_insert. lia.
      - rewrite length_app. simpl. lia. }
    lia.
Qed.

Lemma syncCart_keeps_within_stock_witness :
  exists v,
    fst (CartController.syncCart "u1" "c9" (Some [Scenario.sync_lamps 9])
                                 Scenario.shop)
    = DB.Ok {| status := 200; payload := CartJson v |}
    /\ within_stock (DB.products (DB.db Scenario.shop)) (v_items v).
Proof.
  assert (Hne : [Scenario.sync_lamps 9] <> []) by discriminate.
  assert (Hin : within_stock (DB.products (DB.db Scenario.shop))
                  (Cart.items (default (CartController.new_cart "c9" "u1")
                     (DB.carts (DB.db Scenario.shop) !! "u1")))).
  { unfold within_stock.
    change (Forall (fun i => forall p,
                      DB.products (DB.db Scenario.shop) !! Cart.productId i
                      = Some p -> (Cart.quantity i <= Product.stock p)%Z)
                   [Examples.line "p1" 100 1]).
    constructor; [|constructor].
    intros p Hp. vm_compute in Hp. injection Hp as <-. vm_compute.
    discriminate. }
  destruct (syncCart_keeps_within_stock "u1" "c9" [Scenario.sync_lamps 9]
              Scenario.shop
              {| status := 200;
                 payload := CartJson (CartController.formatCart
                   (Examples.cart [Examples.line "p1" 100 5] Cart.no_coupon)) |}
              (DB.with_db Scenario.shop
                 (Model.set_carts (DB.db Scenario.shop)
                    {[ "u1" := Examples.cart [Examples.line "p1" 100 5]
                                              Cart.no_coupon ]}))
              eq_refl Hne Hin) as (v & E & H & _).
  - vm_compute. reflexivity.
  - reflexivity.
  - exists v. cbn [payload] in E. injection E as <-.
    split; [vm_compute; reflexivity | exact H].
Defined.

(** ** Checkout sessions *)

Lemma createCheckoutSession_cases (req : Stripe.checkout_request) (w : DB.world) :
  (exists sid url w',
     Model.createCheckoutSession req w = (DB.Ok (sid, url), w')
     /\ DB.db w' = DB.db w
     /\ DB.provider w' = (DB.provider w ++ [req])%list)
  \/ (exists e w',
        Model.createCheckoutSession req w = (DB.Throw e, w')
        /\ DB.db w' = DB.db w /\ DB.provider w' = DB.provider w).
Proof.
  unfold Model.createCheckoutSession.
  destruct (io_cases w) as [(w1 & Hio & Hdb & Hpr & _)
                           |(e & w1 & Hio & Hdb & Hpr & _)].
  - left. do 3 eexists. split; [erewrite bind_ok by exact Hio; reflexivity|].
    cbn [DB.db DB.provider]. split; [exact Hdb | now rewrite Hpr].
  - right. do 2 eexists. split; [erewrite bind_throw by exact Hio; reflexivity|].
    split; assumption.
Qed.

Lemma check_items_resolved (l : list (Cart.item * option Product.t))
    (r : list (Cart.item * Product.t)) :
  PaymentController.check_items l = inr r ->
  fst <$> r = fst <$> l.
Proof.
  intros H. pose proof (check_items_purchasable l) as Hp.
  destruct (forallb purchasable l).
  - destruct Hp as (r' & Hr' & Hfst). congruence.
  - destruct Hp as (msg & Hmsg). congruence.
Qed.

Lemma populated_items (s : DB.store) (user : string) (cart : Cart.t)
    (pop : list (Cart.item * option Product.t)) :
  populated_cart s user = Some (cart, pop) ->
  DB.carts s !! user = Some cart /\ fst <$> pop = Cart.items cart.
Proof.
  unfold populated_cart. destruct (DB.carts s !! user) as [c|]; [|discriminate].
  intros [= <- <-]. split; [reflexivity|].
  rewrite <- list_fmap_compose. apply list_fmap_id.
Qed.

Lemma resolved_mirrors (r : list (Cart.item * Product.t)) :
  Forall2 mirrors (fst <$> r) (PaymentController.meta_item_of <$> r)
  /\ Forall2 charges (fst <$> r) (PaymentController.line_item_of <$> r).
Proof.
  induction r as [|[i p] r (IH1 & IH2)].
  - split; constructor.
  - rewrite !fmap_cons. split; constructor; try assumption; repeat split.
Qed.

Lemma createCheckoutFromCart_cases (user : string) (w : DB.world) :
  exists r w',
    PaymentController.createCheckoutFromCart user w = (DB.Ok r, w')
    /\ DB.db w' = DB.db w
    /\ (status r <> 200%nat -> DB.provider w' = DB.provider w)
    /\ (status r = 200%nat ->
        exists req cart metas,
          DB.provider w' = (DB.provider w ++ [req])%list
          /\ DB.carts (DB.db w) !! user = Some cart
          /\ Cart.items cart <> []
          /\ Stripe.cr_userId req = user
          /\ Stripe.md_cartId (Stripe.cr_metadata req) = Some (Cart._id cart)
          /\ Stripe.md_itemsJson (Stripe.cr_metadata req)
             = Some (Stripe.Items metas)
          /\ Forall2 mirrors (Cart.items cart) metas
          /\ Forall2 charges (Cart.items cart) (Stripe.lineItems req)
          /\ Stripe.cr_couponCode req
             = Coupon.code
                 <$> active_coupon (DB.db w) (Cart.a_code (Cart.appliedCoupon cart))
          /\ Stripe.stripePromotionCodeId req
             = active_coupon (DB.db w) (Cart.a_code (Cart.appliedCoupon cart))
                 ≫= Coupon.stripePromotionCodeId).
Proof.
  unfold PaymentController.createCheckoutFromCart.
  set (post := fun (r : response) (w' : DB.world) =>
    DB.db w' = DB.db w
    /\ (status r <> 200%nat -> DB.provider w' = DB.provider w)
    /\ (status r = 200%nat ->
        exists req cart metas,
          DB.provider w' = (DB.provider w ++ [req])%list
          /\ DB.carts (DB.db w) !! user = Some cart
          /\ Cart.items cart <> []
          /\ Stripe.cr_userId req = user
          /\ Stripe.md_cartId (Stripe.cr_metadata req) = Some (Cart._id cart)
          /\ Stripe.md_itemsJson (Stripe.cr_metadata req)
             = Some (Stripe.Items metas)
          /\ Forall2 mirrors (Cart.items cart) metas
          /\ Forall2 charges (Cart.items cart) (Stripe.lineItems req)
          /\ Stripe.cr_couponCode req
             = Coupon.code
                 <$> active_coupon (DB.db w) (Cart.a_code (Cart.appliedCoupon cart))
          /\ Stripe.stripePromotionCodeId req
             = active_coupon (DB.db w) (Cart.a_code (Cart.appliedCoupon cart))
                 ≫= Coupon.stripePromotionCodeId)).
  match goal with
  | |- exists r w', ?run = _ /\ _ =>
      change (exists r w', run = (DB.Ok r, w') /\ post r w')
  end.
  assert (Hstop : forall st msg w1,
             st <> 200%nat -> DB.db w1 = DB.db w ->
             DB.provider w1 = DB.provider w ->
             post {| status := st; payload := Message msg |} w1).
  { intros st msg w1 Hst Hdb Hpr. unfold post. cbn [status].
    split; [exact Hdb|]. split; [intros _; exact Hpr | intros H; contradiction]. }
  destruct (Cart_findOne_populated_read user w)
    as [(w1 & Hrd & Hdb1 & Hpr1 & _)|(e & w1 & Hrd & Hdb1 & Hpr1 & _)].
  2:{ do 2 eexists. split.
      - erewrite try_catch_throw by (erewrite bind_throw by exact Hrd; reflexivity).
        reflexivity.
      - apply Hstop; [discriminate | assumption..]. }
  destruct (populated_cart (DB.db w) user) as [[cart pop]|] eqn:Hpop.
  2:{ do 2 eexists. split.
      - apply try_catch_ok. erewrite bind_ok by exact Hrd. reflexivity.
      - apply Hstop; [discriminate | assumption..]. }
  destruct (populated_items _ _ _ _ Hpop) as (Hcart & Hitems).
  destruct pop as [|x pop'] eqn:Hpopeq.
  { do 2 eexists. split.
    - apply try_catch_ok. erewrite bind_ok by exact Hrd. reflexivity.
    - apply Hstop; [discriminate | assumption..]. }
  rewrite <- Hpopeq in *. assert (Hne : pop <> []) by (subst pop; discriminate).
  destruct (PaymentController.check_items pop) as [msg|resolved] eqn:Hchk.
  { do 2 eexists. split.
    - apply try_catch_ok. erewrite bind_ok by exact Hrd. cbv beta iota.
      rewrite Hpopeq in *. rewrite Hchk. reflexivity.
    - apply Hstop; [discriminate | assumption..]. }
  pose proof (check_items_resolved _ _ Hchk) as Hfst.
  (* the coupon lookup *)
  assert (Hc : exists oc w2,
             match truthy (Cart.a_code (Cart.appliedCoupon cart)) with
             | Some code => Model.Coupon_findOneActive code
             | None => DB.ret None
             end w1 = (oc, w2)
             /\ DB.db w2 = DB.db w /\ DB.provider w2 = DB.provider w
             /\ forall c, oc = DB.Ok c ->
                   c = active_coupon (DB.db w)
                         (Cart.a_code (Cart.appliedCoupon cart))).
  { unfold active_coupon.
    destruct (truthy (Cart.a_code (Cart.appliedCoupon cart))) as [code|].
    - destruct (Coupon_findOneActive_read code w1)
        as [(w2 & E & Hdb2 & Hpr2 & _)|(e & w2 & E & Hdb2 & Hpr2 & _)];
        do 2 eexists; (split; [exact E|]); (split; [congruence|]);
        (split; [congruence|]).
      + intros c [= <-]. rewrite Hdb1. reflexivity.
      + intros c [=].
    - do 2 eexists. split; [reflexivity|]. split; [assumption|].
      split; [assumption|]. intros c [= <-]. reflexivity. }
  destruct Hc as (oc & w2 & Hc & Hdb2 & Hpr2 & Hactive).
  assert (Hprefix : forall k,
    DB.bind (PaymentController.Cart_findOne_populated user)
      (fun found =>
         match found with
         | Some (cart, populated) =>
             match populated with
             | [] => respond 400 (Message "Cart is empty")
             | _ :: _ =>
                 match PaymentController.check_items populated with
                 | inl msg => respond 400 (Message msg)
                 | inr resolved => k cart resolved
                 end
             end
         | None => respond 400 (Message "Cart is empty")
         end) w = k cart resolved w1).
  { intros k. erewrite bind_ok by exact Hrd. cbv beta iota.
    rewrite Hpopeq in *. rewrite Hchk. reflexivity. }
  unfold DB.try_catch at 1. rewrite Hprefix. clear Hprefix.
  destruct oc as [c|e].
  2:{ erewrite bind_throw by exact Hc. do 2 eexists. split; [reflexivity|].
      apply Hstop; [discriminate | assumption..]. }
  erewrite bind_ok by exact Hc. cbv beta.
  match goal with
  | |- context [Model.createCheckoutSession ?rq] =>
      destruct (createCheckoutSession_cases rq w2)
        as [(sid & url & w3 & Hs & Hdb3 & Hpr3)|(e & w3 & Hs & Hdb3 & Hpr3)]
  end.
  - erewrite bind_ok by exact Hs. do 2 eexists. split; [reflexivity|].
    unfold post. cbn [status].
    split; [congruence|]. split; [intros H; contradiction|]. intros _.
    do 3 eexists. split; [rewrite Hpr3, Hpr2; reflexivity|].
    split; [exact Hcart|].
    split; [rewrite <- Hitems; destruct pop; [congruence|discriminate]|].
    cbn [Stripe.cr_userId Stripe.cr_metadata Stripe.md_cartId
         Stripe.md_itemsJson Stripe.lineItems].
    split; [reflexivity|]. split; [reflexivity|]. split; [reflexivity|].
    rewrite <- Hitems, <- Hfst.
    split; [apply resolved_mirrors|]. split; [apply resolved_mirrors|].
    rewrite <- (Hactive c eq_refl). split; [reflexivity|].
    destruct c; reflexivity.
  - erewrite bind_throw by exact Hs. do 2 eexists. split; [reflexivity|].
    apply Hstop; [discriminate | congruence..].
Qed.

(** X10.  [createCheckoutFromCart] is a dry run: it always answers and
    never changes the database, and the provider receives a request only
    when the answer is 200.  That one request is for the user's stored
    cart: it names the cart and carries one line item and one metadata
    entry per cart line, with the line's quantity and the line's own
    price snapshot, not the product's current price.  The coupon it
    forwards is the stored coupon under the cart's snapshot code if that
    coupon is active, whether or not [isValid] would still accept it, and
    none otherwise. *)
Theorem createCheckoutFromCart_dry_run (user : string) (w : DB.world) :
  exists r w',
    PaymentController.createCheckoutFromCart user w = (DB.Ok r, w')
    /\ DB.db w' = DB.db w
    /\ (status r <> 200%nat -> DB.provider w' = DB.provider w)
    /\ (status r = 200%nat ->
        exists req cart metas,
          DB.provider w' = (DB.provider w ++ [req])%list
          /\ DB.carts (DB.db w) !! user = Some cart
          /\ Cart.items cart <> []
          /\ Stripe.cr_userId req = user
          /\ Stripe.md_cartId (Stripe.cr_metadata req) = Some (Cart._id cart)
          /\ Stripe.md_itemsJson (Stripe.cr_metadata req)
             = Some (Stripe.Items metas)
          /\ Forall2 mirrors (Cart.items cart) metas
          /\ Forall2 charges (Cart.items cart) (Stripe.lineItems req)
          /\ Stripe.cr_couponCode req
             = Coupon.code
                 <$> active_coupon (DB.db w) (Cart.a_code (Cart.appliedCoupon cart))
          /\ Stripe.stripePromotionCodeId req
             = active_coupon (DB.db w) (Cart.a_code (Cart.appliedCoupon cart))
                 ≫= Coupon.stripePromotionCodeId).
Proof. exact (createCheckoutFromCart_cases user w). Qed.








(** ** What a webhook delivery does to the carts *)

Lemma handleWebhook_world
    (constructWebhookEvent : string -> option string -> string + Stripe.event)
    (req : PaymentController.webhook_request) (now : Z) (w : DB.world)
    (event : Stripe.event) :
  constructWebhookEvent (PaymentController.raw_body req)
                        (PaymentController.stripe_signature req) = inr event ->
  snd (PaymentController.handleWebhook constructWebhookEvent req now w)
  = if String.eqb (Stripe.type event) "checkout.session.completed"
    then snd (PaymentController.fulfil (Stripe.data_object event) now w)
    else w.
Proof.
  intros Hev. unfold PaymentController.handleWebhook. rewrite Hev.
  destruct (String.eqb (Stripe.type event) "checkout.session.completed").
  - destruct (swallow_ok (PaymentController.fulfil (Stripe.data_object event) now) w)
      as (w1 & E & ->).
    erewrite bind_ok by exact E. reflexivity.
  - reflexivity.
Qed.

(** X13.  A verified webhook delivery and the carts.  An event of any
    other type than [checkout.session.completed] leaves the world exactly
    as it was.  A completed checkout never calls the provider, changes the
    database only if it has appended the order, creates and deletes no
    cart, and leaves every cart as it was except that the cart whose id
    the metadata names may have been emptied; a session that names no
    cart (a quick buy) therefore leaves all carts alone.  When no call
    fails and the order is new and valid, the named cart is emptied. *)
Theorem handleWebhook_carts
    (constructWebhookEvent : string -> option string -> string + Stripe.event)
    (req : PaymentController.webhook_request) (now : Z) (w : DB.world)
    (event : Stripe.event) :
  constructWebhookEvent (PaymentController.raw_body req)
                        (PaymentController.stripe_signature req) = inr event ->
  let session := Stripe.data_object event in
  let md := Stripe.metadata_of session in
  let order := PaymentController.order_of_session session in
  let w' := snd (PaymentController.handleWebhook constructWebhookEvent req now w) in
  (Stripe.type event <> "checkout.session.completed" -> w' = w)
  /\ DB.provider w' = DB.provider w
  /\ (DB.db w' <> DB.db w ->
      DB.orders (DB.db w') = (DB.orders (DB.db w) ++ [order])%list)
  /\ (forall user,
        DB.carts (DB.db w') !! user = None <-> DB.carts (DB.db w) !! user = None)
  /\ (forall user c,
        DB.carts (DB.db w) !! user = Some c ->
        DB.carts (DB.db w') !! user = Some c
        \/ (truthy (Stripe.md_cartId md) = Some (Cart._id c)
            /\ DB.carts (DB.db w') !! user = Some (Cart.cleared c)))
  /\ (truthy (Stripe.md_cartId md) = None ->
      DB.carts (DB.db w') = DB.carts (DB.db w))
  /\ (reliable w ->
      Stripe.type event = "checkout.session.completed" ->
      Order.validate order = true ->
      orders_for (Stripe.id session) (DB.db w) = [] ->
      forall user c,
        DB.carts (DB.db w) !! user = Some c ->
        truthy (Stripe.md_cartId md) = Some (Cart._id c) ->
        DB.carts (DB.db w') !! user = Some (Cart.cleared c)).
Proof.
  intros Hev session md order w'.
  pose proof (handleWebhook_world constructWebhookEvent req now w event Hev) as Hw'.
  fold w' in Hw'. fold session in Hw'.
  assert (Hcarts : w' = w
                   \/ (Stripe.type event = "checkout.session.completed"
                       /\ w' = snd (PaymentController.fulfil session now w))).
  { destruct (String.eqb (Stripe.type event) "checkout.session.completed") eqn:E.
    - right. apply String.eqb_eq in E. split; assumption.
    - left. exact Hw'. }
  assert (Hshape : DB.provider w' = DB.provider w
                   /\ (DB.db w' = DB.db w
                       \/ (DB.orders (DB.db w')
                           = (DB.orders (DB.db w) ++ [order])%list
                           /\ (DB.carts (DB.db w') = DB.carts (DB.db w)
                               \/ exists cartId,
                                    truthy (Stripe.md_cartId md) = Some cartId
                                    /\ DB.carts (DB.db w')
                                       = clear_cart cartId <$> DB.carts (DB.db w))))).
  { destruct Hcarts as [->|(_ & ->)]; [split; [reflexivity | left; reflexivity]|].
    destruct (fulfil_effect session now w) as (Hp & [H|H]).
    - split; [exact Hp | left; exact H].
    - split; [exact Hp|]. right.
      destruct H as (_ & _ & Ho & _ & _ & Hc). split; [exact Ho | exact Hc]. }
  destruct Hshape as (Hprov & Hdb).
  split; [|split; [exact Hprov|split; [|split; [|split; [|split]]]]].
  - intros Hty. apply String.eqb_neq in Hty. rewrite Hty in Hw'. exact Hw'.
  - intros Hch. destruct Hdb as [H|(H & _)]; [contradiction | exact H].
  - intros user.
    destruct Hdb as [->|(_ & [->|(cid & _ & ->)])]; try reflexivity.
    rewrite lookup_fmap. destruct (DB.carts (DB.db w) !! user); simpl;
      split; congruence.
  - intros user c Hc.
    destruct Hdb as [->|(_ & [->|(cid & Hcid & ->)])]; try (left; exact Hc).
    rewrite lookup_fmap, Hc. cbn [fmap option_fmap option_map].
    unfold clear_cart. destruct (String.eqb (Cart._id c) cid) eqn:E.
    + apply String.eqb_eq in E. subst cid. right. split; [exact Hcid | reflexivity].
    + left. reflexivity.
  - intros Hnone.
    destruct Hdb as [->|(_ & [->|(cid & Hcid & _)])]; try reflexivity.
    congruence.
  - intros Hrel Hty Hv Hnew user c Hc Hcid.
    apply String.eqb_eq in Hty. rewrite Hty in Hw'. rewrite Hw'.
    rewrite (fulfil_reliable session now w Hrel Hv Hnew).
    cbn [snd DB.with_db DB.db]. unfold fulfilled_store. cbn [DB.carts].
    fold md. rewrite Hcid. rewrite lookup_fmap, Hc.
    cbn [fmap option_fmap option_map]. unfold clear_cart.
    rewrite String.eqb_refl. reflexivity.
Qed.

Lemma handleWebhook_carts_witness :
  let event := Scenario.completed
                 (Scenario.session_of (Some (Stripe.Items Scenario.two_lamps))
                                      (Some "SAVE20")) in
  let w' := snd (PaymentController.handleWebhook (Scenario.verify event)
                   Scenario.signed 10 Scenario.shop) in
  DB.carts (DB.db w') !! "u1" = Some (Cart.cleared Scenario.cart_one_lamp).
Proof.
  intros event w'.
  destruct (handleWebhook_carts (Scenario.verify event) Scenario.signed 10
              Scenario.shop event eq_refl) as (_ & _ & _ & _ & _ & _ & H).
  apply H.
  - reflexivity.
  - reflexivity.
  - vm_compute. reflexivity.
  - vm_compute. reflexivity.
  - vm_compute. reflexivity.
  - vm_compute. reflexivity.
Defined.

(** ** Coupons at the cart: validate, apply, remove *)

Lemma applyCouponToCart_cases (user : string) (code : option string)
    (now : Z) (w : DB.world) :
  exists r w',
    CouponController.applyCouponToCart user code now w = (DB.Ok r, w')
    /\ DB.provider w' = DB.provider w
    /\ only_carts_differ (DB.db w) (DB.db w')
    /\ (CouponController.r_status r <> 200%nat -> DB.db w' = DB.db w)
    /\ (CouponController.r_status r = 200%nat ->
        exists given coupon cart,
          truthy code = Some given
          /\ DB.coupons (DB.db w) !! Str.toUpperCase given = Some coupon
          /\ DB.carts (DB.db w) !! user = Some cart
          /\ Cart.items cart <> []
          /\ Coupon.isValid coupon (Cart.subtotal cart) (Some user) now = Valid
          /\ let cart' := CouponController.with_coupon cart
                            (CouponController.snapshot_of coupon) in
             DB.carts (DB.db w') = <[Cart.userId cart := cart']> (DB.carts (DB.db w))
             /\ CouponController.r_content r
                = CouponController.CartWith "Coupon applied"
                    (CouponController.summary cart')).
Proof.
  unfold CouponController.applyCouponToCart.
  set (post := fun (r : CouponController.reply) (w' : DB.world) =>
    DB.provider w' = DB.provider w
    /\ only_carts_differ (DB.db w) (DB.db w')
    /\ (CouponController.r_status r <> 200%nat -> DB.db w' = DB.db w)
    /\ (CouponController.r_status r = 200%nat ->
        exists given coupon cart,
          truthy code = Some given
          /\ DB.coupons (DB.db w) !! Str.toUpperCase given = Some coupon
          /\ DB.carts (DB.db w) !! user = Some cart
          /\ Cart.items cart <> []
          /\ Coupon.isValid coupon (Cart.subtotal cart) (Some user) now = Valid
          /\ let cart' := CouponController.with_coupon cart
                            (CouponController.snapshot_of coupon) in
             DB.carts (DB.db w') = <[Cart.userId cart := cart']> (DB.carts (DB.db w))
             /\ CouponController.r_content r
                = CouponController.CartWith "Coupon applied"
                    (CouponController.summary cart'))).
  match goal with
  | |- exists r w', ?run = _ /\ _ =>
      change (exists r w', run = (DB.Ok r, w') /\ post r w')
  end.
  assert (Hstop : forall st msg w1,
             st <> 200%nat -> DB.db w1 = DB.db w ->
             DB.provider w1 = DB.provider w ->
             post {| CouponController.r_status := st;
                     CouponController.r_content := CouponController.Msg msg |} w1).
  { intros st msg w1 Hst Hdb Hpr. unfold post. cbn [CouponController.r_status].
    split; [exact Hpr|]. split; [apply only_carts_differ_eq, Hdb|].
    split; [intros _; exact Hdb | intros H; contradiction]. }
  destruct (truthy code) as [given|] eqn:Hcode.
  2:{ do 2 eexists. split; [reflexivity|]. apply Hstop; [discriminate|reflexivity..]. }
  destruct (Coupon_findOne_read (Str.toUpperCase given) w)
    as [(w1 & Hrd & Hdb1 & Hpr1 & _)|(e & w1 & Hrd & Hdb1 & Hpr1 & _)].
  2:{ do 2 eexists. split.
      - erewrite try_catch_throw by (erewrite bind_throw by exact Hrd; reflexivity).
        reflexivity.
      - apply Hstop; [discriminate | assumption..]. }
  destruct (DB.coupons (DB.db w) !! Str.toUpperCase given) as [coupon|] eqn:Hcoupon.
  2:{ do 2 eexists. split.
      - apply try_catch_ok. erewrite bind_ok by exact Hrd. reflexivity.
      - apply Hstop; [discriminate | assumption..]. }
  destruct (Cart_findOne_read user w1)
    as [(w2 & Hrc & Hdb2 & Hpr2 & _)|(e & w2 & Hrc & Hdb2 & Hpr2 & _)].
  2:{ do 2 eexists. split.
      - erewrite try_catch_throw
          by (erewrite bind_ok by exact Hrd; cbv beta iota;
              erewrite bind_throw by exact Hrc; reflexivity).
        reflexivity.
      - apply Hstop; [discriminate | congruence..]. }
  rewrite Hdb1 in Hrc.
  destruct (DB.carts (DB.db w) !! user) as [cart|] eqn:Hcart.
  2:{ do 2 eexists. split.
      - apply try_catch_ok. erewrite bind_ok by exact Hrd. cbv beta iota.
        erewrite bind_ok by exact Hrc. reflexivity.
      - apply Hstop; [discriminate | congruence..]. }
  destruct (Cart.items cart) as [|i0 rest] eqn:Hitems.
  { do 2 eexists. split.
    - apply try_catch_ok. erewrite bind_ok by exact Hrd. cbv beta iota.
      erewrite bind_ok by exact Hrc. cbv beta iota. rewrite Hitems. reflexivity.
    - apply Hstop; [discriminate | congruence..]. }
  destruct (Coupon.isValid coupon (Cart.subtotal cart) (Some user) now)
    as [|reason] eqn:Hvalid.
  2:{ do 2 eexists. split.
      - apply try_catch_ok. erewrite bind_ok by exact Hrd. cbv beta iota.
        erewrite bind_ok by exact Hrc. cbv beta iota. rewrite Hitems, Hvalid.
        reflexivity.
      - apply Hstop; [discriminate | congruence..]. }
  set (cart' := CouponController.with_coupon cart
                  (CouponController.snapshot_of coupon)).
  destruct (Cart_save_cases cart' w2)
    as [(w3 & Hs & _ & Hdb3 & Hpr3)|(e & w3 & Hs & Hdb3 & Hpr3)].
  - do 2 eexists. split.
    + apply try_catch_ok. erewrite bind_ok by exact Hrd. cbv beta iota.
      erewrite bind_ok by exact Hrc. cbv beta iota. rewrite Hitems, Hvalid.
      cbv zeta. fold cart'. erewrite bind_ok by exact Hs. reflexivity.
    + unfold post. cbn [CouponController.r_status CouponController.r_content].
      split; [congruence|].
      split; [rewrite Hdb3, Hdb2, Hdb1; repeat split|].
      split; [intros H; contradiction|]. intros _.
      exists given, coupon, cart. split; [reflexivity|].
      split; [exact Hcoupon|]. split; [reflexivity|].
      split; [rewrite Hitems; discriminate|]. split; [exact Hvalid|].
      cbv zeta. fold cart'. split; [|reflexivity].
      rewrite Hdb3, Hdb2, Hdb1. reflexivity.
  - do 2 eexists. split.
    + erewrite try_catch_throw
        by (erewrite bind_ok by exact Hrd; cbv beta iota;
            erewrite bind_ok by exact Hrc; cbv beta iota;
            rewrite Hitems, Hvalid; cbv zeta; fold cart';
            erewrite bind_throw by exact Hs; reflexivity).
      reflexivity.
    + apply Hstop; [discriminate | congruence..].
Qed.

(** X14.  [applyCouponToCart] always answers; it never calls the provider
    and never touches products, coupons (no use is recorded) or orders;
    unless the answer is 200 the database is unchanged.  An answer of 200
    means: the coupon stored under the upper-cased code exists, the user's
    cart has at least one line, [isValid] accepted the coupon for the
    cart's subtotal, this user and the clock, and the cart was saved with
    the coupon's code, type and value as its snapshot.  The cart in the
    answer is the cart that was saved. *)
Theorem applyCouponToCart_outcome (user : string) (code : option string)
    (now : Z) (w : DB.world) :
  exists r w',
    CouponController.applyCouponToCart user code now w = (DB.Ok r, w')
    /\ DB.provider w' = DB.provider w
    /\ only_carts_differ (DB.db w) (DB.db w')
    /\ (CouponController.r_status r <> 200%nat -> DB.db w' = DB.db w)
    /\ (CouponController.r_status r = 200%nat ->
        exists given coupon cart,
          truthy code = Some given
          /\ DB.coupons (DB.db w) !! Str.toUpperCase given = Some coupon
          /\ DB.carts (DB.db w) !! user = Some cart
          /\ Cart.items cart <> []
          /\ Coupon.isValid coupon (Cart.subtotal cart) (Some user) now = Valid
          /\ let cart' := CouponController.with_coupon cart
                            (CouponController.snapshot_of coupon) in
             DB.carts (DB.db w') = <[Cart.userId cart := cart']> (DB.carts (DB.db w))
             /\ CouponController.r_content r
                = CouponController.CartWith "Coupon applied"
                    (CouponController.summary cart')).
Proof. exact (applyCouponToCart_cases user code now w). Qed.



Lemma truthy_nonempty (s : string) : s <> EmptyString -> truthy (Some s) = Some s.
Proof. destruct s; [congruence | reflexivity]. Qed.

Lemma applyCouponToCart_reliable (user given : string) (now : Z) (w : DB.world)
    (coupon : Coupon.t) (cart : Cart.t) :
  reliable w ->
  given <> EmptyString ->
  DB.coupons (DB.db w) !! Str.toUpperCase given = Some coupon ->
  DB.carts (DB.db w) !! user = Some cart ->
  Cart.items cart <> [] ->
  Coupon.isValid coupon (Cart.subtotal cart) (Some user) now = Valid ->
  Cart.validate cart = true ->
  let cart' := CouponController.with_coupon cart
                 (CouponController.snapshot_of coupon) in
  CouponController.applyCouponToCart user (Some given) now w
  = (DB.Ok {| CouponController.r_status := 200;
              CouponController.r_content :=
                CouponController.CartWith "Coupon applied"
                  (CouponController.summary cart') |},
     DB.with_db w (Model.set_carts (DB.db w)
                     (<[Cart.userId cart := cart']> (DB.carts (DB.db w))))).
Proof.
  intros Hw Hgiven Hcoupon Hcart Hitems Hvalid Hsave cart'.
  unfold CouponController.applyCouponToCart.
  rewrite (truthy_nonempty _ Hgiven). apply try_catch_ok.
  erewrite bind_ok by (apply (read_reliable _ _ _ (Coupon_findOne_read _) Hw)).
  cbv beta. rewrite Hcoupon.
  erewrite bind_ok by (apply (read_reliable _ _ _ (Cart_findOne_read _) Hw)).
  cbv beta. rewrite Hcart.
  destruct (Cart.items cart) as [|i0 rest] eqn:E; [congruence|].
  rewrite Hvalid. cbv zeta. fold cart'. unfold DB.bind.
  rewrite (Cart_save_reliable _ w Hw).
  change (Cart.validate cart') with (Cart.validate cart). rewrite Hsave.
  reflexivity.
Qed.




Lemma with_coupon_twice (c : Cart.t) (a b : Cart.applied) :
  CouponController.with_coupon (CouponController.with_coupon c a) b
  = CouponController.with_coupon c b.
Proof. reflexivity. Qed.

Lemma with_coupon_same (c : Cart.t) :
  CouponController.with_coupon c (Cart.appliedCoupon c) = c.
Proof. destruct c; reflexivity. Qed.

Lemma set_carts_same (s : DB.store) : Model.set_carts s (DB.carts s) = s.
Proof. destruct s; reflexivity. Qed.

(** X17.  Removing a coupon undoes applying it.  After an
    [applyCouponToCart] answered 200, [removeCouponFromCart] (no call
    failing) answers 200 with the same lines, no coupon and a discount of
    0, and stores the cart with the empty snapshot; every other cart,
    product, coupon and order is as before the coupon was applied, and if
    the cart carried no coupon before, the whole database is back to what
    it was. *)
Theorem apply_then_remove_restores (user : string) (code : option string)
    (now : Z) (w w1 : DB.world) (r : CouponController.reply) (cart : Cart.t) :
  reliable w ->
  DB.carts (DB.db w) !! user = Some cart ->
  Cart.userId cart = user ->
  CouponController.applyCouponToCart user code now w = (DB.Ok r, w1) ->
  CouponController.r_status r = 200%nat ->
  let bare := CouponController.with_coupon cart Cart.no_coupon in
  exists w2,
    CouponController.removeCouponFromCart user w1
    = (DB.Ok {| CouponController.r_status := 200;
                CouponController.r_content :=
                  CouponController.CartWith "Coupon removed"
                    (CouponController.summary bare) |}, w2)
    /\ Cart.items bare = Cart.items cart
    /\ (Cart.discount bare == 0)%Q
    /\ DB.db w2 = Model.set_carts (DB.db w) (<[user := bare]> (DB.carts (DB.db w)))
    /\ DB.provider w2 = DB.provider w
    /\ (Cart.appliedCoupon cart = Cart.no_coupon -> DB.db w2 = DB.db w).
Proof.
  intros Hw Hcart Huser Hrun Hst bare. subst user.
  set (user := Cart.userId cart) in *.
  destruct (applyCouponToCart_cases user code now w)
    as (r0 & w0 & Hrun0 & _ & _ & _ & Hok).
  rewrite Hrun in Hrun0. injection Hrun0 as <- <-.
  destruct (Hok Hst)
    as (given & coupon & cart0 & Hgiven & Hcoupon & Hcart0 & Hitems & Hvalid & H).
  rewrite Hcart in Hcart0. injection Hcart0 as <-.
  cbv zeta in H. destruct H as (Hcarts & _).
  set (cart' := CouponController.with_coupon cart
                  (CouponController.snapshot_of coupon)) in *.
  (* the apply step ran without failure, so it saved a valid cart *)
  assert (Hgiven' : given <> EmptyString).
  { intros ->. destruct code as [[|]|]; discriminate. }
  assert (Hcode : code = Some given).
  { destruct code as [[|a s]|]; simpl in Hgiven; congruence. }
  assert (Hsave : Cart.validate cart = true).
  { destruct (Cart.validate cart) eqn:E; [reflexivity|]. exfalso.
    revert Hrun. unfold CouponController.applyCouponToCart.
    rewrite Hcode, (truthy_nonempty _ Hgiven').
    erewrite try_catch_throw.
    - intros [= <- _]. discriminate.
    - erewrite bind_ok by (apply (read_reliable _ _ _ (Coupon_findOne_read _) Hw)).
      cbv beta. rewrite Hcoupon.
      erewrite bind_ok by (apply (read_reliable _ _ _ (Cart_findOne_read _) Hw)).
      cbv beta. rewrite Hcart.
      destruct (Cart.items cart) as [|i0 rest]; [congruence|].
      rewrite Hvalid. cbv zeta. unfold DB.bind.
      rewrite (Cart_save_reliable _ w Hw).
      change (Cart.validate (CouponController.with_coupon cart _))
        with (Cart.validate cart). rewrite E. reflexivity. }
  pose proof (applyCouponToCart_reliable user given now w coupon cart
                Hw Hgiven' Hcoupon Hcart Hitems Hvalid Hsave) as Hrun1.
  cbv zeta in Hrun1. rewrite <- Hcode, Hrun in Hrun1.
  injection Hrun1 as _ Hw1.
  assert (Hw1rel : reliable w1) by (rewrite Hw1; apply reliable_with_db, Hw).
  assert (Hcart1 : DB.carts (DB.db w1) !! user = Some cart').
  { rewrite Hcarts. apply lookup_insert_eq. }
  eexists. split; [|split; [reflexivity|split; [|split; [|split]]]].
  - unfold CouponController.removeCouponFromCart. apply try_catch_ok.
    erewrite bind_ok by (apply (read_reliable _ _ _ (Cart_findOne_read _) Hw1rel)).
    cbv beta. rewrite Hcart1. cbv zeta. unfold DB.bind.
    rewrite (Cart_save_reliable _ w1 Hw1rel).
    change (Cart.validate (CouponController.with_coupon cart' Cart.no_coupon))
      with (Cart.validate cart). rewrite Hsave.
    unfold cart'. rewrite with_coupon_twice. reflexivity.
  - rewrite (cart_discount_no_coupon bare eq_refl). reflexivity.
  - cbn [DB.with_db DB.db]. rewrite Hw1. cbn [DB.with_db DB.db Model.set_carts DB.carts
                                             DB.products DB.coupons DB.orders].
    unfold Model.set_carts. cbn [DB.products DB.coupons DB.orders DB.carts].
    f_equal. apply insert_insert_eq.
  - rewrite Hw1. reflexivity.
  - intros Hnone. cbn [DB.with_db DB.db]. rewrite Hw1.
    cbn [DB.with_db DB.db Model.set_carts DB.carts DB.products DB.coupons DB.orders].
    change (Cart.userId (CouponController.with_coupon cart Cart.no_coupon))
      with user.
    rewrite insert_insert_eq.
    assert (Hbare : CouponController.with_coupon cart Cart.no_coupon = cart)
      by (rewrite <- Hnone; apply with_coupon_same).
    rewrite Hbare, (insert_id _ _ _ Hcart). destruct (DB.db w); reflexivity.
Qed.

Lemma apply_then_remove_restores_witness :
  exists w2 s,
    CouponController.removeCouponFromCart "u1"
      (snd (CouponController.applyCouponToCart "u1" (Some "SAVE20") 10
              Scenario.shop))
    = (DB.Ok {| CouponController.r_status := 200;
                CouponController.r_content :=
                  CouponController.CartWith "Coupon removed" s |}, w2)
    /\ DB.db w2 = DB.db Scenario.shop.
Proof.
  destruct (apply_then_remove_restores "u1" (Some "SAVE20") 10 Scenario.shop
              (snd (CouponController.applyCouponToCart "u1" (Some "SAVE20") 10
                      Scenario.shop))
              {| CouponController.r_status := 200;
                 CouponController.r_content :=
                   CouponController.CartWith "Coupon applied"
                     (CouponController.summary
                        (CouponController.with_coupon Scenario.cart_one_lamp
                           (CouponController.snapshot_of
                              (Examples.coupon "SAVE20" fixed 20 None None 0 [])))) |}
              Scenario.cart_one_lamp)
    as (w2 & Hrun & _ & _ & _ & _ & Hback).
  - reflexivity.
  - vm_compute. reflexivity.
  - reflexivity.
  - vm_compute. reflexivity.
  - reflexivity.
  - exists w2. eexists. split; [exact Hrun | apply Hback; reflexivity].
Defined.

(** ** The amounts an order records *)


(** ** Negotiated discounts: what an acceptance guarantees *)



(** ** Suggested discount tiers *)






(** ** Generated coupons *)

Lemma Coupon_insert_cases (c : Coupon.t) (w : DB.world) :
  (exists w', Model.Coupon_insert c w = (DB.Ok tt, w')
              /\ DB.coupons (DB.db w) !! Coupon.code c = None
              /\ DB.db w' = Model.set_coupons (DB.db w)
                              (<[Coupon.code c := c]> (DB.coupons (DB.db w)))
              /\ DB.provider w' = DB.provider w)
  \/ (exists e w', Model.Coupon_insert c w = (DB.Throw e, w')
                   /\ DB.db w' = DB.db w
                   /\ DB.provider w' = DB.provider w).
Proof.
  unfold Model.Coupon_insert.
  destruct (io_cases w) as [(w1 & Hio & Hdb & Hpr & _)
                           |(e & w1 & Hio & Hdb & Hpr & _)].
  - destruct (DB.coupons (DB.db w1) !! Coupon.code c) eqn:E.
    + right. do 2 eexists. split.
      { erewrite bind_ok by exact Hio. unfold DB.bind, DB.get.
        rewrite E. reflexivity. }
      split; assumption.
    + left. eexists. split.
      { erewrite bind_ok by exact Hio. unfold DB.bind, DB.get.
        rewrite E. reflexivity. }
      rewrite Hdb in E. split; [exact E|].
      cbn [DB.put DB.with_db DB.db DB.provider snd]. rewrite Hdb.
      split; [reflexivity | exact Hpr].
  - right. do 2 eexists. split; [erewrite bind_throw by exact Hio; reflexivity|].
    split; assumption.
Qed.

Lemma Coupon_save_cases (key : string) (c : Coupon.t) (w : DB.world) :
  (exists w', Model.Coupon_save key c w = (DB.Ok tt, w')
              /\ DB.db w' = Model.set_coupons (DB.db w)
                              (<[key := c]> (DB.coupons (DB.db w)))
              /\ DB.provider w' = DB.provider w)
  \/ (exists e w', Model.Coupon_save key c w = (DB.Throw e, w')
                   /\ DB.db w' = DB.db w
                   /\ DB.provider w' = DB.provider w).
Proof.
  unfold Model.Coupon_save.
  destruct (write_after_io
              (fun s => Model.set_coupons s (<[key := c]> (DB.coupons s))) w)
    as [(w' & E & Hdb & Hpr & _)|(e & w' & E & Hdb & Hpr & _)].
  - left. exists w'. repeat split; assumption.
  - right. exists e, w'. repeat split; assumption.
Qed.

Lemma fresh_coupon_redeemable (c : Coupon.t) (now : Z) :
  Coupon.isActive c = true ->
  Coupon.expiresAt c = Some (now + 24 * 60 * 60 * 1000)%Z ->
  Coupon.usageLimit c = Some 1%Z ->
  Coupon.usedCount c = 0%Z ->
  Coupon.usedBy c = [] ->
  Coupon.minPurchase c = 0%Q ->
  redeemable_for_a_day c now.
Proof.
  intros Ha He Hl Hu Hb Hm sub user t Hsub Ht.
  apply isValid_Valid_iff. rewrite Ha, He, Hl, Hu, Hb, Hm.
  split; [reflexivity|]. split; [intros e [= <-]; exact Ht|].
  split; [intros l [= <-]; lia|].
  split; [intros u _ _; rewrite fmap_nil; apply not_elem_of_nil | exact Hsub].
Qed.

(** X21.  [generateCoupon] always answers; it never calls the checkout
    provider and never touches products, carts or orders.  The coupon
    collection is either unchanged or has gained exactly one coupon, under
    a code that was free: the upper-cased [PREFIX-shortId]; that coupon is
    single-use, one per user, uncapped, and passes [isValid] for every
    user and every non-negative subtotal during 24 hours.  An answer of
    201 means that the product exists, [validateDiscount] allowed the
    discount, the value is not negative, the coupon is stored with the
    requested type and value and the identifiers the payment provider
    returned, and the code in the answer, upper-cased, is the code it is
    stored under. *)
Theorem generateCoupon_outcome (uuidv4 : string)
    (createStripeCoupon : Coupon.t -> option (option string * option string))
    (req : ClerkController.coupon_request) (now : Z) (w : DB.world) :
  let gen := generated_code uuidv4 (ClerkController.g_reason req) in
  exists r w',
    ClerkController.generateCoupon uuidv4 createStripeCoupon req now w
    = (DB.Ok r, w')
    /\ DB.provider w' = DB.provider w
    /\ DB.products (DB.db w') = DB.products (DB.db w)
    /\ DB.carts (DB.db w') = DB.carts (DB.db w)
    /\ DB.orders (DB.db w') = DB.orders (DB.db w)
    /\ (DB.coupons (DB.db w') = DB.coupons (DB.db w)
        \/ exists c,
             DB.coupons (DB.db w) !! gen = None
             /\ DB.coupons (DB.db w') = <[gen := c]> (DB.coupons (DB.db w))
             /\ Coupon.code c = gen
             /\ redeemable_for_a_day c now
             /\ single_use_coupon c)
    /\ (status r = 201%nat ->
        exists pid ty v p a e m c code,
          truthy (ClerkController.g_productId req) = Some pid
          /\ ClerkController.g_discountType req = Some ty
          /\ ClerkController.g_discountValue req = Some v
          /\ DB.products (DB.db w) !! pid = Some p
          /\ Negotiation.validateDiscount p ty v = Negotiation.Allowed a e m
          /\ (0 <= v)%Q
          /\ DB.coupons (DB.db w') !! gen = Some c
          /\ Coupon.discountType c = ty
          /\ Coupon.discountValue c = v
          /\ createStripeCoupon
               (ClerkController.with_stripe_ids c (None, None))
             = Some (Coupon.stripeCouponId c, Coupon.stripePromotionCodeId c)
          /\ Str.toUpperCase code = gen
          /\ exists d o n,
               payload r
               = CouponCreated code d o n (Some (now + 24 * 60 * 60 * 1000)%Z)).
Proof.
  intros gen. unfold ClerkController.generateCoupon.
  set (post := fun (r : response) (w' : DB.world) =>
    DB.provider w' = DB.provider w
    /\ DB.products (DB.db w') = DB.products (DB.db w)
    /\ DB.carts (DB.db w') = DB.carts (DB.db w)
    /\ DB.orders (DB.db w') = DB.orders (DB.db w)
    /\ (DB.coupons (DB.db w') = DB.coupons (DB.db w)
        \/ exists c,
             DB.coupons (DB.db w) !! gen = None
             /\ DB.coupons (DB.db w') = <[gen := c]> (DB.coupons (DB.db w))
             /\ Coupon.code c = gen
             /\ redeemable_for_a_day c now
             /\ single_use_coupon c)
    /\ (status r = 201%nat ->
        exists pid ty v p a e m c code,
          truthy (ClerkController.g_productId req) = Some pid
          /\ ClerkController.g_discountType req = Some ty
          /\ ClerkController.g_discountValue req = Some v
          /\ DB.products (DB.db w) !! pid = Some p
          /\ Negotiation.validateDiscount p ty v = Negotiation.Allowed a e m
          /\ (0 <= v)%Q
          /\ DB.coupons (DB.db w') !! gen = Some c
          /\ Coupon.discountType c = ty
          /\ Coupon.discountValue c = v
          /\ createStripeCoupon
               (ClerkController.with_stripe_ids c (None, None))
             = Some (Coupon.stripeCouponId c, Coupon.stripePromotionCodeId c)
          /\ Str.toUpperCase code = gen
          /\ exists d o n,
               payload r
               = CouponCreated code d o n (Some (now + 24 * 60 * 60 * 1000)%Z))).
  match goal with
  | |- exists r w', ?run = _ /\ _ =>
      change (exists r w', run = (DB.Ok r, w') /\ post r w')
  end.
  assert (Hstop : forall st b w1,
             st <> 201%nat -> DB.db w1 = DB.db w ->
             DB.provider w1 = DB.provider w ->
             post {| status := st; payload := b |} w1).
  { intros st b w1 Hst Hdb Hpr. unfold post. cbn [status]. rewrite Hdb.
    split; [exact Hpr|]. do 3 (split; [reflexivity|]).
    split; [left; reflexivity | intros H; contradiction]. }
  destruct (truthy (ClerkController.g_productId req)) as [pid|] eqn:Hpid.
  2:{ do 2 eexists. split; [reflexivity|].
      apply Hstop; [discriminate | reflexivity..]. }
  destruct (ClerkController.g_discountType req) as [ty|] eqn:Hty.
  2:{ do 2 eexists. split; [reflexivity|].
      apply Hstop; [discriminate | reflexivity..]. }
  destruct (ClerkController.g_discountValue req) as [v|] eqn:Hv.
  2:{ do 2 eexists. split; [reflexivity|].
      apply Hstop; [discriminate | reflexivity..]. }
  destruct (Product_findById_read pid w)
    as [(w1 & Hrd & Hdb1 & Hpr1 & _)|(e & w1 & Hrd & Hdb1 & Hpr1 & _)].
  2:{ do 2 eexists. split.
      - erewrite try_catch_throw by (erewrite bind_throw by exact Hrd; reflexivity).
        reflexivity.
      - apply Hstop; [discriminate | assumption..]. }
  destruct (DB.products (DB.db w) !! pid) as [p|] eqn:Hp.
  2:{ do 2 eexists. split.
      - apply try_catch_ok. erewrite bind_ok by exact Hrd. reflexivity.
      - apply Hstop; [discriminate | assumption..]. }
  destruct (Negotiation.validateDiscount p ty v) as [a e m|reason m pct] eqn:Hval.
  2:{ do 2 eexists. split.
      - apply try_catch_ok. erewrite bind_ok by exact Hrd. cbv beta iota.
        rewrite Hval. reflexivity.
      - apply Hstop; [discriminate | assumption..]. }
  destruct (Qltb v 0) eqn:Hneg.
  { do 2 eexists. split.
    - erewrite try_catch_throw
        by (erewrite bind_ok by exact Hrd; cbv beta iota; rewrite Hval;
            reflexivity).
      reflexivity.
    - apply Hstop; [discriminate | assumption..]. }
  apply Qltb_ge in Hneg.
  assert (Hprefix : forall k : Product.t -> DB.M response,
    DB.bind (Model.Product_findById pid)
      (fun found =>
         match found with
         | Some product =>
             match Negotiation.validateDiscount product ty v with
             | Negotiation.Allowed _ _ _ => k product
             | Negotiation.Rejected reason maxDiscount maxPercentage =>
                 respond 400 (DiscountRefused reason maxDiscount maxPercentage)
             end
         | None => respond 404 (Message "Product not found")
         end) w = k p w1).
  { intros k. erewrite bind_ok by exact Hrd. cbv beta iota. rewrite Hval.
    reflexivity. }
  unfold DB.try_catch at 1. rewrite Hprefix. clear Hprefix. cbv zeta.
  fold gen.
  match goal with
  | |- context [Model.Coupon_insert ?c] => set (coupon0 := c) in *
  end.
  assert (Hred : forall ids,
             redeemable_for_a_day (ClerkController.with_stripe_ids coupon0 ids) now
             /\ single_use_coupon (ClerkController.with_stripe_ids coupon0 ids)).
  { intros ids. split; [apply fresh_coupon_redeemable; reflexivity|].
    repeat split. }
  assert (Hred0 : redeemable_for_a_day coupon0 now /\ single_use_coupon coupon0).
  { split; [apply fresh_coupon_redeemable; reflexivity | repeat split]. }
  destruct (Coupon_insert_cases coupon0 w1)
    as [(w2 & Hins & Hfree & Hdb2 & Hpr2)|(e2 & w2 & Hins & Hdb2 & Hpr2)].
  2:{ erewrite bind_throw by exact Hins. do 2 eexists. split; [reflexivity|].
      apply Hstop; [discriminate | congruence..]. }
  erewrite bind_ok by exact Hins.
  change (Coupon.code coupon0) with gen in *. rewrite Hdb1 in Hfree, Hdb2.
  destruct (createStripeCoupon coupon0) as [ids|] eqn:Hstripe.
  2:{ do 2 eexists. split; [reflexivity|]. unfold post. cbn [status].
      rewrite Hdb2. cbn [Model.set_coupons DB.products DB.carts DB.orders
                         DB.coupons].
      split; [congruence|]. do 3 (split; [reflexivity|]).
      split; [|discriminate]. right. exists coupon0.
      split; [exact Hfree|]. split; [reflexivity|]. split; [reflexivity|].
      exact Hred0. }
  destruct (Coupon_save_cases gen (ClerkController.with_stripe_ids coupon0 ids) w2)
    as [(w3 & Hsv & Hdb3 & Hpr3)|(e3 & w3 & Hsv & Hdb3 & Hpr3)].
  - erewrite bind_ok by exact Hsv. do 2 eexists. split; [reflexivity|].
    unfold post. cbn [status payload].
    rewrite Hdb3, Hdb2.
    cbn [Model.set_coupons DB.products DB.carts DB.orders DB.coupons].
    rewrite insert_insert_eq.
    split; [congruence|]. do 3 (split; [reflexivity|]). split.
    + right. exists (ClerkController.with_stripe_ids coupon0 ids).
      split; [exact Hfree|]. split; [reflexivity|]. split; [reflexivity|].
      apply Hred.
    + intros _.
      exists pid, ty, v, p, a, e, m, (ClerkController.with_stripe_ids coupon0 ids).
      eexists. do 6 (split; [first [reflexivity | eassumption]|]).
      split; [apply lookup_insert_eq|]. split; [reflexivity|].
      split; [reflexivity|]. split; [destruct ids; exact Hstripe|].
      split; [reflexivity|]. do 3 eexists. reflexivity.
  - erewrite bind_throw by exact Hsv. do 2 eexists. split; [reflexivity|].
    unfold post. cbn [status]. rewrite Hdb3, Hdb2.
    cbn [Model.set_coupons DB.products DB.carts DB.orders DB.coupons].
    split; [congruence|]. do 3 (split; [reflexivity|]).
    split; [|discriminate]. right. exists coupon0.
    split; [exact Hfree|]. split; [reflexivity|]. split; [reflexivity|].
    exact Hred0.
Qed.

Lemma Coupon_insert_reliable (c : Coupon.t) (w : DB.world) :
  reliable w ->
  DB.coupons (DB.db w) !! Coupon.code c = None ->
  Model.Coupon_insert c w
  = (DB.Ok tt,
     DB.with_db w (Model.set_coupons (DB.db w)
                     (<[Coupon.code c := c]> (DB.coupons (DB.db w))))).
Proof.
  intros Hw Hfree. unfold Model.Coupon_insert.
  erewrite bind_ok by (apply io_reliable; exact Hw).
  unfold DB.bind, DB.get. rewrite Hfree. reflexivity.
Qed.

(** X22.  No rollback.  When the discount is allowed and the coupon has
    been stored but the payment provider then refuses to register it,
    [generateCoupon] answers 500 "Failed to generate coupon" and yet
    leaves the coupon in the collection: without provider identifiers,
    with the requested type and value, and redeemable by any user for 24
    hours.  (No database call failing, the code being free.) *)
Theorem generateCoupon_no_rollback (uuidv4 : string)
    (createStripeCoupon : Coupon.t -> option (option string * option string))
    (req : ClerkController.coupon_request) (now : Z) (w : DB.world)
    (pid : string) (ty : DiscountType) (v a e m : Q) (p : Product.t) :
  let gen := generated_code uuidv4 (ClerkController.g_reason req) in
  reliable w ->
  truthy (ClerkController.g_productId req) = Some pid ->
  ClerkController.g_discountType req = Some ty ->
  ClerkController.g_discountValue req = Some v ->
  DB.products (DB.db w) !! pid = Some p ->
  Negotiation.validateDiscount p ty v = Negotiation.Allowed a e m ->
  (0 <= v)%Q ->
  DB.coupons (DB.db w) !! gen = None ->
  (forall c, createStripeCoupon c = None) ->
  exists c w',
    ClerkController.generateCoupon uuidv4 createStripeCoupon req now w
    = (DB.Ok {| status := 500; payload := Message "Failed to generate coupon" |},
       w')
    /\ DB.coupons (DB.db w') = <[gen := c]> (DB.coupons (DB.db w))
    /\ Coupon.code c = gen
    /\ Coupon.discountType c = ty
    /\ Coupon.discountValue c = v
    /\ Coupon.stripeCouponId c = None
    /\ Coupon.stripePromotionCodeId c = None
    /\ redeemable_for_a_day c now.
Proof.
  intros gen Hw Hpid Hty Hv Hp Hval Hv0 Hfree Hdown.
  unfold ClerkController.generateCoupon. rewrite Hpid, Hty, Hv.
  assert (Hneg : Qltb v 0 = false) by (apply Qltb_ge; exact Hv0).
  do 2 eexists. split.
  - erewrite try_catch_throw; [reflexivity|].
    erewrite bind_ok by (apply (read_reliable _ _ _ (Product_findById_read _) Hw)).
    cbv beta. rewrite Hp, Hval. cbv zeta. rewrite Hneg.
    erewrite bind_ok by (apply Coupon_insert_reliable; [exact Hw | exact Hfree]).
    rewrite Hdown. reflexivity.
  - cbn [DB.with_db DB.db Model.set_coupons DB.coupons Coupon.code
         Coupon.discountType Coupon.discountValue Coupon.stripeCouponId
         Coupon.stripePromotionCodeId].
    split; [reflexivity|]. do 5 (split; [reflexivity|]).
    apply fresh_coupon_redeemable; reflexivity.
Qed.

Lemma generateCoupon_no_rollback_witness :
  exists c w',
    ClerkController.generateCoupon "1b9d6bcd" (fun _ => None)
      {| ClerkController.g_productId := Some "p1";
         ClerkController.g_discountType := Some percentage;
         ClerkController.g_discountValue := Some 10%Q;
         ClerkController.g_reason := Some "It is my birthday" |}
      0 Scenario.shop
    = (DB.Ok {| status := 500; payload := Message "Failed to generate coupon" |},
       w')
    /\ DB.coupons (DB.db w') !! "BDAY-1B9D6B" = Some c
    /\ Coupon.isValid c 100 (Some "u2") 1000 = Valid.
Proof.
  destruct (generateCoupon_no_rollback "1b9d6bcd" (fun _ => None)
              {| ClerkController.g_productId := Some "p1";
                 ClerkController.g_discountType := Some percentage;
                 ClerkController.g_discountValue := Some 10%Q;
                 ClerkController.g_reason := Some "It is my birthday" |}
              0 Scenario.shop "p1" percentage 10
              (round2 (100 * (10 / 100))) (round2 (100 - 100 * (10 / 100)))
              (round2 (100 - 85)) Scenario.lamp)
    as (c & w' & Hrun & Hc & _ & _ & _ & _ & _ & Hred).
  - reflexivity.
  - reflexivity.
  - reflexivity.
  - reflexivity.
  - vm_compute. reflexivity.
  - reflexivity.
  - discriminate.
  - vm_compute. reflexivity.
  - reflexivity.
  - exists c, w'. split; [exact Hrun|]. split.
    + rewrite Hc. apply lookup_insert_eq.
    + apply Hred; [discriminate | lia].
Defined.

(** ** Inventory check *)

Lemma mem_color_match (v : string) (colors : list string) :
  Str.mem v colors = true -> Inventory.color_match v colors = true.
Proof.
  unfold Str.mem, Inventory.color_match. rewrite !existsb_exists.
  intros (c & Hin & E). exists c. split; [exact Hin|].
  apply String.eqb_eq in E. subst c. apply String.eqb_refl.
Qed.

(** X23.  [checkInventory] only reads, and when the product lookup
    succeeds it reports a product available only if it exists, is active,
    has positive stock and offers the requested size; the stock it reports
    is the stored stock.  It agrees with [addToCart]: whenever the product
    is active and in stock and the size and colour pass the checks of
    [addToCart], the product is reported available.  An active product
    without stock is reported "Out of stock". *)
Theorem checkInventory_verdict (pid : string) (size color : option string)
    (w : DB.world) :
  let run := Inventory.checkInventory pid size color w in
  DB.db (snd run) = DB.db w
  /\ DB.provider (snd run) = DB.provider w
  /\ (next_io_ok w ->
      exists a,
        fst run = DB.Ok a
        /\ (forall n pp,
              a = Inventory.Available n pp ->
              exists p,
                DB.products (DB.db w) !! pid = Some p
                /\ Product.isActive p = true
                /\ (0 < Product.stock p)%Z
                /\ n = Product.stock p
                /\ pp = Inventory.sanitizeProduct p
                /\ CartController.bad_option size (Product.sizes p) = None)
        /\ (forall p,
              DB.products (DB.db w) !! pid = Some p ->
              Product.isActive p = true ->
              (0 < Product.stock p)%Z ->
              CartController.bad_option size (Product.sizes p) = None ->
              CartController.bad_option color (Product.colors p) = None ->
              a = Inventory.Available (Product.stock p)
                    (Inventory.sanitizeProduct p))
        /\ (forall p,
              DB.products (DB.db w) !! pid = Some p ->
              Product.isActive p = true ->
              (Product.stock p <= 0)%Z ->
              a = Inventory.Unavailable "Out of stock"
                    (Some (Inventory.sanitizeProduct p)))).
Proof.
  cbv zeta. unfold Inventory.checkInventory.
  destruct (Product_findById_read pid w)
    as [(w1 & Hrd & Hdb1 & Hpr1 & _ & Hgood)|(e & w1 & Hrd & Hdb1 & Hpr1 & _ & Hbad)].
  2:{ erewrite bind_throw by exact Hrd. cbn [fst snd].
      split; [exact Hdb1|]. split; [exact Hpr1|].
      unfold next_io_ok. intros Hok. congruence. }
  erewrite bind_ok by exact Hrd.
  assert (Hret : forall a : Inventory.availability,
             DB.ret a w1 = (DB.Ok a, w1)) by reflexivity.
  destruct (DB.products (DB.db w) !! pid) as [p|] eqn:Hp.
  2:{ rewrite Hret. cbn [fst snd]. split; [exact Hdb1|]. split; [exact Hpr1|].
      intros _. eexists. split; [reflexivity|].
      split; [intros n pp [=]|]. split; intros p' [=]. }
  destruct (Product.isActive p) eqn:Hact; cbn [negb].
  2:{ rewrite Hret. cbn [fst snd]. split; [exact Hdb1|]. split; [exact Hpr1|].
      intros _. eexists. split; [reflexivity|].
      split; [intros n pp [=]|].
      split; intros p' [= <-] Hact'; congruence. }
  destruct (Product.stock p <=? 0)%Z eqn:Hstock.
  { apply Z.leb_le in Hstock.
    rewrite Hret. cbn [fst snd]. split; [exact Hdb1|]. split; [exact Hpr1|].
    intros _. eexists. split; [reflexivity|].
    split; [intros n pp [=]|].
    split; intros p' [= <-] _ H; [lia | reflexivity]. }
  apply Z.leb_gt in Hstock.
  destruct (CartController.bad_option size (Product.sizes p)) as [bad|] eqn:Hsize.
  { rewrite Hret. cbn [fst snd]. split; [exact Hdb1|]. split; [exact Hpr1|].
    intros _. eexists. split; [reflexivity|].
    split; [intros n pp [=]|].
    split; intros p' [= <-] _ H; [|lia]. intros Hs. congruence. }
  assert (Hyes : forall a,
             a = Inventory.Available (Product.stock p) (Inventory.sanitizeProduct p) ->
             (forall n pp,
                a = Inventory.Available n pp ->
                exists p0,
                  Some p = Some p0
                  /\ Product.isActive p0 = true
                  /\ (0 < Product.stock p0)%Z
                  /\ n = Product.stock p0
                  /\ pp = Inventory.sanitizeProduct p0
                  /\ CartController.bad_option size (Product.sizes p0) = None)).
  { intros a -> n pp [= <- <-]. exists p. repeat split; assumption. }
  destruct (truthy color) as [c|] eqn:Hcolor.
  2:{ rewrite Hret. cbn [fst snd]. split; [exact Hdb1|]. split; [exact Hpr1|].
      intros _. eexists. split; [reflexivity|].
      split; [apply Hyes; reflexivity|].
      split; intros p' [= <-] _ H; [reflexivity | lia]. }
  destruct (negb (Nat.eqb (length (Product.colors p)) 0)
            && negb (Inventory.color_match c (Product.colors p))) eqn:Hbadc.
  - rewrite Hret. cbn [fst snd]. split; [exact Hdb1|]. split; [exact Hpr1|].
    intros _. eexists. split; [reflexivity|].
    split; [intros n pp [=]|].
    split; intros p' [= <-] _ H; [|lia]. intros _ Hc. exfalso.
    unfold CartController.bad_option in Hc. rewrite Hcolor in Hc.
    apply andb_true_iff in Hbadc as (Hlen & Hno).
    rewrite Hlen in Hc. cbn [andb] in Hc.
    destruct (Str.mem c (Product.colors p)) eqn:Hmem; [|discriminate].
    rewrite (mem_color_match _ _ Hmem) in Hno. discriminate.
  - rewrite Hret. cbn [fst snd]. split; [exact Hdb1|]. split; [exact Hpr1|].
    intros _. eexists. split; [reflexivity|].
    split; [apply Hyes; reflexivity|].
    split; intros p' [= <-] _ H; [reflexivity | lia].
Qed.

(** ** Coupons created by the admin *)







